(** * Clapshot API server: a shallow embedding of [api_server.py]

    The Socket.IO handlers and the HTTP upload handler of
    [clapshot_server/api_server.py] are modelled as computations in a small
    state-and-exception monad over a [World] that holds the storage
    collaborator, the file system, the Socket.IO registry (sessions and room
    membership), the server's [userid_to_sid] dict and the trace of emitted
    events. *)

From Stdlib Require Import ZArith.
From Stdlib.Strings Require Import String Ascii Byte.
From stdpp Require Import base option list strings gmap.

Local Open Scope Z_scope.

(** ** Python values used by the handlers *)

Definition bytes := list Byte.byte.

(** Exceptions that the modelled code can raise. *)
Inductive exn :=
| AssertionError (msg : string)
| KeyError (key : string)
| AttributeError (msg : string)
| TypeError (msg : string)
| UnboundLocalError (name : string)
| PermissionError (path : string)
| IsADirectoryError (path : string)
| InvalidDataURI
| StorageError
| TransportError
| Exception (msg : string).

(** [str(e)], used for the [details] of error notifications. *)
Definition exn_str (e : exn) : string :=
  match e with
  | AssertionError m => m
  | KeyError k => "'" +:+ k +:+ "'"
  | AttributeError m => m
  | TypeError m => m
  | UnboundLocalError n =>
      "local variable '" +:+ n +:+ "' referenced before assignment"
  | PermissionError p => "[Errno 13] Permission denied: '" +:+ p +:+ "'"
  | IsADirectoryError p => "[Errno 21] Is a directory: '" +:+ p +:+ "'"
  | InvalidDataURI => "invalid data URI"
  | StorageError => "storage error"
  | TransportError => "transport error"
  | Exception m => m
  end.

(** Truthiness of a Python [str]. *)
Definition truthy (s : string) : bool :=
  match s with EmptyString => false | _ => true end.

(** [o or None] / truthiness of an optional string: [None] and [''] are falsy. *)
Definition truthy_opt (o : option string) : bool :=
  match o with Some s => truthy s | None => false end.

(** [a or b] on optional strings. *)
Definition py_or (a b : option string) : option string :=
  if truthy_opt a then a else b.

(** [x or None] on an optional integer: [0] is falsy. *)
Definition int_or_none (o : option Z) : option Z :=
  match o with
  | Some 0 => None
  | other => other
  end.

(** [s.startswith(p)] *)
Definition startswith (p s : string) : bool := String.prefix p s.

(** [s.split(sep)] for a one-character separator. *)
Fixpoint split_go (sep : ascii) (cur : string) (s : string) : list string :=
  match s with
  | EmptyString => [String.rev cur]
  | String c s' =>
      if Ascii.eqb c sep then String.rev cur :: split_go sep EmptyString s'
      else split_go sep (String c cur) s'
  end.

Definition split (sep : ascii) (s : string) : list string :=
  split_go sep EmptyString s.

(** [s.rstrip('/')] *)
Fixpoint lstrip_slash (s : string) : string :=
  match s with
  | String c s' => if Ascii.eqb c "/" then lstrip_slash s' else s
  | EmptyString => EmptyString
  end.

Definition rstrip_slash (s : string) : string :=
  String.rev (lstrip_slash (String.rev s)).

(** [s[:n]] *)
Definition str_take (n : nat) (s : string) : string := String.substring 0 n s.

(** [sep.join(parts)] *)
Fixpoint str_join (sep : string) (parts : list string) : string :=
  match parts with
  | [] => ""
  | [p] => p
  | p :: ps => p +:+ sep +:+ str_join sep ps
  end.

(** ** [pathlib.Path] (POSIX flavour)

    A path is an optional root and a list of components; parsing drops empty
    components and [.] components, as [pathlib] does. *)

Record Path := mkPath { p_root : bool; p_parts : list string }.

Definition keep_part (s : string) : bool :=
  negb (String.eqb s "" || String.eqb s ".").

(** [Path(s)] *)
Definition path_of (s : string) : Path :=
  {| p_root := startswith "/" s;
     p_parts := List.filter keep_part (split "/" s) |}.

(** [p / s]: an absolute right operand replaces the left one. *)
Definition path_join (p : Path) (s : string) : Path :=
  let q := path_of s in
  if p_root q then q
  else {| p_root := p_root p; p_parts := p_parts p ++ p_parts q |}.

(** [p.name]: the final component, or [''] when there is none. *)
Definition path_name (p : Path) : string := List.last (p_parts p) "".

(** [p.parent] *)
Definition path_parent (p : Path) : Path :=
  {| p_root := p_root p; p_parts := List.removelast (p_parts p) |}.

(** [str(p)] *)
Definition path_str (p : Path) : string :=
  match p_root p, p_parts p with
  | false, [] => "."
  | false, ps => str_join "/" ps
  | true, ps => "/" +:+ str_join "/" ps
  end.

(** The path itself and all its ancestors that have at least one component:
    the directories [mkdir(parents=True)] makes sure exist. *)
Definition path_chain (p : Path) : list Path :=
  List.map (fun n => {| p_root := p_root p; p_parts := take n (p_parts p) |})
           (seq 1 (length (p_parts p))).

(** ** File system *)

Record FileSystem := mkFS {
  fs_dirs   : gset string;          (* existing directories *)
  fs_files  : gmap string bytes;    (* regular files and their contents *)
  fs_denied : gset string           (* paths whose creation the OS refuses *)
}.

(** [p.exists()] *)
Definition fs_exists (f : FileSystem) (p : Path) : bool :=
  bool_decide (path_str p ∈ fs_dirs f) ||
  bool_decide (is_Some (fs_files f !! path_str p)).

(** [p.mkdir(parents=True, exist_ok=True)]: fails when the OS refuses one of
    the directories that have to be created. *)
Definition fs_mkdir_parents (f : FileSystem) (p : Path) : exn + FileSystem :=
  let missing :=
    List.filter (fun s => negb (bool_decide (s ∈ fs_dirs f)))
                (List.map path_str (path_chain p)) in
  match List.find (fun s => bool_decide (s ∈ fs_denied f)) missing with
  | Some s => inl (PermissionError s)
  | None =>
      inr {| fs_dirs := fs_dirs f ∪ list_to_set missing;
             fs_files := fs_files f;
             fs_denied := fs_denied f |}
  end.

(** [open(p, 'wb')] followed by writing [data] and closing. *)
Definition fs_write (f : FileSystem) (p : Path) (data : bytes)
  : exn + FileSystem :=
  if bool_decide (path_str p ∈ fs_denied f) then
    inl (PermissionError (path_str p))
  else
    inr {| fs_dirs := fs_dirs f;
           fs_files := <[path_str p := data]> (fs_files f);
           fs_denied := fs_denied f |}.

(** ** External libraries

    [hashlib], [datauri], [urllib.parse], [decimal] and [datetime] are not
    part of the repository: the handlers are parametric in them. *)
Class Platform := {
  (* hashlib.sha256(data).hexdigest() *)
  sha256_hexdigest : bytes -> string;
  (* DataURI(s): the mimetype and the decoded data, or a parse error *)
  datauri_parse : string -> option (string * bytes);
  (* DataURI.make(mimetype, charset='utf-8', base64=True, data=data) *)
  datauri_make : string -> bytes -> string;
  (* urllib.parse.quote(s, safe='') *)
  url_quote : string -> string;
  (* str(round(Decimal(fps), 3)) *)
  fps_round3 : string -> string;
  (* t.isoformat() *)
  isoformat : Z -> string
}.

(** ** Data model of the storage collaborator

    The module [clapshot_server.database] is imported by [api_server.py] but
    is not among the sources; its rows and queries are modelled below. *)

(** Modelled from the spec: the [Video] row of the missing [database] module
    (spec section 3: hash, owner id and name, filename, duration, fps, added
    time, transcoded flag), with the attribute names [api_server.py] reads. *)
Record Video := mkVideo {
  video_hash : string;
  added_by_userid : string;
  added_by_username : string;
  added_time : Z;
  orig_filename : string;
  recompression_done : bool;
  fps : string;
  duration : Z
}.

(** Modelled from the spec: the [Comment] row of the missing [database]
    module (spec section 3), with the attribute names [api_server.py] uses;
    [c_id] is unset until the storage assigns it. *)
Record Comment := mkComment {
  c_id : option Z;
  c_video_hash : string;
  c_parent_id : option Z;
  c_user_id : string;
  c_username : string;
  c_comment : string;
  c_timecode : string;
  c_drawing : option string
}.

(** Modelled from the spec: the [Message] row (notification) of the missing
    [database] module (spec section 3); [m_id] and [m_created] are assigned
    by the storage, [m_seen] starts unset. *)
Record Message := mkMessage {
  m_id : option Z;
  m_event_name : string;
  m_user_id : string;
  m_ref_video_hash : option string;
  m_ref_comment_id : option Z;
  m_message : string;
  m_details : option string;
  m_seen : bool;
  m_created : option Z
}.

(** [Message(event_name=.., user_id=.., ref_video_hash=.., ref_comment_id=..,
    message=.., details=..)] as the handlers build it. *)
Definition new_Message (event_name user_id : string)
    (ref_video_hash : option string) (ref_comment_id : option Z)
    (message : string) (details : option string) : Message :=
  {| m_id := None; m_event_name := event_name; m_user_id := user_id;
     m_ref_video_hash := ref_video_hash; m_ref_comment_id := ref_comment_id;
     m_message := message; m_details := details;
     m_seen := false; m_created := None |}.

Global Instance Comment_eq_dec : EqDecision Comment.
Proof. solve_decision. Defined.
Global Instance Message_eq_dec : EqDecision Message.
Proof. solve_decision. Defined.
Global Instance Video_eq_dec : EqDecision Video.
Proof. solve_decision. Defined.

(** Modelled from the spec: the state of the missing [Database]: rows in
    storage (insertion) order, the storage clock, and whether the storage
    currently fails every call with an error. *)
Record Database := mkDB {
  db_videos : list Video;
  db_comments : list Comment;
  db_messages : list Message;
  db_now : Z;
  db_fails : bool
}.

Definition set_comments (d : Database) (cs : list Comment) : Database :=
  {| db_videos := db_videos d; db_comments := cs;
     db_messages := db_messages d; db_now := db_now d;
     db_fails := db_fails d |}.

Definition set_messages (d : Database) (ms : list Message) : Database :=
  {| db_videos := db_videos d; db_comments := db_comments d;
     db_messages := ms; db_now := db_now d; db_fails := db_fails d |}.

(** The id a new row gets: one more than the largest id in the table. *)
Definition next_id (ids : list (option Z)) : Z :=
  1 + List.fold_right (fun o acc => Z.max (default 0 o) acc) 0 ids.

(** ** Socket.IO registry and the world *)

Record Session := mkSession { s_user_id : string; s_username : string }.

(** Fields of the dict built by [dict_for_video]. *)
Record VideoDict := mkVideoDict {
  vd_orig_filename : string;
  vd_video_hash : string;
  vd_video_url : string;
  vd_fps : string;
  vd_added_time : string;
  vd_duration : Z;
  vd_username : string;
  vd_user_id : string
}.

(** Events the server emits, by event name. *)
Inductive Event :=
| welcome_ev (username user_id : string)
| user_videos_ev (username user_id : string) (videos : list VideoDict)
| open_video_ev (fields : VideoDict)
| new_comment_ev (data : Comment)
| del_comment_ev (comment_id : Z)
| message_ev (m : Message).

(** One [sio.emit(event, data, room=room)]: the target room and the
    connections that were members of it when the event was emitted. *)
Record Emission := mkEmission {
  em_room : string;
  em_to : gset string;
  em_event : Event
}.

Record World := mkWorld {
  w_db : Database;
  w_fs : FileSystem;
  w_sessions : gmap string Session;        (* sid -> saved session *)
  w_rooms : gmap string (gset string);     (* room -> member sids *)
  userid_to_sid : gmap string string;      (* self.userid_to_sid *)
  w_sent : list Emission;                  (* everything emitted so far *)
  w_emit_fails : bool;                     (* the transport raises on emit *)
  w_ingested : list (string * string)      (* calls of ingest_callback *)
}.

Definition set_db (w : World) (d : Database) : World :=
  {| w_db := d; w_fs := w_fs w; w_sessions := w_sessions w;
     w_rooms := w_rooms w; userid_to_sid := userid_to_sid w;
     w_sent := w_sent w; w_emit_fails := w_emit_fails w;
     w_ingested := w_ingested w |}.

Definition set_fs (w : World) (f : FileSystem) : World :=
  {| w_db := w_db w; w_fs := f; w_sessions := w_sessions w;
     w_rooms := w_rooms w; userid_to_sid := userid_to_sid w;
     w_sent := w_sent w; w_emit_fails := w_emit_fails w;
     w_ingested := w_ingested w |}.

Definition set_sessions (w : World) (s : gmap string Session) : World :=
  {| w_db := w_db w; w_fs := w_fs w; w_sessions := s;
     w_rooms := w_rooms w; userid_to_sid := userid_to_sid w;
     w_sent := w_sent w; w_emit_fails := w_emit_fails w;
     w_ingested := w_ingested w |}.

Definition set_rooms (w : World) (r : gmap string (gset string)) : World :=
  {| w_db := w_db w; w_fs := w_fs w; w_sessions := w_sessions w;
     w_rooms := r; userid_to_sid := userid_to_sid w;
     w_sent := w_sent w; w_emit_fails := w_emit_fails w;
     w_ingested := w_ingested w |}.

Definition set_userid_to_sid (w : World) (m : gmap string string) : World :=
  {| w_db := w_db w; w_fs := w_fs w; w_sessions := w_sessions w;
     w_rooms := w_rooms w; userid_to_sid := m;
     w_sent := w_sent w; w_emit_fails := w_emit_fails w;
     w_ingested := w_ingested w |}.

Definition set_sent (w : World) (l : list Emission) : World :=
  {| w_db := w_db w; w_fs := w_fs w; w_sessions := w_sessions w;
     w_rooms := w_rooms w; userid_to_sid := userid_to_sid w;
     w_sent := l; w_emit_fails := w_emit_fails w;
     w_ingested := w_ingested w |}.

Definition set_ingested (w : World) (l : list (string * string)) : World :=
  {| w_db := w_db w; w_fs := w_fs w; w_sessions := w_sessions w;
     w_rooms := w_rooms w; userid_to_sid := userid_to_sid w;
     w_sent := w_sent w; w_emit_fails := w_emit_fails w;
     w_ingested := l |}.

(** ** The monad of handlers: state passing with exceptions *)

Inductive result (A : Type) :=
| Ok (a : A)
| Raise (e : exn).
Arguments Ok {A} a.
Arguments Raise {A} e.

Definition M (A : Type) : Type := World -> result A * World.

Definition ret {A} (a : A) : M A := fun w => (Ok a, w).

Definition raise {A} (e : exn) : M A := fun w => (Raise e, w).

Definition bind {A B} (m : M A) (k : A -> M B) : M B :=
  fun w =>
    match m w with
    | (Ok a, w') => k a w'
    | (Raise e, w') => (Raise e, w')
    end.

(** [try: body  except Exception as e: handler e] *)
Definition try_except {A} (body : M A) (handler : exn -> M A) : M A :=
  fun w =>
    match body w with
    | (Ok a, w') => (Ok a, w')
    | (Raise e, w') => handler e w'
    end.

Definition get_world : M World := fun w => (Ok w, w).

Definition modify (f : World -> World) : M unit := fun w => (Ok tt, f w).

(** [assert cond, msg] *)
Definition assert_ (cond : bool) (msg : string) : M unit :=
  if cond then ret tt else raise (AssertionError msg).

Definition lift_sum {A} (r : exn + A) : M A :=
  match r with inl e => raise e | inr a => ret a end.

Declare Scope handler_scope.
Delimit Scope handler_scope with handler.
Notation "'let!' x ':=' m 'in' k" := (bind m (fun x => k))
  (at level 10, x pattern, m at level 100, k at level 200) : handler_scope.
Notation "m '>>>' k" := (bind m (fun _ => k))
  (at level 190, right associativity) : handler_scope.
Local Open Scope handler_scope.

(** Run a handler and keep the final world / the result. *)
Definition exec {A} (m : M A) (w : World) : World := snd (m w).
Definition eval {A} (m : M A) (w : World) : result A := fst (m w).

(** ** The storage collaborator's calls *)

Module Db.

(** Every call of the storage raises while the storage is failing. *)
Definition call {A} (f : Database -> A * Database) : M A :=
  fun w =>
    if db_fails (w_db w) then (Raise StorageError, w)
    else let '(a, d) := f (w_db w) in (Ok a, set_db w d).

Definition has_id (id : Z) (c : Comment) : bool :=
  bool_decide (c_id c = Some id).

Definition with_id (c : Comment) (id : Z) : Comment :=
  {| c_id := Some id; c_video_hash := c_video_hash c;
     c_parent_id := c_parent_id c; c_user_id := c_user_id c;
     c_username := c_username c; c_comment := c_comment c;
     c_timecode := c_timecode c; c_drawing := c_drawing c |}.

Definition with_text (c : Comment) (text : string) : Comment :=
  {| c_id := c_id c; c_video_hash := c_video_hash c;
     c_parent_id := c_parent_id c; c_user_id := c_user_id c;
     c_username := c_username c; c_comment := text;
     c_timecode := c_timecode c; c_drawing := c_drawing c |}.

Definition with_seen (m : Message) (b : bool) : Message :=
  {| m_id := m_id m; m_event_name := m_event_name m;
     m_user_id := m_user_id m; m_ref_video_hash := m_ref_video_hash m;
     m_ref_comment_id := m_ref_comment_id m; m_message := m_message m;
     m_details := m_details m; m_seen := b; m_created := m_created m |}.

Definition stamped (m : Message) (id now : Z) : Message :=
  {| m_id := Some id; m_event_name := m_event_name m;
     m_user_id := m_user_id m; m_ref_video_hash := m_ref_video_hash m;
     m_ref_comment_id := m_ref_comment_id m; m_message := m_message m;
     m_details := m_details m; m_seen := m_seen m;
     m_created := Some now |}.

(** Modelled from the spec: [Database.get_video] of the missing [database]
    module ("fetch video"): the video with that hash, or [None]. *)
Definition get_video (h : string) : M (option Video) :=
  call (fun d =>
    (List.find (fun v => String.eqb (video_hash v) h) (db_videos d), d)).

(** Modelled from the spec: [Database.get_all_user_videos] of the missing
    [database] module ("list video"): the videos that user added, in
    storage order. *)
Definition get_all_user_videos (user_id : string) : M (list Video) :=
  call (fun d =>
    (List.filter (fun v => String.eqb (added_by_userid v) user_id)
                 (db_videos d), d)).

(** Modelled from the spec: [Database.del_video_and_comments] of the missing
    [database] module ("delete video", a cascade delete: "removes the video
    and all its comments as one logical unit"). *)
Definition del_video_and_comments (h : string) : M unit :=
  call (fun d =>
    (tt,
     {| db_videos :=
          List.filter (fun v => negb (String.eqb (video_hash v) h))
                      (db_videos d);
        db_comments :=
          List.filter (fun c => negb (String.eqb (c_video_hash c) h))
                      (db_comments d);
        db_messages := db_messages d; db_now := db_now d;
        db_fails := db_fails d |})).

(** Modelled from the spec: [Database.get_video_comments] of the missing
    [database] module ("list comment"): the comments of the video, in
    storage order. *)
Definition get_video_comments (h : string) : M (list Comment) :=
  call (fun d =>
    (List.filter (fun c => String.eqb (c_video_hash c) h) (db_comments d),
     d)).

(** Modelled from the spec: [Database.get_comment] of the missing
    [database] module ("fetch comment"): the comment with that id, or
    [None]. *)
Definition get_comment (id : Z) : M (option Comment) :=
  call (fun d => (List.find (has_id id) (db_comments d), d)).

(** Modelled from the spec: [Database.add_comment] of the missing
    [database] module ("add comment", atomic at the single-record level):
    the row is appended as given and gets a fresh id, which the caller's
    [Comment] object carries afterwards. *)
Definition add_comment (c : Comment) : M Comment :=
  call (fun d =>
    let c' := with_id c (next_id (List.map c_id (db_comments d))) in
    (c', set_comments d (db_comments d ++ [c']))).

(** Modelled from the spec: [Database.edit_comment] of the missing
    [database] module ("edit comment"): replaces the text of the comment
    with that id. *)
Definition edit_comment (id : Z) (text : string) : M unit :=
  call (fun d =>
    (tt, set_comments d
           (List.map (fun c => if has_id id c then with_text c text else c)
                     (db_comments d)))).

(** Modelled from the spec: [Database.del_comment] of the missing
    [database] module ("delete comment"): removes the comment with that
    id. *)
Definition del_comment (id : Z) : M unit :=
  call (fun d =>
    (tt, set_comments d
           (List.filter (fun c => negb (has_id id c)) (db_comments d)))).

(** Modelled from the spec: [Database.add_message] of the missing
    [database] module ("written through the storage collaborator, which
    assigns its id and timestamp"): returns the stored row. *)
Definition add_message (m : Message) : M Message :=
  call (fun d =>
    let m' := stamped m (next_id (List.map m_id (db_messages d)))
                      (db_now d) in
    (m', set_messages d (db_messages d ++ [m']))).

(** Modelled from the spec: [Database.get_user_messages] of the missing
    [database] module ("list notification"): the stored notifications of
    that recipient, in storage order. *)
Definition get_user_messages (user_id : string) : M (list Message) :=
  call (fun d =>
    (List.filter (fun m => String.eqb (m_user_id m) user_id)
                 (db_messages d), d)).

(** Modelled from the spec: [Database.set_message_seen] of the missing
    [database] module ("mark-seen notification"): sets the [seen] flag of
    the notification with that id. *)
Definition set_message_seen (id : option Z) (b : bool) : M unit :=
  call (fun d =>
    (tt, set_messages d
           (List.map (fun m => if bool_decide (m_id m = id)
                               then with_seen m b else m)
                     (db_messages d)))).

End Db.

(** ** Socket.IO server calls *)

(** The connections that are in [room] now. *)
Definition members (w : World) (room : string) : gset string :=
  default ∅ (w_rooms w !! room).

(** [sio.emit(event, data, room=room)] *)
Definition sio_emit (ev : Event) (room : string) : M unit :=
  fun w =>
    if w_emit_fails w then (Raise TransportError, w)
    else (Ok tt,
          set_sent w (w_sent w ++
            [{| em_room := room; em_to := members w room; em_event := ev |}])).

(** [sio.enter_room(sid, room)] *)
Definition enter_room (sid room : string) : M unit :=
  modify (fun w =>
    set_rooms w (<[room := members w room ∪ {[sid]}]> (w_rooms w))).

(** [sio.save_session(sid, session)] *)
Definition save_session (sid : string) (s : Session) : M unit :=
  modify (fun w => set_sessions w (<[sid := s]> (w_sessions w))).

(** [sio.get_session(sid)] *)
Definition get_session (sid : string) : M Session :=
  fun w =>
    match w_sessions w !! sid with
    | Some s => (Ok s, w)
    | None => (Raise (KeyError "Session not found"), w)
    end.

(** What Socket.IO does itself when a client connects, before the [connect]
    handler runs: every connection is a member of the room named by its
    sid. *)
Definition sio_register (sid : string) : M unit := enter_room sid sid.

(** What Socket.IO does itself after the [disconnect] handler has run: the
    connection leaves all rooms and its session is dropped. *)
Definition sio_unregister (sid : string) : M unit :=
  modify (fun w =>
    set_sessions
      (set_rooms w ((fun s : gset string => s ∖ {[sid]}) <$> w_rooms w))
      (delete sid (w_sessions w))).

(** Python's [for x in xs: body x] *)
Fixpoint for_each {A} (xs : list A) (body : A -> M unit) : M unit :=
  match xs with
  | [] => ret tt
  | x :: rest => body x >>> for_each rest body
  end.

(** Payload of a client-to-server event: the keys the handlers read, each
    possibly absent. *)
Record Msg := mkMsg {
  msg_video_hash : option string;
  msg_comment_id : option Z;
  msg_parent_id : option Z;
  msg_comment : option string;
  msg_timecode : option string;
  msg_drawing : option string
}.

(** [msg[key]] *)
Definition subscript {A} (key : string) (v : option A) : M A :=
  match v with
  | Some a => ret a
  | None => raise (KeyError key)
  end.

(** Server configuration ([self.url_base], [self.videos_dir], ...). *)
Record Config := mkConfig {
  url_base : string;
  videos_dir : Path;
  upload_dir : Path;
  ingest_callback : bool      (* whether a callback is configured *)
}.

(** ** [ClapshotApiServer] *)

Section ClapshotApiServer.
Context `{Platform} (self : Config).

(** [user_from_headers]: [(user_id, username)] from the proxy's headers. *)
Definition user_from_headers (headers : gmap string string)
  : string * string :=
  let user_id :=
    py_or (py_or (headers !! "HTTP_X_REMOTE_USER_ID")
                 (headers !! "X-Remote-User-Id"))
          (headers !! "X-REMOTE-USER-ID") in
  let user_name :=
    py_or (py_or (headers !! "HTTP_X_REMOTE_USER_NAME")
                 (headers !! "X-Remote-User-Name"))
          (headers !! "X-REMOTE-USER-NAME") in
  (default "anonymous" (py_or user_id (Some "anonymous")),
   default "Anonymous" (py_or user_name (Some "Anonymous"))).

(** [get_user] *)
Definition get_user (sid : string) : M (string * string) :=
  let! session := get_session sid in
  ret (s_user_id session, s_username session).

(** [dict_for_video] *)
Definition dict_for_video (v : Video) : VideoDict :=
  let video_url :=
    rstrip_slash (url_base self) +:+ "/video/" +:+ video_hash v +:+ "/" +:+
    (if recompression_done v then "video.mp4"
     else "orig/" +:+ url_quote (orig_filename v)) in
  {| vd_orig_filename := orig_filename v;
     vd_video_hash := video_hash v;
     vd_video_url := video_url;
     vd_fps := fps_round3 (fps v);
     vd_added_time := isoformat (added_time v);
     vd_duration := duration v;
     vd_username := added_by_username v;
     vd_user_id := added_by_userid v |}.

(** [push_message(msg, dont_throw, persist)] *)
Definition push_message (msg : Message) (dont_throw persist : bool)
  : M unit :=
  let! msg :=
    (if persist then
       try_except (Db.add_message msg)
         (fun e => if negb dont_throw then raise e else ret msg)
     else ret msg) in
  try_except
    (let! w := get_world in
     match userid_to_sid w !! m_user_id msg with
     | Some sid => sio_emit (message_ev msg) sid
     | None => ret tt
     end)
    (fun e => if negb dont_throw then raise e else ret tt).

(** The shape shared by the event handlers:
    [try: user_id, username = await self.get_user(sid); body
     except Exception as e: handler].
    The [except] block reads [user_id]; when [get_user] itself raised, the
    name is unbound and the [except] block fails in turn. *)
Definition handler_try (sid : string)
    (body : string -> string -> M unit)
    (on_error : string -> exn -> M unit) : M unit :=
  fun w =>
    match get_user sid w with
    | (Raise _, w') => (Raise (UnboundLocalError "user_id"), w')
    | (Ok (user_id, username), w') =>
        try_except (body user_id username) (on_error user_id) w'
    end.

Definition with_drawing (c : Comment) (d : option string) : Comment :=
  {| c_id := c_id c; c_video_hash := c_video_hash c;
     c_parent_id := c_parent_id c; c_user_id := c_user_id c;
     c_username := c_username c; c_comment := c_comment c;
     c_timecode := c_timecode c; c_drawing := d |}.

(** [open(path, 'rb').read()] *)
Definition fs_read (f : FileSystem) (p : Path) : exn + bytes :=
  match fs_files f !! path_str p with
  | Some data => inr data
  | None => inl (IsADirectoryError (path_str p))
  end.

(** Where the drawing [fn] of a comment on [video_hash] lives:
    [self.videos_dir / video_hash / 'drawings' / fn]. *)
Definition drawing_file (video_hash fn : string) : Path :=
  path_join (path_join (path_join (videos_dir self) video_hash) "drawings")
            fn.

(** The first half of [_emit_new_comment]: the payload [data] built from
    [c.to_dict()]; a drawing stored as a file is read and inlined as a
    data URI, a missing one is flagged in the text. *)
Definition comment_data (f : FileSystem) (c : Comment) : exn + Comment :=
  match c_drawing c with
  | Some drawing =>
      if truthy drawing && negb (startswith "data:" drawing) then
        let path := drawing_file (c_video_hash c) drawing in
        if fs_exists f path then
          match fs_read f path with
          | inr content =>
              inr (with_drawing c (Some (datauri_make "image/webp" content)))
          | inl e => inl e
          end
        else
          inr (Db.with_text c (c_comment c +:+ " [DRAWING NOT FOUND]"))
      else inr c
  | None => inr c
  end.

(** [_emit_new_comment]: sends a comment to a room. *)
Definition _emit_new_comment (c : Comment) (room : string) : M unit :=
  let! w := get_world in
  let! data := lift_sum (comment_data (w_fs w) c) in
  sio_emit (new_comment_ev data) room.

(** [open_video] *)
Definition open_video (sid : string) (msg : Msg) : M unit :=
  handler_try sid
    (fun user_id username =>
       let! video_hash := subscript "video_hash" (msg_video_hash msg) in
       let! v := Db.get_video video_hash in
       match v with
       | None =>
           push_message
             (new_Message "error" user_id (Some video_hash) None
                          "No such video." None)
             false false
       | Some v =>
           enter_room sid video_hash >>>
           let fields := dict_for_video v in
           sio_emit (open_video_ev fields) sid >>>
           let! cs := Db.get_video_comments video_hash in
           for_each cs (fun c => _emit_new_comment c sid)
       end)
    (fun user_id e =>
       push_message
         (new_Message "error" user_id (msg_video_hash msg) None
                      "Failed to lookup video." (Some (exn_str e)))
         true false).

(** [list_my_videos] *)
Definition list_my_videos (sid : string) (msg : Msg) : M unit :=
  handler_try sid
    (fun user_id username =>
       let! videos := Db.get_all_user_videos user_id in
       sio_emit (user_videos_ev username user_id
                                (List.map dict_for_video videos)) sid)
    (fun user_id e =>
       push_message
         (new_Message "error" user_id None None
                      "Failed to list your videos." (Some (exn_str e)))
         true false).

(** The [details] of the confirmation [del_video] sends. *)
Definition deleted_details (v : Video) : string :=
  "Added by " +:+ added_by_username v +:+ " (" +:+ added_by_userid v +:+
  ") on " +:+ isoformat (added_time v) +:+ ". Filename was '" +:+
  orig_filename v +:+ "'".

(** [del_video] *)
Definition del_video (sid : string) (msg : Msg) : M unit :=
  handler_try sid
    (fun user_id username =>
       let! video_hash := subscript "video_hash" (msg_video_hash msg) in
       let! v := Db.get_video video_hash in
       match v with
       | None =>
           push_message
             (new_Message "error" user_id (Some video_hash) None
                          "No such video. Cannot delete." None)
             false false
       | Some v =>
           assert_ (String.eqb user_id (added_by_userid v) ||
                    String.eqb user_id "admin")
                   ("Video '" +:+ video_hash +:+
                    "' not owned by you. Cannot delete.") >>>
           Db.del_video_and_comments video_hash >>>
           push_message
             (new_Message "ok" user_id (Some video_hash) None
                          "Video deleted." (Some (deleted_details v)))
             false true
       end)
    (fun user_id e =>
       push_message
         (new_Message "error" user_id (msg_video_hash msg) None
                      "Failed to delete video." (Some (exn_str e)))
         true true).

(** The drawing part of [add_comment]: parses the data URI and writes the
    image to a content-addressed file; returns the value [drawing] holds
    afterwards. *)
Definition store_drawing (video_hash : string) (drawing : option string)
  : M (option string) :=
  if truthy_opt drawing then
    let drawing := default "" drawing in
    assert_ (startswith "data:" drawing) "Drawing is not a data URI." >>>
    let! img_uri :=
      (match datauri_parse drawing with
       | Some u => ret u
       | None => raise InvalidDataURI
       end) in
    let '(mimetype, data) := img_uri in
    assert_ (String.eqb mimetype "image/webp")
            "Invalid mimetype in drawing." >>>
    let! ext :=
      (match split "/" mimetype !! 1%nat with
       | Some e => ret e
       | None => raise (Exception "list index out of range")
       end) in
    let sha256 := sha256_hexdigest data in
    let fn := str_take 16 sha256 +:+ "." +:+ ext in
    let drawing_path := drawing_file video_hash fn in
    let! w := get_world in
    let! f := lift_sum (fs_mkdir_parents (w_fs w)
                                         (path_parent drawing_path)) in
    let! f := lift_sum (fs_write f drawing_path data) in
    modify (fun w => set_fs w f) >>>
    ret (Some fn)
  else ret drawing.

(** [add_comment] *)
Definition add_comment (sid : string) (msg : Msg) : M unit :=
  handler_try sid
    (fun user_id username =>
       assert_ (truthy user_id && truthy username) "" >>>
       let! video_hash := subscript "video_hash" (msg_video_hash msg) in
       let! vid := Db.get_video video_hash in
       match vid with
       | None =>
           push_message
             (new_Message "error" user_id (Some video_hash) None
                          "No such video. Cannot comment." None)
             false false
       | Some _ =>
           let! drawing := store_drawing video_hash (msg_drawing msg) in
           let c :=
             {| c_id := None;
                c_video_hash := video_hash;
                c_parent_id := int_or_none (msg_parent_id msg);
                c_user_id := user_id;
                c_username := username;
                c_comment := default "" (py_or (msg_comment msg) (Some ""));
                c_timecode := default "" (py_or (msg_timecode msg) (Some ""));
                c_drawing := py_or drawing None |} in
           let! c := Db.add_comment c in
           _emit_new_comment c video_hash
       end)
    (fun user_id e =>
       push_message
         (new_Message "error" user_id (msg_video_hash msg) None
                      "Failed to add comment." (Some (exn_str e)))
         true false).

(** [old.video_hash], [old.user_id] on the result of [get_comment]. *)
Definition attr_of_comment (old : option Comment) : M Comment :=
  match old with
  | Some c => ret c
  | None =>
      raise (AttributeError
               "'NoneType' object has no attribute 'video_hash'")
  end.

(** [user_id in (owner, 'admin')] *)
Definition owner_or_admin (user_id owner : string) : bool :=
  String.eqb user_id owner || String.eqb user_id "admin".

(** [edit_comment] *)
Definition edit_comment (sid : string) (msg : Msg) : M unit :=
  handler_try sid
    (fun user_id username =>
       assert_ (truthy user_id && truthy username) "" >>>
       let! comment_id := subscript "comment_id" (msg_comment_id msg) in
       let! comment := subscript "comment" (msg_comment msg) in
       let! old := Db.get_comment comment_id in
       let! old := attr_of_comment old in
       let video_hash := c_video_hash old in
       assert_ (owner_or_admin user_id (c_user_id old))
               "You can only edit your own comments" >>>
       Db.edit_comment comment_id comment >>>
       sio_emit (del_comment_ev comment_id) video_hash >>>
       let! c := Db.get_comment comment_id in
       let! c := attr_of_comment c in
       _emit_new_comment c video_hash)
    (fun user_id e =>
       push_message
         (new_Message "error" user_id (msg_video_hash msg)
                      (msg_comment_id msg)
                      "Failed to edit comment." (Some (exn_str e)))
         true false).

(** The body of the loop over [all_comm] in [del_comment]. *)
Definition refuse_reply (comment_id : Z) (c : Comment) : M unit :=
  if bool_decide (c_parent_id c = Some comment_id) then
    raise (Exception "Can't delete a comment that has replies")
  else ret tt.

(** [del_comment] *)
Definition del_comment (sid : string) (msg : Msg) : M unit :=
  handler_try sid
    (fun user_id username =>
       assert_ (truthy user_id && truthy username) "" >>>
       let! comment_id := subscript "comment_id" (msg_comment_id msg) in
       let! old := Db.get_comment comment_id in
       let! old := attr_of_comment old in
       let video_hash := c_video_hash old in
       assert_ (owner_or_admin user_id (c_user_id old))
               "You can only delete your own comments" >>>
       let! all_comm := Db.get_video_comments video_hash in
       for_each all_comm (refuse_reply comment_id) >>>
       Db.del_comment comment_id >>>
       sio_emit (del_comment_ev comment_id) video_hash)
    (fun user_id e =>
       push_message
         (new_Message "error" user_id None (msg_comment_id msg)
                      "Failed to delete comment." (Some (exn_str e)))
         true false).

(** The body of the loop over [msgs] in [list_my_messages]. *)
Definition emit_and_mark (sid : string) (m : Message) : M unit :=
  sio_emit (message_ev m) sid >>>
  if negb (m_seen m) then Db.set_message_seen (m_id m) true else ret tt.

(** [list_my_messages] *)
Definition list_my_messages (sid : string) (msg : Msg) : M unit :=
  handler_try sid
    (fun user_id username =>
       assert_ (truthy user_id) "" >>>
       let! msgs := Db.get_user_messages user_id in
       for_each msgs (emit_and_mark sid))
    (fun user_id e =>
       sio_emit
         (message_ev (new_Message "error" user_id None None
                                  "Failed to get messages."
                                  (Some (exn_str e))))
         sid).

(** [connect] *)
Definition connect (sid : string) (environ : gmap string string) : M unit :=
  let '(user_id, username) := user_from_headers environ in
  save_session sid {| s_user_id := user_id; s_username := username |} >>>
  modify (fun w =>
    set_userid_to_sid w (<[user_id := sid]> (userid_to_sid w))) >>>
  sio_emit (welcome_ev username user_id) sid >>>
  enter_room sid "huoneusto".

(** [disconnect] *)
Definition disconnect (sid : string) : M unit :=
  let! session := get_session sid in
  let user_id := s_user_id session in
  modify (fun w => set_userid_to_sid w (delete user_id (userid_to_sid w))).

(** A client connects: Socket.IO registers the connection, then runs the
    [connect] handler. *)
Definition client_connects (sid : string) (environ : gmap string string)
  : M unit :=
  sio_register sid >>> connect sid environ.

(** A client goes away: Socket.IO runs the [disconnect] handler, then
    forgets the connection. *)
Definition client_disconnects (sid : string) : M unit :=
  disconnect sid >>> sio_unregister sid.

(** [logout]: [sio.disconnect(sid)] *)
Definition logout (sid : string) : M unit := client_disconnects sid.

(** *** HTTP upload *)

(** One part of the multipart body: its field name, the file name of its
    content disposition if any, and the chunks [read_chunk] yields. *)
Record Field := mkField {
  f_name : string;
  f_filename : option string;
  f_chunks : list bytes
}.

Record Request := mkRequest {
  req_headers : gmap string string;
  req_fields : list Field
}.

(** [web.Response(status=.., text=..)] *)
Record Response := mkResponse { status : Z; text : string }.

(** What the reader and writer tasks move from the field to the file:
    the chunks up to the first empty one. *)
Fixpoint relay (chunks : list bytes) : bytes :=
  match chunks with
  | [] => []
  | c :: rest => match c with [] => [] | _ => c ++ relay rest end
  end.

(** The [else] branch of the loop body: the field is [fileupload].
    [uuid] is what [uuid4()] returns. *)
Definition save_upload (user_id uuid : string) (field : Field)
  : M Response :=
  let! filename :=
    (match f_filename field with
     | Some fn => ret fn
     | None => raise (TypeError "expected str, bytes or os.PathLike object, not NoneType")
     end) in
  assert_ (String.eqb (path_name (path_of filename)) filename)
          "Filename must not contain path" >>>
  let dst := path_join (path_join (upload_dir self) uuid)
                       (path_name (path_of filename)) in
  let! w := get_world in
  assert_ (negb (fs_exists (w_fs w) dst)) "Upload dst already exists" >>>
  let! saved :=
    try_except
      (let! f := lift_sum (fs_mkdir_parents (w_fs w) (path_parent dst)) in
       modify (fun w => set_fs w f) >>>
       let! f := lift_sum (fs_write f dst (relay (f_chunks field))) in
       modify (fun w => set_fs w f) >>>
       ret None)
      (fun e =>
         match e with
         | PermissionError _ =>
             ret (Some {| status := 500;
                          text := "Permission error saving upload" |})
         | _ => raise e
         end) in
  match saved with
  | Some response => ret response
  | None =>
      (if ingest_callback self then
         modify (fun w =>
           set_ingested w (w_ingested w ++ [(path_str dst, user_id)]))
       else ret tt) >>>
      ret {| status := 200; text := "Upload OK" |}
  end.

(** One iteration of [async for field in (await request.multipart())]:
    [Some response] when the iteration returns from the handler, [None]
    when it falls through to the next field. *)
Definition upload_iteration (user_id uuid : string) (field : Field)
  : M (option Response) :=
  let! early :=
    (if negb (String.eqb (f_name field) "fileupload") then
       ret None   (* only a debug log line *)
     else
       let! response := save_upload user_id uuid field in
       ret (Some response)) in
  match early with
  | Some response => ret (Some response)
  | None =>
      ret (Some {| status := 400; text := "No fileupload field in POST" |})
  end.

(** The [async for] loop: the handler returns as soon as an iteration
    returns; when the fields run out the loop ends without a response. *)
Fixpoint upload_loop (user_id uuid : string) (fields : list Field)
  : M (option Response) :=
  match fields with
  | [] => ret None
  | field :: rest =>
      let! r := upload_iteration user_id uuid field in
      match r with
      | Some response => ret (Some response)
      | None => upload_loop user_id uuid rest
      end
  end.

(** [post_upload_file]: [None] is the handler ending without a
    [return]. *)
Definition post_upload_file (uuid : string) (request : Request)
  : M (option Response) :=
  let '(user_id, _) := user_from_headers (req_headers request) in
  assert_ (truthy user_id) "No user_id for upload" >>>
  upload_loop user_id uuid (req_fields request).

(** *** The server as a transition system *)

(** What can happen to the server: a Socket.IO event of a connection, an
    HTTP upload, or a message taken from the [push_messages] queue by
    [run_server] (pushed with [persist=True, dont_throw=True]). *)
Inductive Input :=
| on_connect (sid : string) (environ : gmap string string)
| on_disconnect (sid : string)
| on_logout (sid : string)
| on_list_my_videos (sid : string) (msg : Msg)
| on_open_video (sid : string) (msg : Msg)
| on_del_video (sid : string) (msg : Msg)
| on_add_comment (sid : string) (msg : Msg)
| on_edit_comment (sid : string) (msg : Msg)
| on_del_comment (sid : string) (msg : Msg)
| on_list_my_messages (sid : string) (msg : Msg)
| on_upload (uuid : string) (request : Request)
| on_queued_message (msg : Message).

(** One step of the server. *)
Definition step (i : Input) (w : World) : World :=
  match i with
  | on_connect sid environ => exec (client_connects sid environ) w
  | on_disconnect sid => exec (client_disconnects sid) w
  | on_logout sid => exec (logout sid) w
  | on_list_my_videos sid msg => exec (list_my_videos sid msg) w
  | on_open_video sid msg => exec (open_video sid msg) w
  | on_del_video sid msg => exec (del_video sid msg) w
  | on_add_comment sid msg => exec (add_comment sid msg) w
  | on_edit_comment sid msg => exec (edit_comment sid msg) w
  | on_del_comment sid msg => exec (del_comment sid msg) w
  | on_list_my_messages sid msg => exec (list_my_messages sid msg) w
  | on_upload uuid request => exec (post_upload_file uuid request) w
  | on_queued_message msg => exec (push_message msg true true) w
  end.

(** The world after a sequence of inputs. *)
Definition run (inputs : list Input) (w : World) : World :=
  List.fold_left (fun w i => step i w) inputs w.

End ClapshotApiServer.

(** ** Concrete instances for running the handlers *)

Module Demo.

Definition bytes_of_string (s : string) : bytes := list_byte_of_string s.
Definition string_of_bytes (b : bytes) : string := string_of_list_byte b.

Definition hex_digit (n : N) : ascii :=
  default "0"%char (String.get (N.to_nat n) "0123456789abcdef").

Fixpoint hex_of_bytes (b : bytes) : string :=
  match b with
  | [] => ""
  | x :: rest =>
      let n := Byte.to_N x in
      String (hex_digit (n / 16)) (String (hex_digit (n mod 16))
                                          (hex_of_bytes rest))
  end.

(** Text before and after the first occurrence of [sep]. *)
Fixpoint cut (sep : ascii) (s : string) : string * option string :=
  match s with
  | EmptyString => (EmptyString, None)
  | String c s' =>
      if Ascii.eqb c sep then (EmptyString, Some s')
      else let '(a, b) := cut sep s' in (String c a, b)
  end.

(** An executable stand-in for the external libraries: the digest is the
    hexadecimal dump of the data followed by zeros, data URIs carry their
    payload verbatim, and quoting and formatting are the identity. *)
Global Instance platform : Platform := {|
  sha256_hexdigest data :=
    str_take 64 (hex_of_bytes data +:+
      "0000000000000000000000000000000000000000000000000000000000000000");
  datauri_parse s :=
    if startswith "data:" s then
      match cut "," (String.substring 5 (String.length s) s) with
      | (header, Some payload) =>
          Some (fst (cut ";" header), bytes_of_string payload)
      | (_, None) => None
      end
    else None;
  datauri_make mimetype data :=
    "data:" +:+ mimetype +:+ ";charset=utf-8;base64," +:+
    string_of_bytes data;
  url_quote s := s;
  fps_round3 s := s;
  isoformat t := "1970-01-01T00:00:00"
|}.

Definition cfg : Config :=
  {| url_base := "https://example.com/";
     videos_dir := path_of "/data/videos";
     upload_dir := path_of "/data/upload";
     ingest_callback := true |}.

Definition video (h owner : string) : Video :=
  {| video_hash := h; added_by_userid := owner;
     added_by_username := owner; added_time := 0;
     orig_filename := h +:+ ".mov"; recompression_done := true;
     fps := "25"; duration := 10 |}.

(** A server that has just started, with two ingested videos. *)
Definition w0 : World :=
  {| w_db := {| db_videos := [video "vid1" "alice"; video "vid2" "bob"];
                db_comments := []; db_messages := [];
                db_now := 1000; db_fails := false |};
     w_fs := {| fs_dirs := {["/data"; "/data/videos"; "/data/upload"]};
                fs_files := ∅; fs_denied := ∅ |};
     w_sessions := ∅; w_rooms := ∅; userid_to_sid := ∅;
     w_sent := []; w_emit_fails := false; w_ingested := [] |}.

Definition headers_of (user_id user_name : string) : gmap string string :=
  {[ "HTTP_X_REMOTE_USER_ID" := user_id;
     "HTTP_X_REMOTE_USER_NAME" := user_name ]}.

Definition no_msg : Msg :=
  {| msg_video_hash := None; msg_comment_id := None;
     msg_parent_id := None; msg_comment := None; msg_timecode := None;
     msg_drawing := None |}.

(** [{'video_hash': h, 'parent_id': p, 'comment': text}] *)
Definition comment_msg (h : string) (p : option Z) (text : string) : Msg :=
  {| msg_video_hash := Some h; msg_comment_id := None;
     msg_parent_id := p; msg_comment := Some text; msg_timecode := None;
     msg_drawing := None |}.

(** [{'comment_id': id}] *)
Definition id_msg (id : Z) : Msg :=
  {| msg_video_hash := None; msg_comment_id := Some id;
     msg_parent_id := None; msg_comment := None; msg_timecode := None;
     msg_drawing := None |}.

(** Alice is connected as [s1]. *)
Definition w1 : World :=
  exec (client_connects "s1" (headers_of "alice" "Alice")) w0.

(** Alice, connected as [s1], has commented on [vid1] and then replied to
    that comment from [vid2]. *)
Definition w_thread : World :=
  run cfg [on_connect "s1" (headers_of "alice" "Alice");
           on_add_comment "s1" (comment_msg "vid1" None "first");
           on_add_comment "s1" (comment_msg "vid2" (Some 1) "reply")] w0.

(** Alice has commented on [vid1] and replied to her own comment there. *)
Definition w_replied : World :=
  run cfg [on_connect "s1" (headers_of "alice" "Alice");
           on_add_comment "s1" (comment_msg "vid1" None "first");
           on_add_comment "s1" (comment_msg "vid1" (Some 1) "reply")] w0.

Definition alice : Session :=
  {| s_user_id := "alice"; s_username := "Alice" |}.

(** The comment Alice stored first. *)
Definition first_comment : Comment :=
  {| c_id := Some 1; c_video_hash := "vid1"; c_parent_id := None;
     c_user_id := "alice"; c_username := "Alice"; c_comment := "first";
     c_timecode := ""; c_drawing := None |}.

(** Her reply to it on the same video. *)
Definition reply_comment : Comment :=
  {| c_id := Some 2; c_video_hash := "vid1"; c_parent_id := Some 1;
     c_user_id := "alice"; c_username := "Alice"; c_comment := "reply";
     c_timecode := ""; c_drawing := None |}.

(** [{'comment_id': id, 'comment': text}] *)
Definition edit_msg (id : Z) (text : string) : Msg :=
  {| msg_video_hash := None; msg_comment_id := Some id;
     msg_parent_id := None; msg_comment := Some text; msg_timecode := None;
     msg_drawing := None |}.

(** [{'video_hash': h, 'comment': text, 'drawing': uri}] *)
Definition drawing_msg (h text uri : string) : Msg :=
  {| msg_video_hash := Some h; msg_comment_id := None;
     msg_parent_id := None; msg_comment := Some text; msg_timecode := None;
     msg_drawing := Some uri |}.

(** A notification for Alice, as [del_video] builds it. *)
Definition note : Message :=
  new_Message "ok" "alice" (Some "vid1") None "Video deleted." None.

(** An upload field whose file name climbs out of the upload directory. *)
Definition evil_field : Field :=
  {| f_name := "fileupload"; f_filename := Some "../a.mov";
     f_chunks := [[x01]; [x02]] |}.

End Demo.

(** ** Auxiliary definitions used in the statements *)

(** Best-effort live delivery of [m], the second half of [push_message]. *)
Definition deliver (dont_throw : bool) (m : Message) : M unit :=
  fun w =>
    match userid_to_sid w !! m_user_id m with
    | Some sid =>
        if w_emit_fails w then
          (if dont_throw then Ok tt else Raise TransportError, w)
        else
          (Ok tt,
           set_sent w (w_sent w ++
             [{| em_room := sid; em_to := members w sid;
                 em_event := message_ev m |}]))
    | None => (Ok tt, w)
    end.

(** The row [Db.add_message] stores for [msg] in [w]. *)
Definition persisted (msg : Message) (w : World) : Message :=
  Db.stamped msg (next_id (List.map m_id (db_messages (w_db w))))
             (db_now (w_db w)).

(** The same world with the storage failing (or working again). *)
Definition with_db_fails (w : World) (b : bool) : World :=
  set_db w {| db_videos := db_videos (w_db w);
              db_comments := db_comments (w_db w);
              db_messages := db_messages (w_db w);
              db_now := db_now (w_db w); db_fails := b |}.

(** What is emitted for [m] to the connection [sid] in [w]. *)
Definition message_emission (w : World) (sid : string) (m : Message)
  : Emission :=
  {| em_room := sid; em_to := members w sid; em_event := message_ev m |}.

(** The stored notifications of [w] are still there in [w'], unchanged and
    in the same order, possibly followed by new ones. *)
Definition messages_kept (w w' : World) : Prop :=
  exists extra : list Message,
    db_messages (w_db w') = db_messages (w_db w) ++ extra.

(** A computation that keeps the relation [R] between the world it starts
    in and the world it leaves, whatever it does and however it ends. *)
Definition keeps (R : World -> World -> Prop) {A} (m : M A) : Prop :=
  forall w : World, R w (m w).2.

(** The stored comments are the same. *)
Definition comments_same (w w' : World) : Prop :=
  db_comments (w_db w') = db_comments (w_db w).

(** Whether an input is a [list_my_messages] event. *)
Definition is_listing (i : Input) : bool :=
  match i with on_list_my_messages _ _ => true | _ => false end.

(** The stored notifications of an identity, in storage order: what
    [get_user_messages] returns. *)
Definition messages_of (user_id : string) (w : World) : list Message :=
  List.filter (fun m => String.eqb (m_user_id m) user_id)
              (db_messages (w_db w)).

(** What a listing that returned [listed] does to a stored notification:
    the rows whose id is that of a listed unseen one are marked seen. *)
Definition mark_listed (listed : list Message) (m : Message) : Message :=
  if bool_decide
       (m_id m ∈ List.map m_id (List.filter (fun x => negb (m_seen x)) listed))
  then Db.with_seen m true else m.

(** What [sio.emit(ev, room=room)] records in [w]. *)
Definition emission (w : World) (room : string) (ev : Event) : Emission :=
  {| em_room := room; em_to := members w room; em_event := ev |}.

(** The stored comments of a video, in storage order: what
    [get_video_comments] returns. *)
Definition comments_of (h : string) (w : World) : list Comment :=
  List.filter (fun c => String.eqb (c_video_hash c) h)
              (db_comments (w_db w)).

(** The stored video with hash [h]: what [get_video] returns. *)
Definition video_of (h : string) (w : World) : option Video :=
  List.find (fun v => String.eqb (video_hash v) h) (db_videos (w_db w)).

(** The stored comment with id [id]: what [get_comment] returns. *)
Definition comment_of (id : Z) (w : World) : option Comment :=
  List.find (Db.has_id id) (db_comments (w_db w)).

(** The events a connection has been sent, oldest first. *)
Definition received (sid : string) (l : list Emission) : list Event :=
  List.map em_event (List.filter (fun e => bool_decide (sid ∈ em_to e)) l).

(** Whether [_emit_new_comment] would flag the drawing of [c] as not found:
    the comment names a drawing file and no such path exists. *)
Definition drawing_missing `{Platform} (self : Config) (f : FileSystem)
    (c : Comment) : bool :=
  match c_drawing c with
  | Some d =>
      truthy d && negb (startswith "data:" d) &&
      negb (fs_exists f (drawing_file self (c_video_hash c) d))
  | None => false
  end.

(** The text of a comment after [edit_comment]. *)
Definition edited (id : Z) (text : string) (c : Comment) : Comment :=
  if Db.has_id id c then Db.with_text c text else c.

(** The parent reference of [c] is unset or names a comment of [cs] on the
    same video. *)
Definition refers_to_sibling (cs : list Comment) (c : Comment) : Prop :=
  match c_parent_id c with
  | None => True
  | Some p =>
      exists c' : Comment,
        c' ∈ cs /\ c_id c' = Some p /\ c_video_hash c' = c_video_hash c
  end.

(** The invariant of the comment store the specification states. *)
Definition parents_ok (cs : list Comment) : Prop :=
  Forall (refers_to_sibling cs) cs.

(** The stored comments are the same, or one comment that satisfies [P] has
    been appended. *)
Definition appended_one (P : Comment -> Prop) (w w' : World) : Prop :=
  comments_same w w' \/
  exists c : Comment,
    db_comments (w_db w') = db_comments (w_db w) ++ [c] /\ P c.

(** Whether a comment of [cs] is a reply to the comment [id]. *)
Definition has_reply (id : Z) (cs : list Comment) : bool :=
  existsb (fun c => bool_decide (c_parent_id c = Some id)) cs.

(** Id, video and parent of the stored comments. *)
Definition thread_shape (w : World) : list (option Z * string * option Z) :=
  List.map (fun c => (c_id c, c_video_hash c, c_parent_id c))
           (db_comments (w_db w)).

(** The events emitted between [w] and the later world [w']. *)
Definition emitted_since (w w' : World) : list Event :=
  List.map em_event (drop (length (w_sent w)) (w_sent w')).

(** The [details] of the error notification [del_comment] pushes when the
    comment has a reply on its own video. *)
Definition refusal_details (s : Session) (old : Comment) : string :=
  if truthy (s_user_id s) && truthy (s_username s) then
    if owner_or_admin (s_user_id s) (c_user_id old)
    then "Can't delete a comment that has replies"
    else "You can only delete your own comments"
  else "".

(** The name [add_comment] gives the file of a drawing with the bytes
    [data] and the media type [image/webp]:
    [f"{sha256[:16]}.{ext}"]. *)
Definition drawing_name `{Platform} (data : bytes) : string :=
  str_take 16 (sha256_hexdigest data) +:+ "." +:+ "webp".

(** The directories [mkdir(parents=True)] has to create for [p] in [f]. *)
Definition missing_dirs (f : FileSystem) (p : Path) : list string :=
  List.filter (fun s => negb (bool_decide (s ∈ fs_dirs f)))
              (List.map path_str (path_chain p)).

(** Whether a file name contains the path separator. *)
Fixpoint has_sep (s : string) : bool :=
  match s with
  | EmptyString => false
  | String c s' => Ascii.eqb c "/" || has_sep s'
  end.

(** Where [post_upload_file] saves a field with the file name [filename]:
    [Path(self.upload_dir) / str(uuid4()) / Path(filename).name]. *)
Definition upload_dst (self : Config) (uuid filename : string) : Path :=
  path_join (path_join (upload_dir self) uuid) (path_name (path_of filename)).

(** The responses of [post_upload_file]. *)
Definition upload_ok : Response := {| status := 200; text := "Upload OK" |}.
Definition no_field : Response :=
  {| status := 400; text := "No fileupload field in POST" |}.
Definition permission_error : Response :=
  {| status := 500; text := "Permission error saving upload" |}.



(** The notification of [kind] that a handler pushes to [user_id]. *)
Definition note_for (kind user_id : string) (ref_video_hash : option string)
    (ref_comment_id : option Z) (text : string) (details : option string)
  : Message :=
  new_Message kind user_id ref_video_hash ref_comment_id text details.

(** What is emitted when [m] is pushed in [w] with the transport working:
    one [message] event to the connection the recipient routes to, if
    any. *)
Definition delivered (w : World) (m : Message) : list Emission :=
  match userid_to_sid w !! m_user_id m with
  | Some r => [emission w r (message_ev m)]
  | None => []
  end.

(** Part [proj] of the world is the same. *)
Definition unchanged {X} (proj : World -> X) (w w' : World) : Prop :=
  proj w' = proj w.

(** No connection has left a room. *)
Definition rooms_grow (w w' : World) : Prop :=
  forall room : string, members w room ⊆ members w' room.

(** The inputs whose handlers call the storage to change comments. *)
Definition changes_comments (i : Input) : bool :=
  match i with
  | on_del_video _ _ | on_add_comment _ _ | on_edit_comment _ _
  | on_del_comment _ _ => true
  | _ => false
  end.

(** The inputs whose handlers write files. *)
Definition writes_files (i : Input) : bool :=
  match i with
  | on_add_comment _ _ | on_upload _ _ => true
  | _ => false
  end.

(** The inputs that end a connection. *)
Definition ends_connection (i : Input) : bool :=
  match i with
  | on_disconnect _ | on_logout _ => true
  | _ => false
  end.

(** The inputs that change the registry of connections. *)
Definition changes_registry (i : Input) : bool :=
  match i with
  | on_connect _ _ | on_disconnect _ | on_logout _ => true
  | _ => false
  end.

(** Every stored video of [w'] was already stored, unchanged, in [w]. *)
Definition videos_from (w w' : World) : Prop :=
  forall v : Video, v ∈ db_videos (w_db w') -> v ∈ db_videos (w_db w).

(** ** The CORS middleware and [run_server] *)

(** A response as it leaves the application: the handler's response and
    the headers the application has set on it. *)
Record Served := mkServed {
  sv_response : Response;
  sv_headers : gmap string string
}.

(** [_cors_middleware]: runs the handler and sets the header on its
    response; a handler that returned nothing has no [headers]. *)
Definition _cors_middleware (handler : Request -> M (option Response))
    (request : Request) : M Served :=
  let! response := handler request in
  match response with
  | Some r =>
      ret {| sv_response := r;
             sv_headers := {[ "Access-Control-Allow-Origin" := "*" ]} |}
  | None =>
      raise (AttributeError "'NoneType' object has no attribute 'headers'")
  end.

(** The loop of [run_server],
    [while msg := await push_messages.get(): await server.push_message(msg,
    persist=True, dont_throw=True)], over what the queue hands out: a
    message, or [None], which ends the loop. [Some tt] is the loop having
    ended; when the queue has nothing more to hand out the loop waits, which
    is [None]. *)
Fixpoint serve_queue (queue : list (option Message)) : M (option unit) :=
  match queue with
  | [] => ret None
  | None :: _ => ret (Some tt)
  | Some msg :: rest => push_message msg true true >>> serve_queue rest
  end.

(** [run_server]: [error_state] is [db.error_state], [site_starts] is
    whether setting up the runner and starting the site succeeds, [queue]
    is what [push_messages] hands out. The result is the value returned,
    or [None] while the server still waits on the queue. *)
Definition run_server (error_state : option string) (site_starts : bool)
    (queue : list (option Message)) : M (option bool) :=
  try_except
    (if truthy_opt error_state then ret (Some false)
     else
       (if site_starts then ret tt
        else raise (Exception "error while attempting to bind on address")) >>>
       let! ended := serve_queue queue in
       match ended with
       | Some _ => ret (Some true)
       | None => ret None
       end)
    (fun e => ret (Some false)).

(** The messages the queue hands out before the first [None]. *)
Fixpoint before_sentinel (queue : list (option Message)) : list Message :=
  match queue with
  | Some msg :: rest => msg :: before_sentinel rest
  | _ => []
  end.

(** Whether the queue hands out a [None]. *)
Definition has_sentinel (queue : list (option Message)) : bool :=
  existsb (fun o => match o with None => true | Some _ => false end) queue.

(** What a notification says, apart from the id and the time the storage
    gives it. *)
Definition content (m : Message)
  : string * string * option string * option Z * string * option string *
    bool :=
  (m_event_name m, m_user_id m, m_ref_video_hash m, m_ref_comment_id m,
   m_message m, m_details m, m_seen m).

(** The same world with the transport failing (or working again). *)
Definition with_emit_fails (w : World) (b : bool) : World :=
  {| w_db := w_db w; w_fs := w_fs w; w_sessions := w_sessions w;
     w_rooms := w_rooms w; userid_to_sid := userid_to_sid w;
     w_sent := w_sent w; w_emit_fails := b; w_ingested := w_ingested w |}.

(** More concrete inputs. *)
Module Scene.

(** [{'video_hash': h}] *)
Definition video_msg (h : string) : Msg :=
  {| msg_video_hash := Some h; msg_comment_id := None;
     msg_parent_id := None; msg_comment := None; msg_timecode := None;
     msg_drawing := None |}.


(** What the queue hands out: a notification, the end marker, and a
    notification that is never taken. *)
Definition queue : list (option Message) :=
  [Some Demo.note; None; Some Demo.note].

End Scene.

(** Alice, connected as [s1], has opened [vid1] and commented on it with a
    drawing; the file of the drawing has since been removed from the disk,
    which holds the directories of a fresh server and nothing else. *)
Definition w_lost_drawing : World :=
  set_fs
    (run Demo.cfg
         [on_connect "s1" (Demo.headers_of "alice" "Alice");
          on_open_video "s1" (Scene.video_msg "vid1");
          on_add_comment "s1"
            (Demo.drawing_msg "vid1" "first" "data:image/webp;base64,AB")]
         Demo.w0)
    (w_fs Demo.w0).

(** The comment as stored in [w_lost_drawing]: the drawing is the name of
    the file [add_comment] wrote. *)
Definition lost_drawing_comment : Comment :=
  with_drawing Demo.first_comment (Some "4142000000000000.webp").

(** * Properties *)

(** Symbolic execution of a handler: unfolds the monad, the primitive calls
    and the record updates, and nothing else. *)
Ltac mrun :=
  cbv beta iota zeta delta
    [exec eval fst snd bind ret raise try_except get_world modify assert_
     lift_sum subscript Db.call sio_emit enter_room save_session get_session
     sio_register sio_unregister
     set_db set_fs set_sessions set_rooms set_userid_to_sid set_sent
     set_ingested set_comments set_messages
     w_db w_fs w_sessions w_rooms userid_to_sid w_sent w_emit_fails w_ingested
     db_videos db_comments db_messages db_now db_fails
     s_user_id s_username].

Ltac mrun_in H :=
  cbv beta iota zeta delta
    [exec eval fst snd bind ret raise try_except get_world modify assert_
     lift_sum subscript Db.call sio_emit enter_room save_session get_session
     sio_register sio_unregister
     set_db set_fs set_sessions set_rooms set_userid_to_sid set_sent
     set_ingested set_comments set_messages
     w_db w_fs w_sessions w_rooms userid_to_sid w_sent w_emit_fails w_ingested
     db_videos db_comments db_messages db_now db_fails
     s_user_id s_username] in H.

(** ** The registry: connect and disconnect *)

Lemma default_lookup_insert (rs : gmap string (gset string)) (a r : string)
    (X : gset string) :
  default ∅ (<[a := X]> rs !! r) =
  if decide (a = r) then X else default ∅ (rs !! r).
Proof.
  destruct (decide (a = r)) as [-> | Hr].
  - by rewrite lookup_insert_eq.
  - by rewrite lookup_insert_ne.
Qed.

Ltac mrooms :=
  unfold members; cbn [w_rooms];
  repeat (rewrite default_lookup_insert; destruct (decide _)).

(** What a connecting client changes in the registry. *)
Lemma client_connects_effect (sid : string) (environ : gmap string string)
    (w : World) :
  let w' := exec (client_connects sid environ) w in
  let u := user_from_headers environ in
  userid_to_sid w' = <[u.1 := sid]> (userid_to_sid w) /\
  w_sessions w' =
    <[sid := {| s_user_id := u.1; s_username := u.2 |}]> (w_sessions w) /\
  sid ∈ members w' sid /\
  (forall s : string, s ∈ members w s -> s ∈ members w' s).
Proof.
  destruct w as [d f ss rs us sent ef ing].
  unfold client_connects, connect.
  destruct (user_from_headers environ) as [u n].
  destruct ef; mrun; (split; [done|split; [done|]]).
  all: split; [|intros s]; mrooms; set_solver.
Qed.

(** What a disconnecting client changes in the registry. *)
Lemma client_disconnects_effect (sid : string) (s : Session) (w : World) :
  w_sessions w !! sid = Some s ->
  let w' := exec (client_disconnects sid) w in
  userid_to_sid w' = delete (s_user_id s) (userid_to_sid w) /\
  w_sessions w' = delete sid (w_sessions w) /\
  (forall r : string, members w' r = members w r ∖ {[sid]}).
Proof.
  destruct w as [d f ss rs us sent ef ing].
  unfold client_disconnects, disconnect. mrun. intros ->. mrun.
  split; [done|split; [done|]].
  intros r. unfold members; cbn [w_rooms]. rewrite lookup_fmap.
  destruct (rs !! r); cbn; set_solver.
Qed.

(** ** The mailbox: [push_message] *)

(** The decision table of [push_message]. *)
Lemma push_message_cases (msg : Message) (dont_throw persist : bool)
    (w : World) :
  push_message msg dont_throw persist w =
  if persist then
    if db_fails (w_db w) then
      if dont_throw then deliver dont_throw msg w
      else (Raise StorageError, w)
    else
      deliver dont_throw (persisted msg w)
        (set_db w (set_messages (w_db w)
                     (db_messages (w_db w) ++ [persisted msg w])))
  else deliver dont_throw msg w.
Proof.
  destruct w as [[vs cs ms now df] f ss rs us sent ef ing].
  unfold push_message, Db.add_message, deliver, persisted.
  destruct persist, df, dont_throw; mrun; cbn [negb]; try reflexivity.
  all: mrun.
  all: repeat match goal with
         | |- context [ ?m !! ?k ] => destruct (m !! k) eqn:?
         end; destruct ef; reflexivity.
Qed.

(** Nothing is emitted by a push to an identity that has no entry in
    [userid_to_sid]. *)
Lemma push_message_unrouted (msg : Message) (dont_throw persist : bool)
    (w : World) :
  userid_to_sid w !! m_user_id msg = None ->
  w_sent (exec (push_message msg dont_throw persist) w) = w_sent w.
Proof.
  intros Hroute. unfold exec. rewrite push_message_cases.
  destruct w as [[vs cs ms now df] f ss rs us sent ef ing].
  cbn in Hroute.
  destruct persist, df, dont_throw; unfold deliver, persisted; mrun;
    cbn [m_user_id Db.stamped]; try rewrite Hroute; reflexivity.
Qed.

(** C10: when an identity connects as [c1] and then again as [c2], the
    registry maps it to [c2]; a later disconnect of the superseded [c1]
    removes the identity's entry altogether, so the identity routes to no
    connection although [c2] is still live (it keeps its session and its own
    room), and a push addressed to the identity emits nothing. *)
Theorem disconnect_of_superseded_connection_unroutes
    (w : World) (c1 c2 : string) (e1 e2 : gmap string string)
    (msg : Message) (dont_throw persist : bool) :
  c1 ≠ c2 ->
  (user_from_headers e1).1 = (user_from_headers e2).1 ->
  m_user_id msg = (user_from_headers e1).1 ->
  let u := (user_from_headers e1).1 in
  let w1 := exec (client_connects c1 e1) w in
  let w2 := exec (client_connects c2 e2) w1 in
  let w3 := exec (client_disconnects c1) w2 in
  userid_to_sid w1 !! u = Some c1 /\
  userid_to_sid w2 !! u = Some c2 /\
  userid_to_sid w3 !! u = None /\
  is_Some (w_sessions w3 !! c2) /\
  c2 ∈ members w3 c2 /\
  w_sent (exec (push_message msg dont_throw persist) w3) = w_sent w3.
Proof.
  intros Hne Hu Hmsg u w1 w2 w3.
  destruct (client_connects_effect c1 e1 w) as (Hu1 & Hs1 & _ & _).
  destruct (client_connects_effect c2 e2 w1) as (Hu2 & Hs2 & Hm2 & _).
  fold w1 in Hu1, Hs1. fold w2 in Hu2, Hs2, Hm2. rewrite <- Hu in Hu2.
  fold u in Hu1, Hu2, Hs1.
  assert (Hc1 : w_sessions w2 !! c1 =
                Some {| s_user_id := u; s_username := (user_from_headers e1).2 |}).
  { rewrite Hs2, lookup_insert_ne by done. rewrite Hs1.
    apply lookup_insert_eq. }
  destruct (client_disconnects_effect c1 _ w2 Hc1) as (Hu3 & Hs3 & Hm3).
  fold w3 in Hu3, Hs3, Hm3. cbn [s_user_id] in Hu3.
  assert (Hnone : userid_to_sid w3 !! u = None).
  { rewrite Hu3. apply lookup_delete_eq. }
  repeat split.
  - rewrite Hu1. apply lookup_insert_eq.
  - rewrite Hu2. apply lookup_insert_eq.
  - exact Hnone.
  - rewrite Hs3, lookup_delete_ne by done. rewrite Hs2, lookup_insert_eq.
    eauto.
  - rewrite Hm3. set_solver.
  - apply push_message_unrouted. by rewrite Hmsg.
Qed.

(** C3 (as stated, refuted): Alice is connected and the transport works, but
    the storage fails; a push with [persist] set and [dont_throw] unset
    raises the persistence failure and ends there: nothing is emitted to
    Alice's connection, and the world is left as it was. *)
Lemma push_message_raised_persistence_failure_skips_delivery :
  userid_to_sid (with_db_fails Demo.w1 true) !! "alice" = Some "s1" /\
  w_emit_fails (with_db_fails Demo.w1 true) = false /\
  push_message (new_Message "ok" "alice" None None "Video deleted." None)
               false true (with_db_fails Demo.w1 true)
  = (Raise StorageError, with_db_fails Demo.w1 true).
Proof. vm_compute. repeat split; reflexivity. Qed.

(** C3 (amended): [push_message] first writes the notification through the
    storage when [persist] is set; a persistence failure is raised to the
    caller exactly when [dont_throw] is unset, and then the push ends
    without a delivery attempt and without any effect. In every other case
    (nothing to persist, persisted, or failure swallowed) live delivery is
    attempted: the notification (the stored row when it was persisted) is
    emitted to the connection the recipient identity routes to, exactly when
    there is one; a delivery failure is swallowed when [dont_throw] is set
    and raised otherwise. *)
Theorem push_message_persist_then_deliver
    (msg : Message) (dont_throw persist : bool) (w : World) :
  let r := push_message msg dont_throw persist w in
  let failed := persist && db_fails (w_db w) in
  let stored := persist && negb (db_fails (w_db w)) in
  let m := if stored then persisted msg w else msg in
  w_db r.2 =
    (if stored then set_messages (w_db w) (db_messages (w_db w) ++ [m])
     else w_db w) /\
  (r.1 = Raise StorageError <-> failed && negb dont_throw = true) /\
  (failed && negb dont_throw = true -> r.2 = w) /\
  (failed && negb dont_throw = false ->
   match userid_to_sid w !! m_user_id msg with
   | Some sid =>
       if w_emit_fails w then
         w_sent r.2 = w_sent w /\
         r.1 = (if dont_throw then Ok tt else Raise TransportError)
       else
         w_sent r.2 = w_sent w ++ [message_emission w sid m] /\ r.1 = Ok tt
   | None => w_sent r.2 = w_sent w /\ r.1 = Ok tt
   end).
Proof.
  cbv zeta. rewrite push_message_cases.
  destruct w as [[vs cs ms now df] f ss rs us sent ef ing].
  unfold deliver, persisted, message_emission, members.
  destruct persist, df, dont_throw; mrun; cbn [andb negb m_user_id Db.stamped];
    destruct (us !! m_user_id msg) eqn:Hroute; try destruct ef;
    cbn [fst snd w_db w_sent];
    repeat split; intros; try discriminate; try reflexivity; try done.
Qed.

(** ** Frame: computations that keep a relation between worlds *)

Section Frame.
Variable R : World -> World -> Prop.
Hypothesis R_refl : forall w, R w w.
Hypothesis R_trans : forall w1 w2 w3, R w1 w2 -> R w2 w3 -> R w1 w3.

Lemma keeps_ret {A} (a : A) : keeps R (ret a).
Proof. intros w. apply R_refl. Qed.

Lemma keeps_raise {A} (e : exn) : keeps R (@raise A e).
Proof. intros w. apply R_refl. Qed.

Lemma keeps_get_world : keeps R get_world.
Proof. intros w. apply R_refl. Qed.

Lemma keeps_bind {A B} (m : M A) (k : A -> M B) :
  keeps R m -> (forall a, keeps R (k a)) -> keeps R (bind m k).
Proof.
  intros Hm Hk w. unfold bind. specialize (Hm w).
  destruct (m w) as [[a | e] w']; cbn [snd] in *.
  - eapply R_trans; [exact Hm | apply Hk].
  - exact Hm.
Qed.

Lemma keeps_try_except {A} (m : M A) (h : exn -> M A) :
  keeps R m -> (forall e, keeps R (h e)) -> keeps R (try_except m h).
Proof.
  intros Hm Hh w. unfold try_except. specialize (Hm w).
  destruct (m w) as [[a | e] w']; cbn [snd] in *.
  - exact Hm.
  - eapply R_trans; [exact Hm | apply Hh].
Qed.

Lemma keeps_modify (f : World -> World) :
  (forall w, R w (f w)) -> keeps R (modify f).
Proof. intros Hf w. apply Hf. Qed.

Lemma keeps_call {A} (f : Database -> A * Database) :
  (forall w, R w (set_db w (f (w_db w)).2)) -> keeps R (Db.call f).
Proof.
  intros Hf w. unfold Db.call.
  destruct (db_fails (w_db w)); [apply R_refl|].
  specialize (Hf w). by destruct (f (w_db w)) as [a d].
Qed.

Lemma keeps_assert (b : bool) (s : string) : keeps R (assert_ b s).
Proof. destruct b; [apply keeps_ret | apply keeps_raise]. Qed.

Lemma keeps_lift_sum {A} (r : exn + A) : keeps R (lift_sum r).
Proof. destruct r; [apply keeps_raise | apply keeps_ret]. Qed.

Lemma keeps_subscript {A} (k : string) (v : option A) :
  keeps R (subscript k v).
Proof. destruct v; [apply keeps_ret | apply keeps_raise]. Qed.

Lemma keeps_sio_emit (ev : Event) (room : string) :
  (forall w l, R w (set_sent w l)) -> keeps R (sio_emit ev room).
Proof.
  intros Hs w. unfold sio_emit.
  destruct (w_emit_fails w); [apply R_refl | apply Hs].
Qed.

Lemma keeps_get_session (sid : string) : keeps R (get_session sid).
Proof.
  intros w. unfold get_session.
  destruct (w_sessions w !! sid); apply R_refl.
Qed.

Lemma keeps_for_each {A} (xs : list A) (body : A -> M unit) :
  (forall x, keeps R (body x)) -> keeps R (for_each xs body).
Proof.
  intros Hb. induction xs as [| x xs IH]; cbn [for_each].
  - apply keeps_ret.
  - apply keeps_bind; [apply Hb | intros _; exact IH].
Qed.

Lemma keeps_handler_try (sid : string)
    (body : string -> string -> M unit) (on_error : string -> exn -> M unit) :
  (forall u n, keeps R (body u n)) ->
  (forall u e, keeps R (on_error u e)) ->
  keeps R (handler_try sid body on_error).
Proof.
  intros Hb He w. unfold handler_try.
  pose proof (keeps_bind (get_session sid)
                (fun s => ret (s_user_id s, s_username s))
                (keeps_get_session sid) (fun s => keeps_ret _) w) as Hg.
  change (bind (get_session sid) _) with (get_user sid) in Hg.
  destruct (get_user sid w) as [[[u n] | e] w']; cbn [snd] in *.
  - eapply R_trans; [exact Hg|].
    apply keeps_try_except; [apply Hb | apply He].
  - exact Hg.
Qed.

End Frame.

(** One step of a frame proof; [side] proves that [R] is reflexive and
    transitive and that a primitive update keeps it. *)
Ltac keeps_step side :=
  first
    [ apply keeps_ret; side | apply keeps_raise; side
    | apply keeps_get_world; side
    | apply keeps_assert; side | apply keeps_lift_sum; side
    | apply keeps_subscript; side
    | apply keeps_get_session; side
    | apply keeps_sio_emit; [side | side]
    | apply keeps_bind; [side | | ]
    | apply keeps_try_except; [side | | ]
    | apply keeps_for_each; [side | side | ]
    | apply keeps_handler_try; [side | side | | ]
    | apply keeps_modify; side
    | apply keeps_call; [side | side]
    | match goal with
      | |- keeps _ (match ?x with _ => _ end) => destruct x
      end
    | match goal with
      | |- forall _, _ => intro
      end ].

Lemma messages_kept_refl (w : World) : messages_kept w w.
Proof. exists []. by rewrite app_nil_r. Qed.

Lemma messages_kept_trans (w1 w2 w3 : World) :
  messages_kept w1 w2 -> messages_kept w2 w3 -> messages_kept w1 w3.
Proof.
  intros [e1 H1] [e2 H2]. exists (e1 ++ e2). by rewrite H2, H1, app_assoc.
Qed.

Lemma messages_kept_eq (w w' : World) :
  db_messages (w_db w') = db_messages (w_db w) -> messages_kept w w'.
Proof. intros Heq. exists []. by rewrite app_nil_r. Qed.

Ltac messages_side :=
  first
    [ exact messages_kept_refl | exact messages_kept_trans
    | solve [ intros [[]]; intros; apply messages_kept_eq; reflexivity ]
    | solve [ intros [[]]; cbn; eexists; reflexivity ] ].

Section MessagesKept.
Context `{Platform} (self : Config).

Lemma keeps_push_message (msg : Message) (dont_throw persist : bool) :
  keeps messages_kept (push_message msg dont_throw persist).
Proof. unfold push_message, Db.add_message. repeat keeps_step messages_side. Qed.

Ltac keeps_handler :=
  unfold _emit_new_comment, store_drawing, attr_of_comment,
    Db.get_video, Db.get_video_comments, Db.get_comment, Db.add_comment,
    Db.edit_comment, Db.del_comment, Db.get_all_user_videos,
    Db.del_video_and_comments, enter_room, save_session, sio_register,
    sio_unregister;
  repeat first [ apply keeps_push_message
               | progress unfold refuse_reply, emit_and_mark
               | keeps_step messages_side ].

Lemma keeps_client_connects (sid : string) (environ : gmap string string) :
  keeps messages_kept (client_connects sid environ).
Proof. unfold client_connects, connect. keeps_handler. Qed.

Lemma keeps_client_disconnects (sid : string) :
  keeps messages_kept (client_disconnects sid).
Proof. unfold client_disconnects, disconnect. keeps_handler. Qed.

Lemma keeps_list_my_videos (sid : string) (msg : Msg) :
  keeps messages_kept (list_my_videos self sid msg).
Proof. unfold list_my_videos. keeps_handler. Qed.

Lemma keeps_open_video (sid : string) (msg : Msg) :
  keeps messages_kept (open_video self sid msg).
Proof. unfold open_video. keeps_handler. Qed.

Lemma keeps_del_video (sid : string) (msg : Msg) :
  keeps messages_kept (del_video sid msg).
Proof. unfold del_video. keeps_handler. Qed.

Lemma keeps_add_comment (sid : string) (msg : Msg) :
  keeps messages_kept (add_comment self sid msg).
Proof. unfold add_comment. keeps_handler. Qed.

Lemma keeps_edit_comment (sid : string) (msg : Msg) :
  keeps messages_kept (edit_comment self sid msg).
Proof. unfold edit_comment. keeps_handler. Qed.

Lemma keeps_del_comment (sid : string) (msg : Msg) :
  keeps messages_kept (del_comment sid msg).
Proof. unfold del_comment. keeps_handler. Qed.

Lemma keeps_post_upload_file (uuid : string) (request : Request) :
  keeps messages_kept (post_upload_file self uuid request).
Proof.
  unfold post_upload_file.
  destruct (user_from_headers (req_headers request)) as [user_id ?].
  keeps_handler.
  induction (req_fields request) as [| field rest IH]; cbn [upload_loop].
  - keeps_handler.
  - keeps_step messages_side; [| intros [r |]; [keeps_handler | exact IH]].
    unfold upload_iteration, save_upload. keeps_handler.
Qed.

(** No input other than [list_my_messages] changes a stored notification. *)
Lemma step_keeps_messages (i : Input) (w : World) :
  is_listing i = false -> messages_kept w (step self i w).
Proof.
  destruct i; cbn [is_listing step]; intros Hi; try discriminate.
  - apply keeps_client_connects.
  - apply keeps_client_disconnects.
  - apply keeps_client_disconnects.
  - apply keeps_list_my_videos.
  - apply keeps_open_video.
  - apply keeps_del_video.
  - apply keeps_add_comment.
  - apply keeps_edit_comment.
  - apply keeps_del_comment.
  - apply keeps_post_upload_file.
  - apply keeps_push_message.
Qed.

End MessagesKept.

(** ** The mailbox: [list_my_messages] *)

Lemma mark_listed_nil (m : Message) : mark_listed [] m = m.
Proof. unfold mark_listed. cbn. rewrite bool_decide_eq_false_2; [done | set_solver]. Qed.

Lemma mark_listed_cons_seen (x : Message) (l : list Message) (m : Message) :
  m_seen x = true -> mark_listed (x :: l) m = mark_listed l m.
Proof. intros Hx. unfold mark_listed. cbn [List.filter]. by rewrite Hx. Qed.

Lemma mark_listed_cons_unseen (x : Message) (l : list Message) (m : Message) :
  m_seen x = false ->
  mark_listed (x :: l) m =
  mark_listed l (if bool_decide (m_id m = m_id x) then Db.with_seen m true else m).
Proof.
  intros Hx. unfold mark_listed. cbn [List.filter List.map]. rewrite Hx. cbn [negb List.map].
  destruct (bool_decide (m_id m = m_id x)) eqn:Hid.
  - apply bool_decide_eq_true in Hid.
    rewrite bool_decide_eq_true_2 by (rewrite Hid; set_solver).
    cbn [m_id Db.with_seen]. by destruct (bool_decide _).
  - apply bool_decide_eq_false in Hid.
    destruct (bool_decide (m_id m ∈ List.map _ _)) eqn:Hin.
    + apply bool_decide_eq_true in Hin. rewrite bool_decide_eq_true_2; [done | set_solver].
    + apply bool_decide_eq_false in Hin. rewrite bool_decide_eq_false_2; [done | set_solver].
Qed.

Lemma listing_loop (sid : string) (l : list Message) :
  forall vs cs ms now f ss rs us sent ing,
  for_each l (emit_and_mark sid)
    (mkWorld (mkDB vs cs ms now false) f ss rs us sent false ing) =
  (Ok tt,
   mkWorld (mkDB vs cs (List.map (mark_listed l) ms) now false) f ss rs us
     (sent ++ List.map (fun m => {| em_room := sid; em_to := default ∅ (rs !! sid);
                                     em_event := message_ev m |}) l)
     false ing).
Proof.
  induction l as [| x l IH]; intros.
  - cbn [for_each List.map]. unfold ret. rewrite app_nil_r.
    rewrite (map_ext _ id) by apply mark_listed_nil. by rewrite map_id.
  - cbn [for_each]. unfold bind at 1. unfold emit_and_mark at 1.
    destruct (m_seen x) eqn:Hx; cbn [negb]; unfold Db.set_message_seen; mrun;
      unfold members; cbn [w_rooms]; rewrite IH.
    + rewrite <- app_assoc. cbn [List.map app].
      f_equal. f_equal. f_equal. apply map_ext. intros m. by rewrite mark_listed_cons_seen.
    + rewrite <- app_assoc. cbn [List.map app].
      f_equal. f_equal. f_equal. rewrite map_map. apply map_ext. intros m.
      by rewrite mark_listed_cons_unseen.
Qed.

(** [list_my_messages] by a connection with a session, storage and transport
    working: one [message] event per stored notification of the identity, in
    storage order, each carrying the row as it was stored before the
    listing; afterwards the listed unseen rows are marked seen. *)
Lemma list_my_messages_effect (sid : string) (s : Session) (m0 : Msg)
    (w : World) :
  w_sessions w !! sid = Some s ->
  truthy (s_user_id s) = true ->
  db_fails (w_db w) = false ->
  w_emit_fails w = false ->
  let w' := exec (list_my_messages sid m0) w in
  let listed := messages_of (s_user_id s) w in
  w_sent w' = w_sent w ++ List.map (message_emission w sid) listed /\
  db_messages (w_db w') = List.map (mark_listed listed) (db_messages (w_db w)) /\
  w_sessions w' = w_sessions w /\
  db_fails (w_db w') = false /\
  w_emit_fails w' = false /\
  (forall r : string, members w' r = members w r).
Proof.
  destruct w as [[vs cs ms now df] f ss rs us sent ef ing], s as [u n].
  cbn [w_sessions w_db db_fails w_emit_fails s_user_id].
  intros Hs Hu -> ->.
  unfold list_my_messages, handler_try, get_user, Db.get_user_messages,
    messages_of.
  mrun. rewrite Hs. mrun. rewrite Hu. mrun.
  rewrite listing_loop. cbn [snd fst]. unfold message_emission, members.
  cbn [w_rooms]. repeat split; reflexivity.
Qed.

Lemma mark_listed_user (l : list Message) (m : Message) :
  m_user_id (mark_listed l m) = m_user_id m.
Proof. unfold mark_listed. by destruct (bool_decide _). Qed.

Lemma mark_listed_id (l : list Message) (m : Message) :
  m_id (mark_listed l m) = m_id m.
Proof. unfold mark_listed. by destruct (bool_decide _). Qed.

(** A listed notification is seen once the listing has marked it. *)
Lemma mark_listed_seen (l : list Message) (m : Message) :
  m ∈ l -> m_seen (mark_listed l m) = true.
Proof.
  intros Hin. unfold mark_listed.
  destruct (bool_decide _) eqn:Hd; [reflexivity|].
  apply bool_decide_eq_false in Hd.
  destruct (m_seen m) eqn:Hm; [reflexivity|].
  exfalso. apply Hd. apply list_elem_of_In, in_map, filter_In.
  split; [by apply list_elem_of_In | by rewrite Hm].
Qed.

(** After a listing, every stored notification of the identity is seen. *)
Lemma listed_all_seen (user_id : string) (ms : list Message) (m : Message) :
  let listed := List.filter (fun m => String.eqb (m_user_id m) user_id) ms in
  m ∈ List.filter (fun m => String.eqb (m_user_id m) user_id)
        (List.map (mark_listed listed) ms) ->
  m_seen m = true.
Proof.
  intros listed Hin.
  apply list_elem_of_In, filter_In in Hin. destruct Hin as [Hin Hu].
  apply in_map_iff in Hin. destruct Hin as (m' & <- & Hin).
  rewrite mark_listed_user in Hu.
  apply mark_listed_seen, list_elem_of_In, filter_In. by split.
Qed.

Lemma messages_of_mark_listed_ids (user_id : string) (l ms : list Message) :
  List.map m_id
    (List.filter (fun m => String.eqb (m_user_id m) user_id)
                 (List.map (mark_listed l) ms)) =
  List.map m_id
    (List.filter (fun m => String.eqb (m_user_id m) user_id) ms).
Proof.
  induction ms as [| m ms IH]; [reflexivity|].
  cbn [List.map List.filter]. rewrite mark_listed_user.
  destruct (String.eqb (m_user_id m) user_id); cbn [List.map];
    rewrite ?mark_listed_id, IH; reflexivity.
Qed.

Lemma user_from_headers_truthy (headers : gmap string string) :
  truthy (user_from_headers headers).1 = true.
Proof.
  unfold user_from_headers. cbn [fst].
  generalize (py_or (py_or (headers !! "HTTP_X_REMOTE_USER_ID")
                           (headers !! "X-Remote-User-Id"))
                    (headers !! "X-REMOTE-USER-ID")).
  intros o. unfold py_or. destruct o as [s |]; cbn; [| reflexivity].
  destruct (truthy s) eqn:Hs; cbn; [exact Hs | reflexivity].
Qed.

(** A connecting client leaves the storage, the files and the state of the
    transport alone. *)
Lemma client_connects_frame (sid : string) (environ : gmap string string)
    (w : World) :
  let w' := exec (client_connects sid environ) w in
  w_db w' = w_db w /\ w_fs w' = w_fs w /\ w_emit_fails w' = w_emit_fails w.
Proof.
  destruct w as [d f ss rs us sent ef ing].
  unfold client_connects, connect.
  destruct (user_from_headers environ) as [u n].
  destruct ef; mrun; auto.
Qed.

(** A push to an identity without a routed connection, storage working:
    the notification is stored and nothing else changes. *)
Lemma push_message_offline (msg : Message) (dont_throw : bool) (w : World) :
  db_fails (w_db w) = false ->
  userid_to_sid w !! m_user_id msg = None ->
  push_message msg dont_throw true w =
  (Ok tt, set_db w (set_messages (w_db w)
                      (db_messages (w_db w) ++ [persisted msg w]))).
Proof.
  intros Hdb Hroute. rewrite push_message_cases, Hdb. unfold deliver.
  destruct w as [[vs cs ms now df] f ss rs us sent ef ing].
  cbn in Hroute |- *. by rewrite Hroute.
Qed.

(** What [push_message] does to the stored notifications: nothing, or one
    new row that carries the [seen] flag the pushed notification had. *)
Lemma push_message_seen (msg : Message) (dont_throw persist : bool)
    (w : World) :
  let w' := exec (push_message msg dont_throw persist) w in
  db_messages (w_db w') = db_messages (w_db w) \/
  (db_messages (w_db w') = db_messages (w_db w) ++ [persisted msg w] /\
   m_seen (persisted msg w) = m_seen msg).
Proof.
  cbv zeta. unfold exec. rewrite push_message_cases.
  destruct w as [[vs cs ms now df] f ss rs us sent ef ing].
  unfold deliver, persisted.
  destruct persist, df, dont_throw; mrun; cbn [m_user_id Db.stamped];
    destruct (us !! m_user_id msg); try destruct ef; cbn; auto.
Qed.

Section Mailbox.
Context `{Platform} (self : Config).

(** C4: no push ever sets a [seen] flag (it stores at most one new row, with
    the flag the pushed notification had, and leaves the stored rows alone),
    and no input other than [list_my_messages] changes a stored
    notification. A notification pushed with [persist] set to an identity
    without a connection is not emitted but stored unseen; when the identity
    connects and lists its messages, one [message] event per stored
    notification of the identity is emitted, the pushed one among them as
    stored (unseen); afterwards all of the identity's notifications are
    seen, so that a second listing emits the same notifications, all of them
    seen. *)
Theorem seen_only_by_listing
    (w : World) (msg : Message) (dont_throw : bool) (sid : string)
    (environ : gmap string string) (m0 : Msg) :
  db_fails (w_db w) = false ->
  w_emit_fails w = false ->
  userid_to_sid w !! m_user_id msg = None ->
  m_seen msg = false ->
  (user_from_headers environ).1 = m_user_id msg ->
  let user_id := m_user_id msg in
  let stored := persisted msg w in
  let w1 := exec (push_message msg dont_throw true) w in
  let w2 := exec (client_connects sid environ) w1 in
  let w3 := exec (list_my_messages sid m0) w2 in
  let w4 := exec (list_my_messages sid m0) w3 in
  (forall (m : Message) (d p : bool) (v : World),
     db_messages (w_db (exec (push_message m d p) v)) = db_messages (w_db v) \/
     (db_messages (w_db (exec (push_message m d p) v)) =
        db_messages (w_db v) ++ [persisted m v] /\
      m_seen (persisted m v) = m_seen m)) /\
  (forall (i : Input) (v : World),
     is_listing i = false -> messages_kept v (step self i v)) /\
  w_sent w1 = w_sent w /\
  db_messages (w_db w1) = db_messages (w_db w) ++ [stored] /\
  m_seen stored = false /\
  stored ∈ messages_of user_id w2 /\
  w_sent w3 =
    w_sent w2 ++ List.map (message_emission w2 sid) (messages_of user_id w2) /\
  (forall m : Message, m ∈ messages_of user_id w3 -> m_seen m = true) /\
  List.map m_id (messages_of user_id w3) =
    List.map m_id (messages_of user_id w2) /\
  w_sent w4 =
    w_sent w3 ++ List.map (message_emission w3 sid) (messages_of user_id w3).
Proof.
  intros Hdb Hemit Hroute Hseen Huser user_id stored w1 w2 w3 w4.
  assert (Hw1 : w1 = set_db w (set_messages (w_db w)
                                 (db_messages (w_db w) ++ [stored]))).
  { unfold w1, exec. by rewrite push_message_offline. }
  destruct (client_connects_frame sid environ w1) as (Hdb2 & _ & Hemit2).
  destruct (client_connects_effect sid environ w1) as (_ & Hss2 & _ & _).
  fold w2 in Hdb2, Hemit2, Hss2. rewrite Huser in Hss2. fold user_id in Hss2.
  assert (Hs2 : w_sessions w2 !! sid =
                Some {| s_user_id := user_id;
                        s_username := (user_from_headers environ).2 |})
    by (rewrite Hss2; apply lookup_insert_eq).
  assert (Htruthy : truthy user_id = true)
    by (unfold user_id; rewrite <- Huser; apply user_from_headers_truthy).
  assert (Hdbw1 : w_db w1 = set_messages (w_db w)
                              (db_messages (w_db w) ++ [stored]))
    by (rewrite Hw1; by destruct w).
  assert (Hfails2 : db_fails (w_db w2) = false)
    by (rewrite Hdb2, Hdbw1; destruct w as [[]]; exact Hdb).
  assert (Hemit2' : w_emit_fails w2 = false)
    by (rewrite Hemit2, Hw1; destruct w; exact Hemit).
  destruct (list_my_messages_effect sid _ m0 w2 Hs2 Htruthy Hfails2 Hemit2')
    as (Hsent3 & Hms3 & Hss3 & Hfails3 & Hemit3 & _).
  fold w3 in Hsent3, Hms3, Hss3, Hfails3, Hemit3. cbn [s_user_id] in *.
  rewrite <- Hss3 in Hs2.
  destruct (list_my_messages_effect sid _ m0 w3 Hs2 Htruthy Hfails3 Hemit3)
    as (Hsent4 & _).
  fold w4 in Hsent4. cbn [s_user_id] in *.
  split; [intros; apply push_message_seen|].
  split; [intros; by apply step_keeps_messages|].
  split; [rewrite Hw1; by destruct w|].
  split; [rewrite Hdbw1; by destruct w as [[]]|].
  split; [exact Hseen|].
  split.
  { unfold messages_of. rewrite Hdb2, Hdbw1.
    apply list_elem_of_In, filter_In. split.
    - destruct w as [[]]. cbn. apply in_or_app. right. by left.
    - apply String.eqb_refl. }
  split; [exact Hsent3|].
  split.
  { intros m. unfold messages_of at 1. rewrite Hms3.
    apply listed_all_seen. }
  split; [| exact Hsent4].
  unfold messages_of at 1. rewrite Hms3. apply messages_of_mark_listed_ids.
Qed.

End Mailbox.

(** ** The broadcaster: [open_video] *)

Section OpenVideo.
Context `{Platform} (self : Config).

Lemma emit_comments_loop (room : string) (cs datas : list Comment) (w : World) :
  w_emit_fails w = false ->
  Forall2 (fun c d => comment_data self (w_fs w) c = inr d) cs datas ->
  for_each cs (fun c => _emit_new_comment self c room) w =
  (Ok tt,
   set_sent w (w_sent w ++
     List.map (fun d => emission w room (new_comment_ev d)) datas)).
Proof.
  intros Hemit Hall. revert w Hemit Hall.
  destruct w as [d f ss rs us sent ef ing]. cbn [w_emit_fails w_fs]. intros -> Hall.
  revert sent. induction Hall as [| c data cs datas Hc Hall IH]; intros sent.
  - cbn [for_each List.map]. mrun. by rewrite app_nil_r.
  - cbn [for_each]. unfold bind at 1. unfold _emit_new_comment at 1.
    mrun. rewrite Hc. mrun. rewrite IH. mrun.
    unfold emission, members. cbn [w_rooms List.map].
    by rewrite <- app_assoc.
Qed.

(** A connection that is in [room] receives what is emitted to [room]. *)
Lemma received_emitted (sid room : string) (w : World) (evs : list Event) :
  sid ∈ members w room ->
  received sid (List.map (emission w room) evs) = evs.
Proof.
  intros Hin. unfold received. induction evs as [| ev evs IH]; [reflexivity|].
  cbn [List.map List.filter emission em_to].
  rewrite bool_decide_eq_true_2 by exact Hin.
  cbn [List.map em_event]. f_equal. exact IH.
Qed.

(** C5: [open_video] for an existing video, by a connection with a session,
    storage and transport working and the stored drawings readable:
    the connection is subscribed to the room of the video, and exactly one
    [open_video] event with the descriptor of the video followed by one
    [new_comment] event per stored comment of the video, in storage order,
    is emitted to the caller's own room, and nothing else. *)
Theorem open_video_snapshot
    (w : World) (sid : string) (s : Session) (msg : Msg) (h : string)
    (v : Video) (datas : list Comment) :
  w_sessions w !! sid = Some s ->
  msg_video_hash msg = Some h ->
  db_fails (w_db w) = false ->
  w_emit_fails w = false ->
  video_of h w = Some v ->
  Forall2 (fun c d => comment_data self (w_fs w) c = inr d)
          (comments_of h w) datas ->
  let w' := exec (open_video self sid msg) w in
  eval (open_video self sid msg) w = Ok tt /\
  members w' h = members w h ∪ {[sid]} /\
  w_sent w' =
    w_sent w ++
    List.map (emission w' sid)
      (open_video_ev (dict_for_video self v) ::
       List.map new_comment_ev datas) /\
  (sid ∈ members w sid ->
   received sid (List.map (emission w' sid)
                   (open_video_ev (dict_for_video self v) ::
                    List.map new_comment_ev datas)) =
   open_video_ev (dict_for_video self v) :: List.map new_comment_ev datas).
Proof.
  destruct w as [[vs cs ms now df] f ss rs us sent ef ing], s as [u n].
  unfold video_of, comments_of.
  cbn [w_sessions w_db db_fails w_emit_fails w_fs db_videos db_comments].
  intros Hs Hmsg -> -> Hv Hall.
  unfold open_video, handler_try, get_user, Db.get_video, Db.get_video_comments.
  mrun. rewrite Hs. mrun. rewrite Hmsg. mrun. rewrite Hv. mrun.
  erewrite emit_comments_loop; [| reflexivity | exact Hall].
  split; [reflexivity|]. split; [| split].
  - unfold members. mrun. by rewrite lookup_insert_eq.
  - unfold emission, members. mrun. cbn [List.map].
    by rewrite <- app_assoc, map_map.
  - intros Hin. apply received_emitted.
    revert Hin. unfold members. mrun.
    rewrite default_lookup_insert. destruct (decide (h = sid)); set_solver.
Qed.
End OpenVideo.

(** ** The broadcaster: [edit_comment] *)

Lemma find_edited (id : Z) (text : string) (cs : list Comment) (old : Comment) :
  List.find (Db.has_id id) cs = Some old ->
  List.find (Db.has_id id) (List.map (edited id text) cs) =
  Some (Db.with_text old text).
Proof.
  induction cs as [| c cs IH]; [discriminate|].
  cbn [List.find List.map]. destruct (Db.has_id id c) eqn:Hc.
  - intros [= <-].
    assert (Db.has_id id (edited id text c) = true) as ->
      by (unfold edited; rewrite Hc; exact Hc).
    unfold edited. by rewrite Hc.
  - assert (Db.has_id id (edited id text c) = false) as ->
      by (unfold edited; by rewrite Hc).
    exact IH.
Qed.

Lemma find_has_id (id : Z) (cs : list Comment) (c : Comment) :
  List.find (Db.has_id id) cs = Some c -> c_id c = Some id /\ c ∈ cs.
Proof.
  intros Hf. apply find_some in Hf. destruct Hf as [Hin Hid].
  split; [by apply bool_decide_eq_true in Hid | by apply list_elem_of_In].
Qed.

Section EditComment.
Context `{Platform} (self : Config).

Lemma comment_data_id (f : FileSystem) (c data : Comment) :
  comment_data self f c = inr data -> c_id data = c_id c.
Proof.
  unfold comment_data.
  destruct (c_drawing c) as [d |]; [| by intros [= <-]].
  destruct (truthy d && negb (startswith "data:" d)); [| by intros [= <-]].
  destruct (fs_exists _ _); [| by intros [= <-]].
  destruct (fs_read _ _); [discriminate | by intros [= <-]].
Qed.

(** The text of the payload: the text of the comment, followed by the
    marker when the drawing file is not found. *)
Lemma comment_data_text (f : FileSystem) (c data : Comment) :
  comment_data self f c = inr data ->
  c_comment data =
  if drawing_missing self f c then c_comment c +:+ " [DRAWING NOT FOUND]"
  else c_comment c.
Proof.
  unfold comment_data, drawing_missing.
  destruct (c_drawing c) as [d |]; [| by intros [= <-]].
  destruct (truthy d && negb (startswith "data:" d)); [| by intros [= <-]].
  destruct (fs_exists _ _); cbn [andb negb]; [| by intros [= <-]].
  destruct (fs_read _ _); [discriminate | by intros [= <-]].
Qed.

(** The run of [edit_comment] by the author or the admin. *)
Lemma edit_comment_authorized
    (w : World) (sid : string) (s : Session) (msg : Msg) (id : Z)
    (text : string) (old data : Comment) :
  w_sessions w !! sid = Some s ->
  truthy (s_user_id s) = true ->
  truthy (s_username s) = true ->
  msg_comment_id msg = Some id ->
  msg_comment msg = Some text ->
  comment_of id w = Some old ->
  db_fails (w_db w) = false ->
  w_emit_fails w = false ->
  owner_or_admin (s_user_id s) (c_user_id old) = true ->
  comment_data self (w_fs w) (Db.with_text old text) = inr data ->
  edit_comment self sid msg w =
  (Ok tt,
   set_sent
     (set_db w (set_comments (w_db w)
                  (List.map (edited id text) (db_comments (w_db w)))))
     (w_sent w ++
      List.map (emission w (c_video_hash old))
               [del_comment_ev id; new_comment_ev data])).
Proof.
  destruct w as [[vs cs ms now df] f ss rs us sent ef ing], s as [u n].
  unfold comment_of.
  cbn [w_sessions w_db db_fails w_emit_fails w_fs db_comments s_user_id
       s_username userid_to_sid w_sent].
  intros Hs Hu Hn Hid Htext Hold -> -> Hauth Hdata.
  unfold edit_comment, handler_try, get_user, Db.get_comment.
  mrun. rewrite Hs. mrun. rewrite Hu, Hn. cbn [andb]. mrun.
  rewrite Hid, Htext. mrun. rewrite Hold. unfold attr_of_comment. mrun.
  rewrite Hauth. mrun. unfold Db.edit_comment. mrun.
  fold (edited id text). rewrite (find_edited _ _ _ _ Hold). mrun.
  unfold _emit_new_comment. mrun. cbn [c_video_hash Db.with_text].
  rewrite Hdata. mrun.
  unfold emission, members. cbn [w_rooms List.map].
  by rewrite <- app_assoc.
Qed.

(** The run of [edit_comment] by anybody else: the assertion fails and the
    handler pushes an error notification to the caller's identity. *)
Lemma edit_comment_unauthorized
    (w : World) (sid : string) (s : Session) (msg : Msg) (id : Z)
    (text : string) (old : Comment) :
  w_sessions w !! sid = Some s ->
  truthy (s_user_id s) = true ->
  truthy (s_username s) = true ->
  msg_comment_id msg = Some id ->
  msg_comment msg = Some text ->
  comment_of id w = Some old ->
  db_fails (w_db w) = false ->
  w_emit_fails w = false ->
  owner_or_admin (s_user_id s) (c_user_id old) = false ->
  edit_comment self sid msg w =
  (Ok tt,
   set_sent w
     (w_sent w ++
      match userid_to_sid w !! s_user_id s with
      | Some r =>
          [emission w r
             (message_ev
                (new_Message "error" (s_user_id s) (msg_video_hash msg)
                   (Some id) "Failed to edit comment."
                   (Some "You can only edit your own comments")))]
      | None => []
      end)).
Proof.
  destruct w as [[vs cs ms now df] f ss rs us sent ef ing], s as [u n].
  unfold comment_of.
  cbn [w_sessions w_db db_fails w_emit_fails w_fs db_comments s_user_id
       s_username userid_to_sid w_sent].
  intros Hs Hu Hn Hid Htext Hold -> -> Hauth.
  unfold edit_comment, handler_try, get_user, Db.get_comment.
  mrun. rewrite Hs. mrun. rewrite Hu, Hn. cbn [andb]. mrun.
  rewrite Hid, Htext. mrun. rewrite Hold. unfold attr_of_comment. mrun.
  rewrite Hauth. mrun. rewrite push_message_cases. unfold deliver.
  cbn [userid_to_sid m_user_id new_Message w_emit_fails exn_str].
  destruct (us !! u); mrun; [| by rewrite app_nil_r].
  reflexivity.
Qed.

(** C6 (amended): [edit_comment] on an existing comment by a connection with
    a session, storage and transport working. When the caller is the author
    or the admin (and the payload [data] of the comment can be built: a
    drawing file that exists is read), the stored text is replaced by the
    new text, and exactly two events are emitted, both to the room of the
    comment's video: [del_comment] with the id, then [new_comment] with the
    same id; every member of the room receives exactly these two, in this
    order. The text of the [new_comment] event is the new text, except when
    the comment names a drawing file that does not exist: then it is the
    new text followed by [" [DRAWING NOT FOUND]"], while the stored text is
    the new text alone. When the caller is neither author nor admin, the
    storage is unchanged and the only thing emitted is the error
    notification to the caller's identity. *)
Theorem edit_comment_delete_then_recreate
    (w : World) (sid : string) (s : Session) (msg : Msg) (id : Z)
    (text : string) (old : Comment) :
  w_sessions w !! sid = Some s ->
  truthy (s_user_id s) = true ->
  truthy (s_username s) = true ->
  msg_comment_id msg = Some id ->
  msg_comment msg = Some text ->
  comment_of id w = Some old ->
  db_fails (w_db w) = false ->
  w_emit_fails w = false ->
  let w' := exec (edit_comment self sid msg) w in
  let room := c_video_hash old in
  (owner_or_admin (s_user_id s) (c_user_id old) = true ->
   forall data : Comment,
   comment_data self (w_fs w) (Db.with_text old text) = inr data ->
   db_comments (w_db w') = List.map (edited id text) (db_comments (w_db w)) /\
   comment_of id w' = Some (Db.with_text old text) /\
   w_sent w' =
     w_sent w ++
     List.map (emission w room) [del_comment_ev id; new_comment_ev data] /\
   c_id data = Some id /\
   c_comment data =
     (if drawing_missing self (w_fs w) (Db.with_text old text)
      then text +:+ " [DRAWING NOT FOUND]" else text) /\
   (forall member : string,
      member ∈ members w room ->
      received member
        (List.map (emission w room) [del_comment_ev id; new_comment_ev data])
      = [del_comment_ev id; new_comment_ev data])) /\
  (owner_or_admin (s_user_id s) (c_user_id old) = false ->
   w_db w' = w_db w /\
   w_sent w' =
     w_sent w ++
     match userid_to_sid w !! s_user_id s with
     | Some r =>
         [emission w r
            (message_ev
               (new_Message "error" (s_user_id s) (msg_video_hash msg)
                  (Some id) "Failed to edit comment."
                  (Some "You can only edit your own comments")))]
     | None => []
     end).
Proof.
  intros Hs Hu Hn Hid Htext Hold Hdb Hemit w' room. split.
  - intros Hauth data Hdata.
    assert (Hw' : w' = _) by
      (unfold w', exec;
       by rewrite (edit_comment_authorized w sid s msg id text old data)).
    rewrite Hw'. clear Hw'. fold room.
    split; [by destruct w as [[]]|].
    split.
    { unfold comment_of in *. destruct w as [[]]. cbn in *.
      by apply find_edited. }
    split; [by destruct w|].
    split.
    { rewrite (comment_data_id _ _ _ Hdata). cbn [c_id Db.with_text].
      unfold comment_of in Hold. by apply find_has_id in Hold as [? _]. }
    split; [exact (comment_data_text _ _ _ Hdata)|].
    intros member Hin. by apply received_emitted.
  - intros Hauth.
    assert (Hw' : w' = _) by
      (unfold w', exec;
       by rewrite (edit_comment_unauthorized w sid s msg id text old)).
    rewrite Hw'. by destruct w.
Qed.
End EditComment.

(** C6 (as stated, refuted): Alice edits her own, existing comment on
    [vid1], whose drawing file is gone; storage and transport work. The
    stored text becomes the new text, and Alice, a member of the room of the
    video, receives [del_comment] and then [new_comment] with the id of the
    comment, but the text of the [new_comment] event is not the updated
    text: it is the updated text followed by the marker. *)
Lemma edit_comment_lost_drawing_marks_text :
  w_sessions w_lost_drawing !! "s1" = Some Demo.alice /\
  comment_of 1 w_lost_drawing = Some lost_drawing_comment /\
  c_user_id lost_drawing_comment = s_user_id Demo.alice /\
  db_fails (w_db w_lost_drawing) = false /\
  w_emit_fails w_lost_drawing = false /\
  "s1" ∈ members w_lost_drawing (c_video_hash lost_drawing_comment) /\
  comment_of 1
    (exec (edit_comment Demo.cfg "s1" (Demo.edit_msg 1 "edited"))
          w_lost_drawing) =
    Some (Db.with_text lost_drawing_comment "edited") /\
  received "s1"
    (drop (length (w_sent w_lost_drawing))
       (w_sent (exec (edit_comment Demo.cfg "s1" (Demo.edit_msg 1 "edited"))
                     w_lost_drawing))) =
    [del_comment_ev 1;
     new_comment_ev
       (Db.with_text lost_drawing_comment "edited [DRAWING NOT FOUND]")] /\
  c_comment (Db.with_text lost_drawing_comment "edited [DRAWING NOT FOUND]")
    <> "edited".
Proof.
  split; [vm_compute; reflexivity|].
  split; [vm_compute; reflexivity|].
  split; [reflexivity|].
  split; [vm_compute; reflexivity|].
  split; [vm_compute; reflexivity|].
  split.
  { apply (bool_decide_eq_true_1 _). vm_compute. reflexivity. }
  split; [vm_compute; reflexivity|].
  split; [vm_compute; reflexivity|].
  discriminate.
Qed.

(** ** The comment store: [del_comment] *)

(** The loop over [all_comm] raises exactly when one of the comments is a
    reply to the comment to delete; it changes nothing. *)
Lemma refuse_reply_loop (id : Z) (cs : list Comment) (w : World) :
  for_each cs (refuse_reply id) w =
  (if has_reply id cs
   then Raise (Exception "Can't delete a comment that has replies")
   else Ok tt, w).
Proof.
  induction cs as [| c cs IH]; [reflexivity|].
  cbn [for_each has_reply existsb]. unfold bind, refuse_reply at 1.
  destruct (bool_decide (c_parent_id c = Some id)); [reflexivity|].
  mrun. rewrite IH. reflexivity.
Qed.

Lemma has_reply_true (id : Z) (cs : list Comment) (reply : Comment) :
  reply ∈ cs -> c_parent_id reply = Some id -> has_reply id cs = true.
Proof.
  intros Hin Hp. apply existsb_exists. exists reply.
  split; [by apply list_elem_of_In | by apply bool_decide_eq_true].
Qed.

(** C2 (as stated, refuted): in a state reached through the handlers alone,
    comment 1 (on [vid1]) has a reply, comment 2, stored on [vid2]; the
    author's [del_comment] of comment 1 goes through: the comment is removed
    from the store and [del_comment] is broadcast. *)
Lemma del_comment_with_reply_on_other_video_succeeds :
  thread_shape Demo.w_thread =
    [(Some 1, "vid1", None); (Some 2, "vid2", Some 1)] /\
  eval (del_comment "s1" (Demo.id_msg 1)) Demo.w_thread = Ok tt /\
  thread_shape (exec (del_comment "s1" (Demo.id_msg 1)) Demo.w_thread) =
    [(Some 2, "vid2", Some 1)] /\
  emitted_since Demo.w_thread
    (exec (del_comment "s1" (Demo.id_msg 1)) Demo.w_thread) =
    [del_comment_ev 1].
Proof. vm_compute. repeat split; reflexivity. Qed.

(** C2 (amended): a [del_comment] request, by any caller with a session, for
    an existing comment that has at least one reply stored on the same
    video fails: the storage is left exactly as it was, no [del_comment]
    event is emitted, and the only thing emitted is an error notification
    addressed to the caller's identity, sent to the connection that identity
    routes to, if any. *)
Theorem del_comment_with_reply_refused
    (w : World) (sid : string) (s : Session) (msg : Msg) (id : Z)
    (old reply : Comment) :
  w_sessions w !! sid = Some s ->
  msg_comment_id msg = Some id ->
  comment_of id w = Some old ->
  reply ∈ comments_of (c_video_hash old) w ->
  c_parent_id reply = Some id ->
  db_fails (w_db w) = false ->
  w_emit_fails w = false ->
  let w' := exec (del_comment sid msg) w in
  eval (del_comment sid msg) w = Ok tt /\
  w_db w' = w_db w /\
  w_sent w' =
    w_sent w ++
    match userid_to_sid w !! s_user_id s with
    | Some r =>
        [emission w r
           (message_ev
              (new_Message "error" (s_user_id s) None (Some id)
                 "Failed to delete comment."
                 (Some (refusal_details s old))))]
    | None => []
    end.
Proof.
  destruct w as [[vs cs ms now df] f ss rs us sent ef ing], s as [u n].
  unfold comment_of, comments_of, refusal_details.
  cbn [w_sessions w_db db_fails w_emit_fails w_fs db_comments s_user_id
       s_username userid_to_sid w_sent].
  intros Hs Hid Hold Hin Hparent -> ->.
  pose proof (has_reply_true _ _ _ Hin Hparent) as Hreply.
  unfold del_comment, handler_try, get_user, Db.get_comment,
    Db.get_video_comments, exec, eval.
  mrun. rewrite Hs. mrun.
  destruct (truthy u && truthy n); mrun.
  - rewrite Hid. mrun. rewrite Hold. unfold attr_of_comment. mrun.
    destruct (owner_or_admin u (c_user_id old)); mrun.
    + rewrite refuse_reply_loop, Hreply. mrun.
      rewrite push_message_cases. unfold deliver, emission, members.
      cbn [userid_to_sid m_user_id new_Message w_emit_fails exn_str].
      destruct (us !! u); mrun; rewrite ?app_nil_r; auto.
    + rewrite push_message_cases. unfold deliver, emission, members.
      cbn [userid_to_sid m_user_id new_Message w_emit_fails exn_str].
      destruct (us !! u); mrun; rewrite ?app_nil_r; auto.
  - rewrite push_message_cases. unfold deliver, emission, members.
    cbn [userid_to_sid m_user_id new_Message w_emit_fails exn_str].
    rewrite Hid.
    destruct (us !! u); mrun; rewrite ?app_nil_r; auto.
Qed.

(** ** The comment store: [add_comment] *)

Lemma comments_same_refl (w : World) : comments_same w w.
Proof. reflexivity. Qed.

Lemma comments_same_trans (w1 w2 w3 : World) :
  comments_same w1 w2 -> comments_same w2 w3 -> comments_same w1 w3.
Proof. unfold comments_same. intros H1 H2. by rewrite H2. Qed.

Ltac comments_side :=
  first
    [ exact comments_same_refl | exact comments_same_trans
    | solve [ intros [[]]; intros; reflexivity ] ].

Lemma keeps_bind_ret (R : World -> World -> Prop) {A B} (a : A)
    (k : A -> M B) :
  keeps R (k a) -> keeps R (bind (ret a) k).
Proof. intros Hk w. exact (Hk w). Qed.

Lemma appended_one_same (P : Comment -> Prop) {A} (m : M A) :
  keeps comments_same m -> keeps (appended_one P) m.
Proof. intros Hm w. left. apply Hm. Qed.

Lemma appended_one_bind_l (P : Comment -> Prop) {A B} (m : M A)
    (k : A -> M B) :
  keeps comments_same m -> (forall a, keeps (appended_one P) (k a)) ->
  keeps (appended_one P) (bind m k).
Proof.
  intros Hm Hk w. unfold bind. specialize (Hm w).
  destruct (m w) as [[a | e] w']; cbn [snd] in *; [| by left].
  unfold appended_one, comments_same in *. rewrite <- Hm. apply Hk.
Qed.

Lemma appended_one_bind_r (P : Comment -> Prop) {A B} (m : M A)
    (k : A -> M B) :
  keeps (appended_one P) m -> (forall a, keeps comments_same (k a)) ->
  keeps (appended_one P) (bind m k).
Proof.
  intros Hm Hk w. unfold bind. specialize (Hm w).
  destruct (m w) as [[a | e] w']; cbn [snd] in *; [| exact Hm].
  specialize (Hk a w'). unfold appended_one, comments_same in *.
  rewrite Hk. exact Hm.
Qed.

Lemma appended_one_try (P : Comment -> Prop) {A} (m : M A)
    (h : exn -> M A) :
  keeps (appended_one P) m -> (forall e, keeps comments_same (h e)) ->
  keeps (appended_one P) (try_except m h).
Proof.
  intros Hm Hh w. unfold try_except. specialize (Hm w).
  destruct (m w) as [[a | e] w']; cbn [snd] in *; [exact Hm|].
  specialize (Hh e w'). unfold appended_one, comments_same in *.
  rewrite Hh. exact Hm.
Qed.

Lemma appended_one_handler_try (P : Comment -> Prop) (sid : string)
    (body : string -> string -> M unit) (on_error : string -> exn -> M unit) :
  (forall u n, keeps (appended_one P) (body u n)) ->
  (forall u e, keeps comments_same (on_error u e)) ->
  keeps (appended_one P) (handler_try sid body on_error).
Proof.
  intros Hb He w. unfold handler_try, get_user, bind, get_session, ret.
  destruct (w_sessions w !! sid) as [[u n] |]; cbn [s_user_id s_username snd].
  - by apply appended_one_try.
  - by left.
Qed.

Lemma appended_one_add_comment (P : Comment -> Prop) (c : Comment) :
  (forall id, P (Db.with_id c id)) ->
  keeps (appended_one P) (Db.add_comment c).
Proof.
  intros HP w. unfold Db.add_comment, Db.call.
  destruct (db_fails (w_db w)); [by left|].
  right. eexists. split; [| apply HP]. by destruct w as [[]].
Qed.

(** Appending a comment keeps the invariant exactly when the new comment's
    own reference is valid. *)
Lemma parents_ok_app (cs : list Comment) (c : Comment) :
  parents_ok cs ->
  (parents_ok (cs ++ [c]) <-> refers_to_sibling (cs ++ [c]) c).
Proof.
  unfold parents_ok. intros Hcs. rewrite Forall_app, Forall_singleton.
  split; [by intros [_ Hc]|]. intros Hc. split; [| exact Hc].
  eapply Forall_impl; [exact Hcs|]. intros x Hx. unfold refers_to_sibling in *.
  destruct (c_parent_id x); [| done].
  destruct Hx as (c' & Hin & Hid & Hv). exists c'. set_solver.
Qed.

Section AddComment.
Context `{Platform} (self : Config).

Lemma same_push_message (msg : Message) (dont_throw persist : bool) :
  keeps comments_same (push_message msg dont_throw persist).
Proof. unfold push_message, Db.add_message. repeat keeps_step comments_side. Qed.

Lemma same_emit_new_comment (c : Comment) (room : string) :
  keeps comments_same (_emit_new_comment self c room).
Proof. unfold _emit_new_comment. repeat keeps_step comments_side. Qed.

Lemma same_store_drawing (video_hash : string) (drawing : option string) :
  keeps comments_same (store_drawing self video_hash drawing).
Proof. unfold store_drawing. repeat keeps_step comments_side. Qed.

(** What [add_comment] does to the comment store, in every case. *)
Lemma add_comment_appends (sid : string) (msg : Msg) :
  keeps
    (appended_one
       (fun c => c_parent_id c = int_or_none (msg_parent_id msg) /\
                 msg_video_hash msg = Some (c_video_hash c)))
    (add_comment self sid msg).
Proof.
  unfold add_comment. apply appended_one_handler_try;
    [| intros; apply same_push_message].
  intros u n.
  apply appended_one_bind_l; [repeat keeps_step comments_side | intros _].
  destruct (msg_video_hash msg) as [h |] eqn:Hh;
    [| apply appended_one_same; repeat keeps_step comments_side].
  change (subscript "video_hash" (Some h)) with (@ret string h).
  apply keeps_bind_ret.
  apply appended_one_bind_l; [repeat keeps_step comments_side | intros [v |]];
    [| apply appended_one_same, same_push_message].
  apply appended_one_bind_l; [apply same_store_drawing | intros drawing].
  apply appended_one_bind_r; [| intros; apply same_emit_new_comment].
  apply appended_one_add_comment. intros id. by split.
Qed.

(** C1 (amended): [add_comment] either leaves the comment store as it was
    or appends exactly one comment, whose [parent_id] is the one supplied in
    the request (unset when the request has none or a falsy one) and whose
    video is the requested one: the reference is stored as supplied. The
    store then satisfies the invariant "a set [parent_id] references a
    stored comment on the same video" exactly when the new comment's
    reference does, given that it held before. *)
Theorem add_comment_stores_parent_as_supplied
    (w : World) (sid : string) (msg : Msg) :
  let w' := exec (add_comment self sid msg) w in
  db_comments (w_db w') = db_comments (w_db w) \/
  exists c : Comment,
    db_comments (w_db w') = db_comments (w_db w) ++ [c] /\
    c_parent_id c = int_or_none (msg_parent_id msg) /\
    msg_video_hash msg = Some (c_video_hash c) /\
    (parents_ok (db_comments (w_db w)) ->
     (parents_ok (db_comments (w_db w')) <->
      refers_to_sibling (db_comments (w_db w')) c)).
Proof.
  intros w'. destruct (add_comment_appends sid msg w) as [Hsame | Happ].
  - left. exact Hsame.
  - right. destruct Happ as (c & Hc & Hp & Hv). exists c.
    fold (exec (add_comment self sid msg) w) in Hc. fold w' in Hc.
    repeat split; try assumption.
    + rewrite Hc. by apply parents_ok_app.
    + rewrite Hc. by apply parents_ok_app.
Qed.

End AddComment.

(** C1 (as stated, refuted): Alice comments on [vid1] with [parent_id] 99
    while the store is empty; the comment is stored and broadcast, with a
    [parent_id] that references no comment at all. In [Demo.w_thread], also
    reached through the handlers alone, the stored comment 2 on [vid2]
    references comment 1, which is on [vid1]. *)
Lemma add_comment_stores_dangling_parent :
  thread_shape
    (exec (add_comment Demo.cfg "s1"
                       (Demo.comment_msg "vid1" (Some 99) "hello")) Demo.w1) =
    [(Some 1, "vid1", Some 99)] /\
  comment_of 99
    (exec (add_comment Demo.cfg "s1"
                       (Demo.comment_msg "vid1" (Some 99) "hello")) Demo.w1) =
    None /\
  List.length
    (emitted_since Demo.w1
       (exec (add_comment Demo.cfg "s1"
                          (Demo.comment_msg "vid1" (Some 99) "hello"))
             Demo.w1)) = 1%nat /\
  thread_shape Demo.w_thread =
    [(Some 1, "vid1", None); (Some 2, "vid2", Some 1)].
Proof. vm_compute. repeat split; reflexivity. Qed.

(** ** Drawings: content-addressed files *)

Lemma fs_mkdir_parents_allowed (f : FileSystem) (p : Path) :
  fs_denied f = ∅ ->
  fs_mkdir_parents f p =
  inr {| fs_dirs := fs_dirs f ∪ list_to_set (missing_dirs f p);
         fs_files := fs_files f; fs_denied := fs_denied f |}.
Proof.
  intros Hd. unfold fs_mkdir_parents. fold (missing_dirs f p).
  destruct (List.find _ _) as [s |] eqn:Hfind; [| reflexivity].
  apply find_some in Hfind. destruct Hfind as [_ Hin].
  apply bool_decide_eq_true in Hin. rewrite Hd in Hin. set_solver.
Qed.

Lemma fs_write_allowed (f : FileSystem) (p : Path) (data : bytes) :
  fs_denied f = ∅ ->
  fs_write f p data =
  inr {| fs_dirs := fs_dirs f; fs_files := <[path_str p := data]> (fs_files f);
         fs_denied := fs_denied f |}.
Proof.
  intros Hd. unfold fs_write. rewrite Hd.
  rewrite bool_decide_eq_false_2; [reflexivity | set_solver].
Qed.

Lemma truthy_app_r (a b : string) : truthy b = true -> truthy (a +:+ b) = true.
Proof. destruct a; [done | reflexivity]. Qed.

Lemma webp_ext : split "/" "image/webp" !! 1%nat = Some "webp".
Proof. reflexivity. Qed.

Section Drawing.
Context `{Platform} (self : Config).

Lemma drawing_name_truthy (data : bytes) : truthy (drawing_name data) = true.
Proof. unfold drawing_name. by apply truthy_app_r. Qed.

Lemma emit_new_comment_only_sent (c : Comment) (room : string) (w : World) :
  exists (r : result unit) (l : list Emission),
    _emit_new_comment self c room w = (r, set_sent w l).
Proof.
  destruct w as [d f ss rs us sent ef ing].
  unfold _emit_new_comment. mrun.
  destruct (comment_data self f c); mrun; [by eexists _, _|].
  destruct ef; by eexists _, _.
Qed.

Lemma push_message_only_sent (msg : Message) (dont_throw : bool) (w : World) :
  exists (r : result unit) (l : list Emission),
    push_message msg dont_throw false w = (r, set_sent w l).
Proof.
  rewrite push_message_cases. unfold deliver.
  destruct w as [d f ss rs us sent ef ing].
  cbn [userid_to_sid w_emit_fails].
  destruct (us !! m_user_id msg); [destruct ef|]; by eexists _, _.
Qed.

Lemma add_comment_with_drawing
    (w : World) (sid : string) (s : Session) (msg : Msg) (h d : string)
    (v : Video) (data : bytes) :
  w_sessions w !! sid = Some s ->
  truthy (s_user_id s) = true ->
  truthy (s_username s) = true ->
  msg_video_hash msg = Some h ->
  video_of h w = Some v ->
  msg_drawing msg = Some d ->
  truthy d = true ->
  startswith "data:" d = true ->
  datauri_parse d = Some ("image/webp", data) ->
  db_fails (w_db w) = false ->
  fs_denied (w_fs w) = ∅ ->
  exists (l : list Emission),
    exec (add_comment self sid msg) w =
    set_sent
      (set_db
         (set_fs w
            {| fs_dirs :=
                 fs_dirs (w_fs w) ∪
                 list_to_set
                   (missing_dirs (w_fs w)
                      (path_parent (drawing_file self h (drawing_name data))));
               fs_files :=
                 <[path_str (drawing_file self h (drawing_name data)) := data]>
                   (fs_files (w_fs w));
               fs_denied := fs_denied (w_fs w) |})
         (set_comments (w_db w)
            (db_comments (w_db w) ++
             [{| c_id := Some (next_id (List.map c_id (db_comments (w_db w))));
                 c_video_hash := h;
                 c_parent_id := int_or_none (msg_parent_id msg);
                 c_user_id := s_user_id s;
                 c_username := s_username s;
                 c_comment := default "" (py_or (msg_comment msg) (Some ""));
                 c_timecode := default "" (py_or (msg_timecode msg) (Some ""));
                 c_drawing := Some (drawing_name data) |}])))
      l.
Proof.
  destruct w as [[vs cs ms now df] f ss rs us sent ef ing], s as [u n].
  unfold video_of.
  cbn [w_sessions w_db db_fails w_emit_fails w_fs db_comments db_videos
       s_user_id s_username userid_to_sid w_sent].
  intros Hs Hu Hn Hh Hv Hd Htruthy Hstarts Hparse -> Hdenied.
  unfold add_comment, handler_try, get_user, Db.get_video, exec.
  mrun. rewrite Hs. mrun. rewrite Hu, Hn. cbn [andb]. mrun.
  rewrite Hh. mrun. rewrite Hv. mrun.
  unfold store_drawing. rewrite Hd. cbn [truthy_opt default]. rewrite Htruthy.
  mrun. unfold id. rewrite Hstarts. mrun. rewrite Hparse. mrun.
  change (String.eqb "image/webp" "image/webp") with true. mrun.
  rewrite webp_ext. mrun. fold (drawing_name data).
  rewrite (fs_mkdir_parents_allowed _ _ Hdenied). mrun.
  rewrite fs_write_allowed by exact Hdenied. mrun.
  cbn [fs_dirs fs_files fs_denied].
  unfold py_or at 3. cbn [truthy_opt].
  rewrite drawing_name_truthy.
  unfold Db.add_comment. mrun.
  match goal with
  | |- context [_emit_new_comment self ?c ?r ?W] =>
      destruct (emit_new_comment_only_sent c r W) as ([[] | e] & l & ->)
  end; mrun.
  - by exists l.
  - match goal with
    | |- context [push_message ?m ?dt false ?W] =>
        destruct (push_message_only_sent m dt W) as (r' & l' & ->)
    end; mrun.
    by exists l'.
Qed.

(** C9: a comment submitted with a drawing that is a data URI of media type
    [image/webp] with the bytes [data], by a connection with a session, on
    an existing video, storage working and the file system not refusing:
    the bytes are written to the file
    [videos_dir / video_hash / 'drawings' / name], where [name] is the first
    16 characters of the hexadecimal SHA-256 digest of the bytes, a dot and
    the extension [webp]; the stored comment row references [name]. The
    name depends on the bytes alone: submitting the request again stores a
    second row with the same name and leaves the files as they are. *)
Theorem drawing_stored_content_addressed
    (w : World) (sid : string) (s : Session) (msg : Msg) (h d : string)
    (v : Video) (data : bytes) :
  w_sessions w !! sid = Some s ->
  truthy (s_user_id s) = true ->
  truthy (s_username s) = true ->
  msg_video_hash msg = Some h ->
  video_of h w = Some v ->
  msg_drawing msg = Some d ->
  truthy d = true ->
  startswith "data:" d = true ->
  datauri_parse d = Some ("image/webp", data) ->
  db_fails (w_db w) = false ->
  fs_denied (w_fs w) = ∅ ->
  let name := str_take 16 (sha256_hexdigest data) +:+ "." +:+ "webp" in
  let path :=
    path_join (path_join (path_join (videos_dir self) h) "drawings") name in
  let w' := exec (add_comment self sid msg) w in
  let w'' := exec (add_comment self sid msg) w' in
  fs_files (w_fs w') !! path_str path = Some data /\
  (exists c : Comment,
     db_comments (w_db w') = db_comments (w_db w) ++ [c] /\
     c_video_hash c = h /\ c_drawing c = Some name) /\
  (exists c1 c2 : Comment,
     db_comments (w_db w'') = db_comments (w_db w) ++ [c1; c2] /\
     c_drawing c1 = Some name /\ c_drawing c2 = Some name) /\
  fs_files (w_fs w'') = fs_files (w_fs w').
Proof.
  intros Hs Hu Hn Hh Hv Hd Htruthy Hstarts Hparse Hdb Hdenied
         name path w' w''.
  destruct (add_comment_with_drawing w sid s msg h d v data)
    as (l & Hw'); try assumption.
  fold w' in Hw'. fold name in Hw'. change (drawing_name data) with name in Hw'.
  change (drawing_file self h name) with path in Hw'.
  destruct (add_comment_with_drawing w' sid s msg h d v data)
    as (l' & Hw''); try assumption;
    try (rewrite Hw'; destruct w as [[]]; assumption).
  fold w'' in Hw''. change (drawing_name data) with name in Hw''.
  change (drawing_file self h name) with path in Hw''.
  assert (Hfiles : fs_files (w_fs w') =
                   <[path_str path := data]> (fs_files (w_fs w)))
    by (rewrite Hw'; by destruct w).
  assert (Hcomments : db_comments (w_db w') = db_comments (w_db w) ++ _)
    by (rewrite Hw'; destruct w as [[]]; reflexivity).
  split; [rewrite Hfiles; apply lookup_insert_eq|].
  split; [eexists; split; [exact Hcomments | by split]|].
  split.
  - eexists _, _. split.
    { rewrite Hw''. destruct w' as [[]]. cbn in Hcomments |- *.
      rewrite Hcomments, <- app_assoc. reflexivity. }
    by split.
  - rewrite Hw''. destruct w' as [d' f']. cbn in Hfiles |- *.
    rewrite Hfiles. apply insert_insert_eq.
Qed.

End Drawing.

(** ** The upload endpoint *)

Lemma has_sep_rev_app (a b : string) :
  has_sep (String.rev_app a b) = has_sep a || has_sep b.
Proof.
  revert b. induction a as [| c a IH]; intros b; [reflexivity|].
  cbn [String.rev_app has_sep]. rewrite IH. cbn [has_sep].
  destruct (Ascii.eqb c "/"), (has_sep a), (has_sep b); reflexivity.
Qed.

Lemma split_go_no_sep (cur s : string) :
  has_sep cur = false ->
  Forall (fun x => has_sep x = false) (split_go "/" cur s).
Proof.
  revert cur. induction s as [| c s IH]; intros cur Hcur; cbn [split_go].
  - apply Forall_singleton. unfold String.rev. rewrite has_sep_rev_app, Hcur. reflexivity.
  - destruct (Ascii.eqb c "/") eqn:Hc.
    + apply Forall_cons. split; [| by apply IH].
      unfold String.rev. rewrite has_sep_rev_app, Hcur. reflexivity.
    + apply IH. cbn [has_sep]. by rewrite Hc, Hcur.
Qed.

Lemma last_Forall {A} (P : A -> Prop) (l : list A) (d : A) :
  P d -> Forall P l -> P (List.last l d).
Proof.
  intros Hd Hl. induction Hl as [| x l Hx Hl IH]; [exact Hd|].
  destruct l; [exact Hx | exact IH].
Qed.

(** [Path(s).name] never contains the separator. *)
Lemma path_name_no_sep (s : string) : has_sep (path_name (path_of s)) = false.
Proof.
  unfold path_name, path_of. cbn [p_parts].
  apply (last_Forall (fun x => has_sep x = false)); [reflexivity|].
  apply Forall_forall. intros x Hx. apply list_elem_of_In, filter_In in Hx as [Hx _].
  pose proof (split_go_no_sep "" s eq_refl) as Hall.
  rewrite Forall_forall in Hall. apply Hall. by apply list_elem_of_In.
Qed.

(** A file name that contains the separator is not its own base name. *)
Lemma has_sep_not_basename (filename : string) :
  has_sep filename = true -> path_name (path_of filename) ≠ filename.
Proof.
  intros Hsep Heq. pose proof (path_name_no_sep filename) as Hno.
  rewrite Heq in Hno. congruence.
Qed.

Section Upload.
Context `{Platform} (self : Config).

(** The field [fileupload] with a file name that is not its own base name
    is refused by the assertion, before anything is created or written. *)
Lemma save_upload_refuses_path (user_id uuid filename : string)
    (field : Field) (w : World) :
  f_filename field = Some filename ->
  path_name (path_of filename) ≠ filename ->
  save_upload self user_id uuid field w =
  (Raise (AssertionError "Filename must not contain path"), w).
Proof.
  intros Hfn Hne. unfold save_upload. rewrite Hfn. mrun.
  apply String.eqb_neq in Hne. rewrite Hne. reflexivity.
Qed.

(** Only the first field of the body is ever looked at: every iteration of
    the loop returns. *)
Lemma upload_loop_first (user_id uuid : string) (field : Field)
    (rest : list Field) (w : World) :
  upload_loop self user_id uuid (field :: rest) w =
  if String.eqb (f_name field) "fileupload" then
    match save_upload self user_id uuid field w with
    | (Ok response, w') => (Ok (Some response), w')
    | (Raise e, w') => (Raise e, w')
    end
  else (Ok (Some no_field), w).
Proof.
  cbn [upload_loop]. unfold upload_iteration. mrun.
  destruct (String.eqb (f_name field) "fileupload"); cbn [negb]; mrun;
    [| reflexivity].
  by destruct (save_upload self user_id uuid field w) as [[r | e] w'].
Qed.

Lemma post_upload_file_loop (uuid : string) (request : Request) (w : World) :
  post_upload_file self uuid request w =
  upload_loop self (user_from_headers (req_headers request)).1 uuid
              (req_fields request) w.
Proof.
  unfold post_upload_file.
  pose proof (user_from_headers_truthy (req_headers request)) as Hu.
  destruct (user_from_headers (req_headers request)) as [u x].
  cbn [fst] in *. rewrite Hu. reflexivity.
Qed.

(** C8: an upload whose file name is not its own base name (it has a
    path-separating component) is rejected by the assertion before any
    directory is created and before any byte is written: the request ends
    with the assertion error and the world, files and directories included,
    is exactly as before. More generally, a request all of whose
    [fileupload] fields have such a file name leaves the world unchanged and
    is not answered with the success response. *)
Theorem upload_with_path_in_filename_rejected
    (w : World) (uuid : string) (headers : gmap string string)
    (field : Field) (rest : list Field) (filename : string) :
  f_name field = "fileupload" ->
  f_filename field = Some filename ->
  path_name (path_of filename) ≠ filename ->
  post_upload_file self uuid
    {| req_headers := headers; req_fields := field :: rest |} w =
  (Raise (AssertionError "Filename must not contain path"), w) /\
  (forall request : Request,
     (forall f : Field,
        f ∈ req_fields request ->
        f_name f = "fileupload" ->
        exists fn : string,
          f_filename f = Some fn /\ path_name (path_of fn) ≠ fn) ->
     exec (post_upload_file self uuid request) w = w /\
     eval (post_upload_file self uuid request) w ≠ Ok (Some upload_ok)).
Proof.
  intros Hname Hfn Hne. split.
  - rewrite post_upload_file_loop. cbn [req_fields req_headers].
    rewrite upload_loop_first, Hname. cbn.
    by rewrite (save_upload_refuses_path _ _ filename).
  - intros request Hbad. unfold exec, eval. rewrite post_upload_file_loop.
    destruct (req_fields request) as [| f fs]; [by split|].
    rewrite upload_loop_first.
    destruct (String.eqb (f_name f) "fileupload") eqn:Hf; [| by split].
    apply String.eqb_eq in Hf.
    destruct (Hbad f) as (fn & Hf' & Hne'); [set_solver | exact Hf |].
    rewrite (save_upload_refuses_path _ _ fn) by assumption. by split.
Qed.

Lemma fs_mkdir_parents_error (f : FileSystem) (p : Path) (e : exn) :
  fs_mkdir_parents f p = inl e -> exists s, e = PermissionError s.
Proof.
  unfold fs_mkdir_parents. destruct (List.find _ _); [| discriminate].
  intros [= <-]. by eexists.
Qed.

Lemma fs_write_error (f : FileSystem) (p : Path) (data : bytes) (e : exn) :
  fs_write f p data = inl e -> exists s, e = PermissionError s.
Proof.
  unfold fs_write. destruct (bool_decide _); [| discriminate].
  intros [= <-]. by eexists.
Qed.

(** C7: what [post_upload_file] answers. The [return] of the 400 response
    sits inside the loop over the fields, so the first field decides: a
    body without any field ends the handler without a response (not 400);
    a first field with another name is answered 400 at once, whatever
    follows, and nothing is saved. When the first field is [fileupload],
    with a plain file name and a free destination: 200 after the file has
    been written (and handed to the ingest callback), 500 when creating the
    directory or the file is refused by the file system. *)
Theorem upload_responses
    (w : World) (uuid : string) (headers : gmap string string)
    (field : Field) (rest : list Field) (filename : string) :
  let user_id := (user_from_headers headers).1 in
  let dst := upload_dst self uuid filename in
  let data := relay (f_chunks field) in
  let post fields :=
    post_upload_file self uuid
      {| req_headers := headers; req_fields := fields |} w in
  post [] = (Ok None, w) /\
  (f_name field ≠ "fileupload" ->
   post (field :: rest) = (Ok (Some no_field), w)) /\
  (f_name field = "fileupload" ->
   f_filename field = Some filename ->
   path_name (path_of filename) = filename ->
   fs_exists (w_fs w) dst = false ->
   (forall f1 f2 : FileSystem,
      fs_mkdir_parents (w_fs w) (path_parent dst) = inr f1 ->
      fs_write f1 dst data = inr f2 ->
      post (field :: rest) =
      (Ok (Some upload_ok),
       if ingest_callback self then
         set_ingested (set_fs w f2)
                      (w_ingested w ++ [(path_str dst, user_id)])
       else set_fs w f2) /\
      fs_files f2 !! path_str dst = Some data) /\
   (forall e : exn,
      fs_mkdir_parents (w_fs w) (path_parent dst) = inl e ->
      post (field :: rest) = (Ok (Some permission_error), w)) /\
   (forall (f1 : FileSystem) (e : exn),
      fs_mkdir_parents (w_fs w) (path_parent dst) = inr f1 ->
      fs_write f1 dst data = inl e ->
      post (field :: rest) = (Ok (Some permission_error), set_fs w f1))).
Proof.
  cbv zeta. split; [| split].
  - by rewrite post_upload_file_loop.
  - intros Hname. rewrite post_upload_file_loop. cbn [req_fields req_headers].
    rewrite upload_loop_first.
    apply String.eqb_neq in Hname. by rewrite Hname.
  - intros Hname Hfn Hbase Hfree.
    assert (Hrun : forall fields,
              fields = field :: rest ->
              post_upload_file self uuid
                {| req_headers := headers; req_fields := fields |} w =
              match save_upload self (user_from_headers headers).1 uuid
                                field w with
              | (Ok response, w') => (Ok (Some response), w')
              | (Raise e, w') => (Raise e, w')
              end).
    { intros fields ->. rewrite post_upload_file_loop.
      cbn [req_fields req_headers]. rewrite upload_loop_first, Hname.
      reflexivity. }
    assert (Hsave : save_upload self (user_from_headers headers).1 uuid
                                field w =
              match fs_mkdir_parents (w_fs w)
                      (path_parent (upload_dst self uuid filename)) with
              | inl (PermissionError _) => (Ok permission_error, w)
              | inl e => (Raise e, w)
              | inr f1 =>
                  match fs_write f1 (upload_dst self uuid filename)
                                 (relay (f_chunks field)) with
                  | inl (PermissionError _) =>
                      (Ok permission_error, set_fs w f1)
                  | inl e => (Raise e, set_fs w f1)
                  | inr f2 =>
                      (Ok upload_ok,
                       if ingest_callback self then
                         set_ingested (set_fs w f2)
                           (w_ingested w ++
                            [(path_str (upload_dst self uuid filename),
                              (user_from_headers headers).1)])
                       else set_fs w f2)
                  end
              end).
    { unfold upload_dst in *. rewrite Hbase in *.
      destruct w as [d f ss rs us sent ef ing]. cbn [w_fs w_ingested] in *.
      unfold save_upload. rewrite Hfn. mrun.
      rewrite Hbase, String.eqb_refl. mrun. rewrite Hfree. cbn [negb]. mrun.
      destruct (fs_mkdir_parents f _) as [e | f1]; mrun.
      { by destruct e. }
      destruct (fs_write f1 _ _) as [e | f2]; mrun.
      { by destruct e. }
      by destruct (ingest_callback self). }
    split; [| split].
    + intros f1 f2 Hmk Hwr. rewrite Hrun, Hsave, Hmk, Hwr by reflexivity.
      split; [reflexivity|].
      unfold fs_write in Hwr. destruct (bool_decide _); [discriminate|].
      injection Hwr as <-. apply lookup_insert_eq.
    + intros e Hmk. rewrite Hrun, Hsave, Hmk by reflexivity.
      by destruct (fs_mkdir_parents_error _ _ _ Hmk) as [s ->].
    + intros f1 e Hmk Hwr. rewrite Hrun, Hsave, Hmk, Hwr by reflexivity.
      by destruct (fs_write_error _ _ _ _ Hwr) as [s ->].
Qed.

End Upload.

(** * The model on concrete inputs *)

(** [pathlib] on a few file names: the base name of a plain name is the
    name itself; separators, a trailing slash and [.] are parsed away. *)
Example path_name_examples :
  List.map (fun s => path_name (path_of s))
           ["a.mov"; "dir/a.mov"; "../a.mov"; "/etc/passwd"; "a.mov/"; ".";
            ".."] =
  ["a.mov"; "a.mov"; "a.mov"; "passwd"; "a.mov"; ""; ".."].
Proof. reflexivity. Qed.

Example path_join_examples :
  List.map path_str
           [path_join (path_of "/data/upload") "7f1c";
            path_join (path_of "/data//upload/") "./x";
            path_join (path_of "/data/upload") "/etc"] =
  ["/data/upload/7f1c"; "/data/upload/x"; "/etc"].
Proof. reflexivity. Qed.

(** A body whose first part is some other field and whose second part is
    the upload: the answer is 400, and the upload is not stored. *)
Example upload_behind_another_field :
  post_upload_file Demo.cfg "7f1c"
    {| req_headers := Demo.headers_of "alice" "Alice";
       req_fields :=
         [{| f_name := "comment"; f_filename := None; f_chunks := [] |};
          {| f_name := "fileupload"; f_filename := Some "a.mov";
             f_chunks := [[x01]; [x02]] |}] |} Demo.w1 =
  (Ok (Some no_field), Demo.w1).
Proof. vm_compute. reflexivity. Qed.

(** The same upload as the first part: 200, the chunks are in the file and
    the ingest callback has been called. *)
Example upload_first_field :
  eval (post_upload_file Demo.cfg "7f1c"
          {| req_headers := Demo.headers_of "alice" "Alice";
             req_fields :=
               [{| f_name := "fileupload"; f_filename := Some "a.mov";
                   f_chunks := [[x01]; [x02]] |}] |}) Demo.w1 =
    Ok (Some upload_ok) /\
  fs_files
    (w_fs (exec (post_upload_file Demo.cfg "7f1c"
                   {| req_headers := Demo.headers_of "alice" "Alice";
                      req_fields :=
                        [{| f_name := "fileupload";
                            f_filename := Some "a.mov";
                            f_chunks := [[x01]; [x02]] |}] |}) Demo.w1))
    !! "/data/upload/7f1c/a.mov" = Some [x01; x02].
Proof. vm_compute. split; reflexivity. Qed.

(** A body without parts: the handler ends without a response. *)
Example upload_without_parts :
  post_upload_file Demo.cfg "7f1c"
    {| req_headers := Demo.headers_of "alice" "Alice"; req_fields := [] |}
    Demo.w1 =
  (Ok None, Demo.w1).
Proof. vm_compute. reflexivity. Qed.

(** Editing a comment whose drawing file has gone missing: the text of the
    [new_comment] event carries the marker after the new text. *)
Example edit_comment_drawing_not_found :
  emitted_since
    (set_fs Demo.w_replied (w_fs Demo.w0))
    (exec (edit_comment Demo.cfg "s1" (Demo.edit_msg 1 "edited"))
          (set_db (set_fs Demo.w_replied (w_fs Demo.w0))
             (set_comments (w_db Demo.w_replied)
                [with_drawing Demo.first_comment (Some "0123.webp")]))) =
  [del_comment_ev 1;
   new_comment_ev
     (with_drawing
        (Db.with_text Demo.first_comment "edited [DRAWING NOT FOUND]")
        (Some "0123.webp"))].
Proof. vm_compute. reflexivity. Qed.

(** * The theorems at work on concrete inputs *)

Lemma disconnect_of_superseded_connection_unroutes_witness :
  userid_to_sid
    (run Demo.cfg
         [on_connect "s1" (Demo.headers_of "alice" "Alice");
          on_connect "s2" (Demo.headers_of "alice" "Alice");
          on_disconnect "s1"] Demo.w0) !! "alice" = None /\
  is_Some
    (w_sessions
       (run Demo.cfg
            [on_connect "s1" (Demo.headers_of "alice" "Alice");
             on_connect "s2" (Demo.headers_of "alice" "Alice");
             on_disconnect "s1"] Demo.w0) !! "s2").
Proof.
  pose proof (disconnect_of_superseded_connection_unroutes
                Demo.w0 "s1" "s2" (Demo.headers_of "alice" "Alice")
                (Demo.headers_of "alice" "Alice") Demo.note false false
                ltac:(discriminate) eq_refl ltac:(vm_compute; reflexivity))
    as H.
  cbv zeta in H. destruct H as (_ & _ & Hnone & Hsome & _).
  split; [exact Hnone | exact Hsome].
Defined.

Lemma seen_only_by_listing_witness :
  emitted_since Demo.w0 (exec (push_message Demo.note false true) Demo.w0) = [] /\
  List.map m_seen (db_messages (w_db (exec (push_message Demo.note false true) Demo.w0))) = [false] /\
  forall m : Message,
    m ∈ messages_of "alice"
          (run Demo.cfg
             [on_queued_message Demo.note;
              on_connect "s1" (Demo.headers_of "alice" "Alice");
              on_list_my_messages "s1" Demo.no_msg] Demo.w0) ->
    m_seen m = true.
Proof.
  split; [vm_compute; reflexivity|]. split; [vm_compute; reflexivity|].
  pose proof (seen_only_by_listing Demo.cfg Demo.w0 Demo.note true "s1"
                (Demo.headers_of "alice" "Alice") Demo.no_msg
                eq_refl eq_refl ltac:(vm_compute; reflexivity) eq_refl
                ltac:(vm_compute; reflexivity)) as H.
  cbv zeta in H. destruct H as (_ & _ & _ & _ & _ & _ & _ & Hseen & _).
  exact Hseen.
Defined.

Lemma open_video_snapshot_witness :
  emitted_since Demo.w_replied
    (exec (open_video Demo.cfg "s1" (Demo.comment_msg "vid1" None ""))
          Demo.w_replied) =
  [open_video_ev (dict_for_video Demo.cfg (Demo.video "vid1" "alice"));
   new_comment_ev Demo.first_comment; new_comment_ev Demo.reply_comment] /\
  "s1" ∈ members
           (exec (open_video Demo.cfg "s1" (Demo.comment_msg "vid1" None ""))
                 Demo.w_replied) "vid1".
Proof.
  pose proof (open_video_snapshot Demo.cfg Demo.w_replied "s1" Demo.alice
                (Demo.comment_msg "vid1" None "") "vid1"
                (Demo.video "vid1" "alice")
                [Demo.first_comment; Demo.reply_comment]
                ltac:(vm_compute; reflexivity) eq_refl eq_refl eq_refl
                ltac:(vm_compute; reflexivity)
                ltac:(vm_compute; repeat constructor)) as H.
  cbv zeta in H. destruct H as (_ & Hroom & Hsent & _).
  split.
  - unfold emitted_since. rewrite Hsent, drop_app_length, map_map.
    reflexivity.
  - rewrite Hroom. apply elem_of_union_r, elem_of_singleton. reflexivity.
Defined.

Lemma edit_comment_delete_then_recreate_witness :
  emitted_since Demo.w_replied
    (exec (edit_comment Demo.cfg "s1" (Demo.edit_msg 1 "edited"))
          Demo.w_replied) =
  [del_comment_ev 1;
   new_comment_ev (Db.with_text Demo.first_comment "edited")].
Proof.
  pose proof (edit_comment_delete_then_recreate Demo.cfg Demo.w_replied "s1"
                Demo.alice (Demo.edit_msg 1 "edited") 1 "edited"
                Demo.first_comment
                ltac:(vm_compute; reflexivity) eq_refl eq_refl eq_refl eq_refl
                ltac:(vm_compute; reflexivity) eq_refl eq_refl) as H.
  cbv zeta in H. destruct H as [Hauth _].
  destruct (Hauth eq_refl (Db.with_text Demo.first_comment "edited")
                  eq_refl) as (_ & _ & Hsent & _).
  unfold emitted_since. rewrite Hsent, drop_app_length, map_map. reflexivity.
Defined.

Lemma del_comment_with_reply_refused_witness :
  thread_shape
    (exec (del_comment "s1" (Demo.id_msg 1)) Demo.w_replied) =
  [(Some 1, "vid1", None); (Some 2, "vid1", Some 1)].
Proof.
  pose proof (del_comment_with_reply_refused Demo.w_replied "s1" Demo.alice
                (Demo.id_msg 1) 1 Demo.first_comment Demo.reply_comment
                ltac:(vm_compute; reflexivity) eq_refl
                ltac:(vm_compute; reflexivity)
                ltac:(vm_compute; apply list_elem_of_In; right; left;
                      reflexivity)
                eq_refl eq_refl eq_refl) as H.
  cbv zeta in H. destruct H as (_ & Hdb & _).
  unfold thread_shape. rewrite Hdb. vm_compute. reflexivity.
Defined.

Lemma drawing_stored_content_addressed_witness :
  fs_files
    (w_fs (exec (add_comment Demo.cfg "s1"
                   (Demo.drawing_msg "vid1" "look"
                                     "data:image/webp;base64,AB"))
                Demo.w1))
    !! "/data/videos/vid1/drawings/4142000000000000.webp" =
  Some (Demo.bytes_of_string "AB").
Proof.
  pose proof (drawing_stored_content_addressed Demo.cfg Demo.w1 "s1"
                Demo.alice
                (Demo.drawing_msg "vid1" "look" "data:image/webp;base64,AB")
                "vid1" "data:image/webp;base64,AB"
                (Demo.video "vid1" "alice") (Demo.bytes_of_string "AB")
                ltac:(vm_compute; reflexivity) eq_refl eq_refl eq_refl
                ltac:(vm_compute; reflexivity) eq_refl eq_refl eq_refl
                ltac:(vm_compute; reflexivity) eq_refl
                ltac:(vm_compute; reflexivity)) as H.
  cbv zeta in H. destruct H as (Hfile & _).
  exact Hfile.
Defined.

Lemma upload_with_path_in_filename_rejected_witness :
  post_upload_file Demo.cfg "7f1c"
    {| req_headers := Demo.headers_of "alice" "Alice";
       req_fields := [Demo.evil_field] |} Demo.w1 =
  (Raise (AssertionError "Filename must not contain path"), Demo.w1).
Proof.
  exact (proj1 (upload_with_path_in_filename_rejected Demo.cfg Demo.w1 "7f1c"
                  (Demo.headers_of "alice" "Alice") Demo.evil_field []
                  "../a.mov" eq_refl eq_refl ltac:(discriminate))).
Defined.

(** * Further properties of the server *)

(** ** Identity from the proxy's headers *)

(** [user_from_headers]: the first of the three id headers that holds a
    non-empty value gives the user id, and likewise for the name; without
    one, the identity is [anonymous] / [Anonymous]. Neither part is ever
    empty. *)
Theorem user_from_headers_precedence (headers : gmap string string) :
  let id1 := headers !! "HTTP_X_REMOTE_USER_ID" in
  let id2 := headers !! "X-Remote-User-Id" in
  let id3 := headers !! "X-REMOTE-USER-ID" in
  let name1 := headers !! "HTTP_X_REMOTE_USER_NAME" in
  let name2 := headers !! "X-Remote-User-Name" in
  let name3 := headers !! "X-REMOTE-USER-NAME" in
  truthy (user_from_headers headers).1 = true /\
  truthy (user_from_headers headers).2 = true /\
  Some (user_from_headers headers).1 =
    (if truthy_opt id1 then id1
     else if truthy_opt id2 then id2
     else if truthy_opt id3 then id3 else Some "anonymous") /\
  Some (user_from_headers headers).2 =
    (if truthy_opt name1 then name1
     else if truthy_opt name2 then name2
     else if truthy_opt name3 then name3 else Some "Anonymous").
Proof.
  cbv zeta. unfold user_from_headers. cbn [fst snd].
  generalize (headers !! "HTTP_X_REMOTE_USER_ID") (headers !! "X-Remote-User-Id")
             (headers !! "X-REMOTE-USER-ID") (headers !! "HTTP_X_REMOTE_USER_NAME")
             (headers !! "X-Remote-User-Name") (headers !! "X-REMOTE-USER-NAME").
  intros i1 i2 i3 n1 n2 n3. unfold py_or.
  repeat split.
  - by destruct i1 as [[|? ?]|], i2 as [[|? ?]|], i3 as [[|? ?]|].
  - by destruct n1 as [[|? ?]|], n2 as [[|? ?]|], n3 as [[|? ?]|].
  - by destruct i1 as [[|? ?]|], i2 as [[|? ?]|], i3 as [[|? ?]|].
  - by destruct n1 as [[|? ?]|], n2 as [[|? ?]|], n3 as [[|? ?]|].
Qed.

(** ** Strings and paths *)

Lemma append_nil_r (s : string) : s +:+ "" = s.
Proof.
  induction s as [| c s IH]; [reflexivity|].
  change (String c (s +:+ "") = String c s). by rewrite IH.
Qed.

Lemma rev_app_rev_app (a b c : string) :
  String.rev_app (String.rev_app a b) c = String.rev_app b (a +:+ c).
Proof.
  revert b c. induction a as [| x a IH]; intros b c; [reflexivity|].
  cbn [String.rev_app]. rewrite IH. reflexivity.
Qed.

Lemma rev_involutive (s : string) : String.rev (String.rev s) = s.
Proof.
  unfold String.rev. rewrite rev_app_rev_app. cbn. apply append_nil_r.
Qed.


(** Without a separator in it, a string is split into itself. *)
Lemma split_go_whole (cur s : string) :
  has_sep s = false ->
  split_go "/" cur s = [String.rev (String.rev_app s cur)].
Proof.
  revert cur. induction s as [| c s IH]; intros cur Hs; [reflexivity|].
  cbn [has_sep] in Hs. apply orb_false_iff in Hs as [Hc Hs].
  cbn [split_go String.rev_app]. rewrite Hc. by apply IH.
Qed.

Lemma split_whole (s : string) : has_sep s = false -> split "/" s = [s].
Proof.
  intros Hs. unfold split. rewrite split_go_whole by exact Hs.
  fold (String.rev s). by rewrite rev_involutive.
Qed.

(** The file-name check of [post_upload_file],
    [str(Path(filename).name) == filename], accepts exactly the names that
    contain no separator and are not [.]: among them the empty name and
    [..]. *)
Theorem filename_check_accepts (filename : string) :
  path_name (path_of filename) = filename <->
  has_sep filename = false /\ filename ≠ ".".
Proof.
  split.
  - intros Heq. split.
    + rewrite <- Heq. apply path_name_no_sep.
    + intros ->. discriminate Heq.
  - intros [Hsep Hdot]. unfold path_name, path_of. cbn [p_parts].
    rewrite split_whole by exact Hsep. cbn [List.filter]. unfold keep_part.
    destruct (String.eqb filename "") eqn:He.
    { apply String.eqb_eq in He. by subst. }
    destruct (String.eqb filename ".") eqn:Hd.
    { apply String.eqb_eq in Hd. contradiction. }
    reflexivity.
Qed.




Section VideoUrl.
Context `{Platform} (self : Config).


End VideoUrl.

(** ** Handlers never fail towards Socket.IO, given a session *)

Lemma push_message_returns (msg : Message) (persist : bool) (w : World) :
  (push_message msg true persist w).1 = Ok tt.
Proof.
  rewrite push_message_cases. unfold deliver.
  destruct w as [[vs cs ms now df] f ss rs us sent ef ing].
  cbn [w_db db_fails userid_to_sid w_emit_fails set_db].
  destruct persist, df; cbn [m_user_id persisted Db.stamped];
    destruct (us !! m_user_id msg); try destruct ef; reflexivity.
Qed.

(** [push_message] with [dont_throw] set returns normally whatever the
    storage and the transport do, as its docstring promises for calls from
    exception handlers; and a push with [persist] unset never touches the
    storage. *)
Theorem push_message_dont_throw_never_raises
    (msg : Message) (persist dont_throw : bool) (w : World) :
  eval (push_message msg true persist) w = Ok tt /\
  w_db (exec (push_message msg dont_throw false) w) = w_db w.
Proof.
  split; [apply push_message_returns|].
  unfold exec. rewrite push_message_cases. unfold deliver.
  destruct w as [[vs cs ms now df] f ss rs us sent ef ing].
  cbn [w_db db_fails userid_to_sid w_emit_fails set_db].
  destruct (us !! m_user_id msg); try destruct ef; reflexivity.
Qed.

Lemma handler_try_returns (sid : string) (w : World)
    (body : string -> string -> M unit) (on_error : string -> exn -> M unit) :
  is_Some (w_sessions w !! sid) ->
  (forall u e w', (on_error u e w').1 = Ok tt) ->
  (handler_try sid body on_error w).1 = Ok tt.
Proof.
  intros [[u n] Hs] Hh. unfold handler_try, get_user, bind, get_session, ret.
  rewrite Hs. cbn [s_user_id s_username]. unfold try_except.
  destruct (body u n w) as [[[] | e] w']; [reflexivity | apply Hh].
Qed.

Section Robustness.
Context `{Platform} (self : Config).

(** The six handlers that end in [push_message(dont_throw=True, ...)]
    return normally for a connection with a session and a payload that is a
    dict ([Msg]: each key the handlers read may be present or absent, with
    a string or an integer id as its value), whatever the storage and the
    transport do: no missing key, failed assertion, storage or delivery
    error reaches Socket.IO. A payload that is not a dict is not a [Msg] and
    is outside this statement: on it the [msg.get] of the [except] blocks
    fails in turn. *)
Theorem handlers_return_normally (sid : string) (msg : Msg) (w : World) :
  is_Some (w_sessions w !! sid) ->
  eval (list_my_videos self sid msg) w = Ok tt /\
  eval (open_video self sid msg) w = Ok tt /\
  eval (del_video sid msg) w = Ok tt /\
  eval (add_comment self sid msg) w = Ok tt /\
  eval (edit_comment self sid msg) w = Ok tt /\
  eval (del_comment sid msg) w = Ok tt.
Proof.
  intros Hs. unfold eval.
  repeat split; apply handler_try_returns; try exact Hs; intros u e w';
    apply push_message_returns.
Qed.

(** [list_my_messages] is the exception: its [except] block emits directly,
    so with the storage and the transport both failing the handler raises
    the transport's error. *)
Theorem list_my_messages_can_raise (sid : string) (s : Session) (msg : Msg)
    (w : World) :
  w_sessions w !! sid = Some s ->
  truthy (s_user_id s) = true ->
  db_fails (w_db w) = true ->
  w_emit_fails w = true ->
  list_my_messages sid msg w = (Raise TransportError, w).
Proof.
  destruct w as [[vs cs ms now df] f ss rs us sent ef ing], s as [u n].
  cbn [w_sessions w_db db_fails w_emit_fails s_user_id].
  intros Hs Hu -> ->.
  unfold list_my_messages, handler_try, get_user, Db.get_user_messages.
  mrun. rewrite Hs. mrun. rewrite Hu. mrun. reflexivity.
Qed.

End Robustness.

(** ** Videos: [del_video] and requests for unknown videos *)

Lemma find_filter_none {A} (f : A -> bool) (l : list A) :
  List.find f (List.filter (fun x => negb (f x)) l) = None.
Proof.
  induction l as [| x l IH]; [reflexivity|]. cbn [List.filter].
  destruct (f x) eqn:Hx; cbn [negb]; [exact IH|].
  cbn [List.find]. by rewrite Hx.
Qed.

Lemma filter_filter_none {A} (f : A -> bool) (l : list A) :
  List.filter f (List.filter (fun x => negb (f x)) l) = [].
Proof.
  induction l as [| x l IH]; [reflexivity|]. cbn [List.filter].
  destruct (f x) eqn:Hx; cbn [negb]; [exact IH|].
  cbn [List.filter]. by rewrite Hx.
Qed.

Lemma filter_other_video (h h' : string) (cs : list Comment) :
  h' ≠ h ->
  List.filter (fun c => String.eqb (c_video_hash c) h')
    (List.filter (fun c => negb (String.eqb (c_video_hash c) h)) cs) =
  List.filter (fun c => String.eqb (c_video_hash c) h') cs.
Proof.
  intros Hne. induction cs as [| c cs IH]; [reflexivity|].
  cbn [List.filter].
  destruct (String.eqb (c_video_hash c) h) eqn:Hh; cbn [negb].
  - apply String.eqb_eq in Hh.
    destruct (String.eqb (c_video_hash c) h') eqn:Hh'; [| exact IH].
    apply String.eqb_eq in Hh'. congruence.
  - cbn [List.filter]. by rewrite IH.
Qed.

Section DelVideo.
Context `{Platform} (self : Config).

(** [del_video] by the user who added the video or by [admin], storage and
    transport working: the video and all comments on it are gone from the
    storage in one step, the comments of every other video are untouched,
    a confirmation is stored as a notification of the caller and emitted to
    the caller's connection; no event is sent to the room of the video. *)
Theorem del_video_removes_video_and_comments
    (w : World) (sid : string) (s : Session) (msg : Msg) (h : string)
    (v : Video) :
  w_sessions w !! sid = Some s ->
  msg_video_hash msg = Some h ->
  video_of h w = Some v ->
  owner_or_admin (s_user_id s) (added_by_userid v) = true ->
  db_fails (w_db w) = false ->
  w_emit_fails w = false ->
  let w' := exec (del_video sid msg) w in
  let confirmation :=
    persisted (note_for "ok" (s_user_id s) (Some h) None "Video deleted."
                        (Some (deleted_details v))) w in
  video_of h w' = None /\
  comments_of h w' = [] /\
  (forall h' : string, h' ≠ h -> comments_of h' w' = comments_of h' w) /\
  db_messages (w_db w') = db_messages (w_db w) ++ [confirmation] /\
  w_sent w' = w_sent w ++ delivered w confirmation.
Proof.
  destruct w as [[vs cs ms now df] f ss rs us sent ef ing], s as [u n].
  unfold video_of, comments_of, owner_or_admin, delivered, note_for.
  cbn [w_sessions w_db db_fails w_emit_fails db_videos db_comments
       db_messages s_user_id userid_to_sid w_sent].
  intros Hs Hh Hv Hauth -> ->.
  unfold del_video, handler_try, get_user, Db.get_video,
    Db.del_video_and_comments, exec.
  mrun. rewrite Hs. mrun. rewrite Hh. mrun. rewrite Hv. mrun.
  rewrite Hauth. mrun. rewrite push_message_cases.
  unfold deliver, persisted, emission, members.
  cbn [w_db db_fails db_messages db_now userid_to_sid w_emit_fails
       m_user_id Db.stamped new_Message set_db set_messages w_sent w_rooms].
  destruct (us !! u); mrun;
    (split; [apply find_filter_none|]);
    (split; [apply filter_filter_none|]);
    (split; [intros h' Hne; by apply filter_other_video|]);
    rewrite ?app_nil_r; by split.
Qed.

(** [del_video] by anybody else: the assertion fails before the storage is
    touched; the videos and the comments stay as they are, and the refusal
    is stored as an error notification of the caller and emitted to the
    caller's connection. *)
Theorem del_video_refused_for_others
    (w : World) (sid : string) (s : Session) (msg : Msg) (h : string)
    (v : Video) :
  w_sessions w !! sid = Some s ->
  msg_video_hash msg = Some h ->
  video_of h w = Some v ->
  owner_or_admin (s_user_id s) (added_by_userid v) = false ->
  db_fails (w_db w) = false ->
  w_emit_fails w = false ->
  let w' := exec (del_video sid msg) w in
  let refusal :=
    persisted
      (note_for "error" (s_user_id s) (Some h) None "Failed to delete video."
         (Some ("Video '" +:+ h +:+ "' not owned by you. Cannot delete.")))
      w in
  db_videos (w_db w') = db_videos (w_db w) /\
  db_comments (w_db w') = db_comments (w_db w) /\
  db_messages (w_db w') = db_messages (w_db w) ++ [refusal] /\
  w_sent w' = w_sent w ++ delivered w refusal.
Proof.
  destruct w as [[vs cs ms now df] f ss rs us sent ef ing], s as [u n].
  unfold video_of, comments_of, owner_or_admin, delivered, note_for.
  cbn [w_sessions w_db db_fails w_emit_fails db_videos db_comments
       db_messages s_user_id userid_to_sid w_sent].
  intros Hs Hh Hv Hauth -> ->.
  unfold del_video, handler_try, get_user, Db.get_video, exec.
  mrun. rewrite Hs. mrun. rewrite Hh. mrun. rewrite Hv. mrun.
  rewrite Hauth. mrun. rewrite push_message_cases.
  unfold deliver, persisted, emission, members.
  cbn [w_db db_fails db_messages db_now userid_to_sid w_emit_fails
       m_user_id Db.stamped new_Message set_db set_messages w_sent w_rooms
       exn_str].
  destruct (us !! u); mrun; rewrite ?app_nil_r; by repeat split.
Qed.

(** A request that names a video the storage does not have: [open_video],
    [del_video] and [add_comment] each leave storage, files and room
    membership as they are (the caller is not subscribed, no drawing is
    written, nothing is stored) and emit only an error notification, not
    persisted, to the connection the caller's identity routes to. *)
Theorem unknown_video_changes_nothing
    (w : World) (sid : string) (s : Session) (msg : Msg) (h : string) :
  w_sessions w !! sid = Some s ->
  truthy (s_user_id s) = true ->
  truthy (s_username s) = true ->
  msg_video_hash msg = Some h ->
  video_of h w = None ->
  db_fails (w_db w) = false ->
  w_emit_fails w = false ->
  let answer text :=
    (Ok tt,
     set_sent w
       (w_sent w ++
        delivered w (note_for "error" (s_user_id s) (Some h) None text None)))
  in
  open_video self sid msg w = answer "No such video." /\
  del_video sid msg w = answer "No such video. Cannot delete." /\
  add_comment self sid msg w = answer "No such video. Cannot comment.".
Proof.
  destruct w as [[vs cs ms now df] f ss rs us sent ef ing], s as [u n].
  unfold video_of, delivered, note_for.
  cbn [w_sessions w_db db_fails w_emit_fails db_videos s_user_id s_username
       userid_to_sid w_sent].
  intros Hs Hu Hn Hh Hv -> ->.
  unfold open_video, del_video, add_comment, handler_try, get_user,
    Db.get_video.
  mrun. rewrite Hs. mrun. rewrite Hu, Hn, Hh. cbn [andb]. mrun. rewrite Hv.
  mrun. rewrite !push_message_cases. unfold deliver, emission, members.
  cbn [userid_to_sid w_emit_fails m_user_id new_Message w_sent w_rooms].
  destruct (us !! u); mrun; rewrite ?app_nil_r; by repeat split.
Qed.

End DelVideo.

(** ** Comments: validation and broadcast *)

Section Comments.
Context `{Platform} (self : Config).

(** [add_comment] with a drawing that is not acceptable (it does not start
    with [data:], it does not parse as a data URI, or its media type is not
    [image/webp]): no file is written, no comment is stored, and the caller
    is told why in an error notification. *)
Theorem add_comment_rejects_bad_drawing
    (w : World) (sid : string) (s : Session) (msg : Msg) (h d : string)
    (v : Video) :
  w_sessions w !! sid = Some s ->
  truthy (s_user_id s) = true ->
  truthy (s_username s) = true ->
  msg_video_hash msg = Some h ->
  video_of h w = Some v ->
  msg_drawing msg = Some d ->
  truthy d = true ->
  db_fails (w_db w) = false ->
  w_emit_fails w = false ->
  let answer details :=
    (Ok tt,
     set_sent w
       (w_sent w ++
        delivered w (note_for "error" (s_user_id s) (Some h) None
                              "Failed to add comment." (Some details))))
  in
  (startswith "data:" d = false ->
   add_comment self sid msg w = answer "Drawing is not a data URI.") /\
  (startswith "data:" d = true -> datauri_parse d = None ->
   add_comment self sid msg w = answer (exn_str InvalidDataURI)) /\
  (forall (mimetype : string) (data : bytes),
     startswith "data:" d = true ->
     datauri_parse d = Some (mimetype, data) ->
     mimetype ≠ "image/webp" ->
     add_comment self sid msg w = answer "Invalid mimetype in drawing.").
Proof.
  destruct w as [[vs cs ms now df] f ss rs us sent ef ing], s as [u n].
  unfold video_of, delivered, note_for.
  cbn [w_sessions w_db db_fails w_emit_fails db_videos s_user_id s_username
       userid_to_sid w_sent].
  intros Hs Hu Hn Hh Hv Hd Htruthy -> ->.
  unfold add_comment, handler_try, get_user, Db.get_video.
  mrun. rewrite Hs. mrun. rewrite Hu, Hn, Hh. cbn [andb]. mrun. rewrite Hv.
  mrun. unfold store_drawing. rewrite Hd. cbn [truthy_opt default].
  rewrite Htruthy. mrun. unfold id.
  split; [| split].
  - intros Hsw. rewrite Hsw. mrun. rewrite push_message_cases.
    unfold deliver, emission, members.
    cbn [userid_to_sid w_emit_fails m_user_id new_Message w_sent w_rooms
         exn_str].
    destruct (us !! u); mrun; rewrite ?app_nil_r; reflexivity.
  - intros Hsw Hparse. rewrite Hsw. mrun. rewrite Hparse. mrun.
    rewrite push_message_cases. unfold deliver, emission, members.
    cbn [userid_to_sid w_emit_fails m_user_id new_Message w_sent w_rooms
         exn_str].
    destruct (us !! u); mrun; rewrite ?app_nil_r; reflexivity.
  - intros mimetype data Hsw Hparse Hmime. rewrite Hsw. mrun.
    rewrite Hparse. mrun. apply String.eqb_neq in Hmime. rewrite Hmime. mrun.
    rewrite push_message_cases. unfold deliver, emission, members.
    cbn [userid_to_sid w_emit_fails m_user_id new_Message w_sent w_rooms
         exn_str].
    destruct (us !! u); mrun; rewrite ?app_nil_r; reflexivity.
Qed.

(** [add_comment] with an acceptable drawing, transport working: what is
    broadcast to the room of the video is the stored comment with its
    drawing read back from the file just written and inlined as a data URI
    of the same bytes; the stored row keeps the file name. *)
Theorem add_comment_broadcasts_inlined_drawing
    (w : World) (sid : string) (s : Session) (msg : Msg) (h d : string)
    (v : Video) (data : bytes) :
  w_sessions w !! sid = Some s ->
  truthy (s_user_id s) = true ->
  truthy (s_username s) = true ->
  msg_video_hash msg = Some h ->
  video_of h w = Some v ->
  msg_drawing msg = Some d ->
  truthy d = true ->
  startswith "data:" d = true ->
  datauri_parse d = Some ("image/webp", data) ->
  startswith "data:" (drawing_name data) = false ->
  db_fails (w_db w) = false ->
  w_emit_fails w = false ->
  fs_denied (w_fs w) = ∅ ->
  let w' := exec (add_comment self sid msg) w in
  exists row : Comment,
    db_comments (w_db w') = db_comments (w_db w) ++ [row] /\
    c_drawing row = Some (drawing_name data) /\
    w_sent w' =
      w_sent w ++
      [emission w h
         (new_comment_ev
            (with_drawing row (Some (datauri_make "image/webp" data))))].
Proof.
  destruct w as [[vs cs ms now df] f ss rs us sent ef ing], s as [u n].
  unfold video_of.
  cbn [w_sessions w_db db_fails w_emit_fails w_fs db_comments db_videos
       s_user_id s_username userid_to_sid w_sent].
  intros Hs Hu Hn Hh Hv Hd Htruthy Hstarts Hparse Hname -> -> Hdenied.
  unfold add_comment, handler_try, get_user, Db.get_video, exec.
  mrun. rewrite Hs. mrun. rewrite Hu, Hn. cbn [andb]. mrun.
  rewrite Hh. mrun. rewrite Hv. mrun.
  unfold store_drawing. rewrite Hd. cbn [truthy_opt default]. rewrite Htruthy.
  mrun. unfold id. rewrite Hstarts. mrun. rewrite Hparse. mrun.
  change (String.eqb "image/webp" "image/webp") with true. mrun.
  rewrite webp_ext. mrun. fold (drawing_name data).
  rewrite (fs_mkdir_parents_allowed _ _ Hdenied). mrun.
  rewrite fs_write_allowed by exact Hdenied. mrun.
  cbn [fs_dirs fs_files fs_denied].
  assert (Hpy : py_or (Some (drawing_name data)) None =
                Some (drawing_name data))
    by (unfold py_or; cbn [truthy_opt]; by rewrite drawing_name_truthy).
  rewrite !Hpy.
  unfold Db.add_comment. mrun.
  unfold _emit_new_comment. mrun. unfold comment_data.
  cbn [Db.with_id c_drawing c_video_hash].
  rewrite drawing_name_truthy, Hname. cbn [andb negb].
  unfold fs_exists, fs_read. cbn [fs_dirs fs_files].
  rewrite lookup_insert_eq.
  rewrite (bool_decide_eq_true_2 (is_Some (Some data))) by eauto.
  rewrite orb_true_r. mrun.
  eexists. split; [reflexivity|]. split; [reflexivity|].
  unfold emission, members. cbn [w_rooms]. reflexivity.
Qed.

(** [del_comment] of an existing comment without replies on its video,
    storage and transport working. By the author or [admin]: the comment
    is removed, every other comment stays, and one [del_comment] event with
    its id is emitted to the room of its video. By anybody else: the
    storage is unchanged and only the refusal is emitted, to the caller's
    connection. *)
Theorem del_comment_without_replies
    (w : World) (sid : string) (s : Session) (msg : Msg) (id : Z)
    (old : Comment) :
  w_sessions w !! sid = Some s ->
  truthy (s_user_id s) = true ->
  truthy (s_username s) = true ->
  msg_comment_id msg = Some id ->
  comment_of id w = Some old ->
  has_reply id (comments_of (c_video_hash old) w) = false ->
  db_fails (w_db w) = false ->
  w_emit_fails w = false ->
  let w' := exec (del_comment sid msg) w in
  (owner_or_admin (s_user_id s) (c_user_id old) = true ->
   db_comments (w_db w') =
     List.filter (fun c => negb (Db.has_id id c)) (db_comments (w_db w)) /\
   comment_of id w' = None /\
   w_sent w' =
     w_sent w ++ [emission w (c_video_hash old) (del_comment_ev id)]) /\
  (owner_or_admin (s_user_id s) (c_user_id old) = false ->
   w_db w' = w_db w /\
   w_sent w' =
     w_sent w ++
     delivered w
       (note_for "error" (s_user_id s) None (Some id)
          "Failed to delete comment."
          (Some "You can only delete your own comments"))).
Proof.
  destruct w as [[vs cs ms now df] f ss rs us sent ef ing], s as [u n].
  unfold comment_of, comments_of, delivered, note_for.
  cbn [w_sessions w_db db_fails w_emit_fails w_fs db_comments s_user_id
       s_username userid_to_sid w_sent].
  intros Hs Hu Hn Hid Hold Hreply -> ->.
  unfold del_comment, handler_try, get_user, Db.get_comment,
    Db.get_video_comments, Db.del_comment, exec.
  mrun. rewrite Hs. mrun. rewrite Hu, Hn. cbn [andb]. mrun.
  rewrite Hid. mrun. rewrite Hold. unfold attr_of_comment. mrun.
  split; intros Hauth; rewrite Hauth; mrun.
  - rewrite refuse_reply_loop, Hreply. mrun.
    split; [reflexivity|]. split; [apply find_filter_none|].
    reflexivity.
  - rewrite push_message_cases. unfold deliver, emission, members.
    cbn [userid_to_sid w_emit_fails m_user_id new_Message w_sent w_rooms
         exn_str].
    destruct (us !! u); mrun; rewrite ?app_nil_r; by split.
Qed.

(** [edit_comment] and [del_comment] for an id the storage does not have:
    reading [old.video_hash] fails, nothing is changed in the storage, and
    the caller gets an error notification with that failure as details. *)
Theorem unknown_comment_changes_nothing
    (w : World) (sid : string) (s : Session) (msg : Msg) (id : Z)
    (text : string) :
  w_sessions w !! sid = Some s ->
  truthy (s_user_id s) = true ->
  truthy (s_username s) = true ->
  msg_comment_id msg = Some id ->
  msg_comment msg = Some text ->
  comment_of id w = None ->
  db_fails (w_db w) = false ->
  w_emit_fails w = false ->
  let details := Some "'NoneType' object has no attribute 'video_hash'" in
  edit_comment self sid msg w =
    (Ok tt,
     set_sent w
       (w_sent w ++
        delivered w
          (note_for "error" (s_user_id s) (msg_video_hash msg) (Some id)
                    "Failed to edit comment." details))) /\
  del_comment sid msg w =
    (Ok tt,
     set_sent w
       (w_sent w ++
        delivered w
          (note_for "error" (s_user_id s) None (Some id)
                    "Failed to delete comment." details))).
Proof.
  destruct w as [[vs cs ms now df] f ss rs us sent ef ing], s as [u n].
  unfold comment_of, delivered, note_for.
  cbn [w_sessions w_db db_fails w_emit_fails w_fs db_comments s_user_id
       s_username userid_to_sid w_sent].
  intros Hs Hu Hn Hid Htext Hnone -> ->.
  unfold edit_comment, del_comment, handler_try, get_user, Db.get_comment.
  mrun. rewrite Hs. mrun. rewrite Hu, Hn, Hid, Htext. cbn [andb]. mrun.
  rewrite Hnone. unfold attr_of_comment. mrun.
  rewrite !push_message_cases. unfold deliver, emission, members.
  cbn [userid_to_sid w_emit_fails m_user_id new_Message w_sent w_rooms
       exn_str].
  destruct (us !! u); mrun; rewrite ?app_nil_r; by split.
Qed.

(** [list_my_videos] by a connection with a session, storage and transport
    working: exactly one [user_videos] event goes to the caller, listing
    the descriptors of the videos that user added, in storage order, and
    nothing else changes. *)
Theorem list_my_videos_lists_own_videos
    (w : World) (sid : string) (s : Session) (msg : Msg) :
  w_sessions w !! sid = Some s ->
  db_fails (w_db w) = false ->
  w_emit_fails w = false ->
  list_my_videos self sid msg w =
  (Ok tt,
   set_sent w
     (w_sent w ++
      [emission w sid
         (user_videos_ev (s_username s) (s_user_id s)
            (List.map (dict_for_video self)
               (List.filter
                  (fun v => String.eqb (added_by_userid v) (s_user_id s))
                  (db_videos (w_db w)))))])).
Proof.
  destruct w as [[vs cs ms now df] f ss rs us sent ef ing], s as [u n].
  cbn [w_sessions w_db db_fails w_emit_fails db_videos s_user_id s_username
       w_sent].
  intros Hs -> ->.
  unfold list_my_videos, handler_try, get_user, Db.get_all_user_videos.
  mrun. rewrite Hs. mrun. reflexivity.
Qed.

End Comments.

(** ** The mailbox when the storage fails *)

(** [list_my_messages] while the storage fails, transport working: the
    caller's own connection gets exactly one error [message] event, built
    on the spot and not stored, and nothing else changes. *)
Theorem list_my_messages_storage_failure
    (w : World) (sid : string) (s : Session) (msg : Msg) :
  w_sessions w !! sid = Some s ->
  truthy (s_user_id s) = true ->
  db_fails (w_db w) = true ->
  w_emit_fails w = false ->
  list_my_messages sid msg w =
  (Ok tt,
   set_sent w
     (w_sent w ++
      [emission w sid
         (message_ev
            (note_for "error" (s_user_id s) None None
                      "Failed to get messages."
                      (Some (exn_str StorageError))))])).
Proof.
  destruct w as [[vs cs ms now df] f ss rs us sent ef ing], s as [u n].
  cbn [w_sessions w_db db_fails w_emit_fails s_user_id w_sent].
  intros Hs Hu -> ->.
  unfold list_my_messages, handler_try, get_user, Db.get_user_messages.
  mrun. rewrite Hs. mrun. rewrite Hu. mrun. reflexivity.
Qed.

(** ** Connecting *)


(** ** What each input leaves alone *)

Lemma unchanged_refl {X} (proj : World -> X) (w : World) : unchanged proj w w.
Proof. reflexivity. Qed.

Lemma unchanged_trans {X} (proj : World -> X) (w1 w2 w3 : World) :
  unchanged proj w1 w2 -> unchanged proj w2 w3 -> unchanged proj w1 w3.
Proof. unfold unchanged. intros H1 H2. by rewrite H2. Qed.

Lemma rooms_grow_refl (w : World) : rooms_grow w w.
Proof. intros room. reflexivity. Qed.

Lemma rooms_grow_trans (w1 w2 w3 : World) :
  rooms_grow w1 w2 -> rooms_grow w2 w3 -> rooms_grow w1 w3.
Proof. intros H1 H2 room. etrans; [apply H1 | apply H2]. Qed.

Ltac unchanged_side :=
  first
    [ exact (unchanged_refl _) | exact (unchanged_trans _)
    | solve [ intros [[]]; intros; reflexivity ] ].

Ltac rooms_side :=
  first
    [ exact rooms_grow_refl | exact rooms_grow_trans
    | solve [ intros [[]]; intros; intro; reflexivity ]
    | solve [ intros [[]]; intro; unfold members, set_rooms; cbn [w_rooms];
              rewrite default_lookup_insert; destruct (decide _);
              set_solver ] ].

Lemma videos_from_refl (w : World) : videos_from w w.
Proof. by intros v. Qed.

Lemma videos_from_trans (w1 w2 w3 : World) :
  videos_from w1 w2 -> videos_from w2 w3 -> videos_from w1 w3.
Proof. intros H1 H2 v Hv. by apply H1, H2. Qed.

Ltac videos_side :=
  first
    [ exact videos_from_refl | exact videos_from_trans
    | solve [ intros [[]]; intros; intro; intro; assumption ]
    | solve [ intros [[]] stored Hstored; cbn in Hstored |- *;
              apply list_elem_of_In, filter_In in Hstored as [Hstored _];
              by apply list_elem_of_In ] ].

(** Unfolds a handler down to the primitive calls and applies the frame
    rules. *)
Ltac frame side :=
  unfold logout, client_connects, client_disconnects, connect, disconnect,
    list_my_videos, open_video, del_video, add_comment, edit_comment,
    del_comment, list_my_messages, push_message, _emit_new_comment,
    store_drawing, attr_of_comment, refuse_reply, emit_and_mark,
    Db.get_video, Db.get_video_comments, Db.get_comment, Db.add_comment,
    Db.edit_comment, Db.del_comment, Db.get_all_user_videos,
    Db.del_video_and_comments, Db.add_message, Db.get_user_messages,
    Db.set_message_seen, sio_register, enter_room, save_session,
    sio_unregister;
  repeat first [ keeps_step side
               | progress unfold refuse_reply, emit_and_mark ].

Ltac frame_upload side :=
  unfold post_upload_file;
  match goal with
  | |- context [user_from_headers ?h] => destruct (user_from_headers h)
  end;
  keeps_step side; [keeps_step side | intros _];
  match goal with
  | |- context [req_fields ?r] =>
      induction (req_fields r) as [| field rest IH]
  end; cbn [upload_loop];
  [ keeps_step side
  | keeps_step side;
    [ unfold upload_iteration, save_upload; frame side
    | intros [r |]; [keeps_step side | assumption] ] ].

Section Frames.
Context `{Platform} (self : Config).

(** Only [add_comment], [edit_comment], [del_comment] and [del_video]
    change the stored comments; every other input (connecting and
    disconnecting, listing, opening a video, uploading, a queued
    notification) leaves them exactly as they are, whatever fails. *)
Theorem comments_changed_only_by_comment_handlers (i : Input) (w : World) :
  changes_comments i = false ->
  db_comments (w_db (step self i w)) = db_comments (w_db w).
Proof.
  intros Hi.
  change (unchanged (fun w => db_comments (w_db w)) w (step self i w)).
  destruct i; try discriminate Hi; clear Hi; cbn [step]; unfold exec;
    match goal with |- unchanged ?p ?w (?m ?w).2 =>
      revert w; change (keeps (unchanged p) m) end;
    first [ frame_upload unchanged_side | frame unchanged_side ].
Qed.

(** The server never adds or alters a video: whatever inputs arrive, every
    video in the storage afterwards was there before, unchanged; and only
    [del_video] removes one. *)
Theorem videos_never_added (inputs : list Input) (i : Input) (w : World) :
  (forall v : Video,
     v ∈ db_videos (w_db (run self inputs w)) -> v ∈ db_videos (w_db w)) /\
  (match i with on_del_video _ _ => False | _ => True end ->
   db_videos (w_db (step self i w)) = db_videos (w_db w)).
Proof.
  split.
  - assert (Hstep : forall j v, videos_from v (step self j v)).
    { intros j v. destruct j; cbn [step]; unfold exec;
        match goal with |- videos_from ?w (?m ?w).2 =>
          revert v; change (keeps videos_from m) end;
        first [ frame_upload videos_side | frame videos_side ]. }
    revert w. induction inputs as [| j inputs IH]; intros w v Hv;
      [exact Hv|].
    cbn [run List.fold_left] in Hv. apply IH in Hv. by apply Hstep in Hv.
  - intros Hi.
    change (unchanged (fun w => db_videos (w_db w)) w (step self i w)).
    destruct i; try contradiction; clear Hi; cbn [step]; unfold exec;
      match goal with |- unchanged ?p ?w (?m ?w).2 =>
        revert w; change (keeps (unchanged p) m) end;
      first [ frame_upload unchanged_side | frame unchanged_side ].
Qed.

(** Only [add_comment] (drawings) and the upload endpoint write to the
    file system; every other input leaves directories and files as they
    are. *)
Theorem files_written_only_by_drawings_and_uploads (i : Input) (w : World) :
  writes_files i = false -> w_fs (step self i w) = w_fs w.
Proof.
  intros Hi. change (unchanged w_fs w (step self i w)).
  destruct i; try discriminate Hi; clear Hi; cbn [step]; unfold exec;
    match goal with |- unchanged ?p ?w (?m ?w).2 =>
      revert w; change (keeps (unchanged p) m) end;
    frame unchanged_side.
Qed.

(** Room membership only grows while a connection lasts: no input other
    than a disconnect (or [logout]) takes a connection out of a room. *)
Theorem rooms_only_grow (i : Input) (w : World) (room : string) :
  ends_connection i = false ->
  members w room ⊆ members (step self i w) room.
Proof.
  intros Hi. revert room. change (rooms_grow w (step self i w)).
  destruct i; try discriminate Hi; clear Hi; cbn [step]; unfold exec;
    match goal with |- rooms_grow ?w (?m ?w).2 =>
      revert w; change (keeps rooms_grow m) end;
    first [ frame_upload rooms_side | frame rooms_side ].
Qed.

(** The registry (the sessions and [userid_to_sid]) is changed by
    connecting and disconnecting only: requests, uploads and queued
    notifications never re-route an identity. *)
Theorem registry_changed_only_by_connections (i : Input) (w : World) :
  changes_registry i = false ->
  userid_to_sid (step self i w) = userid_to_sid w /\
  w_sessions (step self i w) = w_sessions w.
Proof.
  intros Hi.
  cut (unchanged (fun w => (userid_to_sid w, w_sessions w)) w
                 (step self i w)).
  { unfold unchanged. intros [= H1 H2]. by split. }
  destruct i; try discriminate Hi; clear Hi; cbn [step]; unfold exec;
    match goal with |- unchanged ?p ?w (?m ?w).2 =>
      revert w; change (keeps (unchanged p) m) end;
    first [ frame_upload unchanged_side | frame unchanged_side ].
Qed.

End Frames.

(** ** [run_server]: the queue of notifications *)

Lemma serve_queue_returns (queue : list (option Message)) (w : World) :
  (serve_queue queue w).1 =
  Ok (if has_sentinel queue then Some tt else None).
Proof.
  revert w. induction queue as [| [msg |] queue IH]; intros w;
    [reflexivity | | reflexivity].
  cbn [serve_queue has_sentinel existsb orb]. unfold bind.
  pose proof (push_message_returns msg true w) as Hp.
  destruct (push_message msg true true w) as [r w']. cbn [fst] in Hp.
  subst r. apply IH.
Qed.

Lemma serve_queue_persists (queue : list (option Message)) (w : World) :
  db_fails (w_db w) = false ->
  List.map content (db_messages (w_db (serve_queue queue w).2)) =
  List.map content (db_messages (w_db w)) ++
  List.map content (before_sentinel queue).
Proof.
  revert w. induction queue as [| [msg |] queue IH]; intros w Hdb;
    cbn [serve_queue before_sentinel List.map];
    try (cbn; by rewrite app_nil_r).
  unfold bind.
  pose proof (push_message_returns msg true w) as Hp.
  pose proof (push_message_cases msg true true w) as Hc.
  rewrite Hdb in Hc. unfold deliver, persisted in Hc.
  destruct (push_message msg true true w) as [r w']. cbn [fst] in Hp.
  subst r.
  assert (Hw' : w_db w' =
                set_messages (w_db w)
                  (db_messages (w_db w) ++
                   [Db.stamped msg (next_id (List.map m_id (db_messages (w_db w))))
                               (db_now (w_db w))])).
  { apply (f_equal (fun x => w_db x.2)) in Hc. cbn [snd] in Hc. rewrite Hc.
    destruct w as [[vs cs ms now df] f ss rs us sent ef ing].
    cbn [w_db db_messages db_now set_db set_messages userid_to_sid
         w_emit_fails m_user_id Db.stamped].
    destruct (us !! m_user_id msg); [destruct ef|]; reflexivity. }
  rewrite IH by (rewrite Hw'; destruct w as [[]]; exact Hdb).
  rewrite Hw'. destruct w as [[vs cs ms now df] f ss rs us sent ef ing].
  cbn [w_db db_messages set_messages]. rewrite map_app, <- app_assoc.
  reflexivity.
Qed.

(** [run_server] returns [False] exactly when the database reports an
    error state (then no queued notification is handled and nothing
    changes) or the site cannot be started. Once it serves, a failing
    storage or transport never ends it: it returns [True] when the queue
    hands out [None], and waits otherwise. *)
Theorem run_server_result (error_state : option string) (site_starts : bool)
    (queue : list (option Message)) (w : World) :
  eval (run_server error_state site_starts queue) w =
    Ok (if truthy_opt error_state || negb site_starts then Some false
        else if has_sentinel queue then Some true else None) /\
  (truthy_opt error_state || negb site_starts = true ->
   exec (run_server error_state site_starts queue) w = w).
Proof.
  unfold eval, exec, run_server, try_except.
  destruct (truthy_opt error_state); [by split|].
  destruct site_starts; cbn [orb negb]; [| by split].
  unfold bind at 1. cbn [ret]. unfold bind.
  pose proof (serve_queue_returns queue w) as Hr.
  destruct (serve_queue queue w) as [r w']. cbn [fst] in Hr. subst r.
  split; [| discriminate]. by destruct (has_sentinel queue).
Qed.

(** While the storage works, [run_server] stores every notification the
    queue hands out before the first [None], in queue order and after the
    rows already stored, each with the content it was queued with; what the
    queue holds after the [None] is never handled. *)
Theorem run_server_persists_queue (queue : list (option Message))
    (w : World) :
  db_fails (w_db w) = false ->
  List.map content (db_messages (w_db (exec (run_server None true queue) w))) =
  List.map content (db_messages (w_db w)) ++
  List.map content (before_sentinel queue).
Proof.
  intros Hdb. unfold exec, run_server, try_except.
  cbn [truthy_opt]. unfold bind at 1. cbn [ret]. unfold bind.
  pose proof (serve_queue_returns queue w) as Hr.
  pose proof (serve_queue_persists queue w Hdb) as Hp.
  destruct (serve_queue queue w) as [r w']. cbn [fst snd] in Hr, Hp.
  subst r. by destruct (has_sentinel queue).
Qed.

(** ** The upload endpoint behind the CORS middleware *)

Section UploadEndpoint.
Context `{Platform} (self : Config).

(** What the upload endpoint serves through [_cors_middleware]. A body
    without parts makes the middleware itself fail (the handler returned
    nothing to set a header on), with the world unchanged. With at least
    one part, the outcome is either the handler's own exception or a
    response that carries [Access-Control-Allow-Origin: *]. *)
Theorem upload_through_cors_middleware
    (uuid : string) (headers : gmap string string) (w : World) :
  _cors_middleware (post_upload_file self uuid)
    {| req_headers := headers; req_fields := [] |} w =
  (Raise (AttributeError "'NoneType' object has no attribute 'headers'"), w) /\
  (forall (field : Field) (rest : list Field),
     let served :=
       _cors_middleware (post_upload_file self uuid)
         {| req_headers := headers; req_fields := field :: rest |} w in
     let handled :=
       post_upload_file self uuid
         {| req_headers := headers; req_fields := field :: rest |} w in
     (exists r, handled.1 = Ok (Some r) /\
                served.1 =
                  Ok {| sv_response := r;
                        sv_headers :=
                          {[ "Access-Control-Allow-Origin" := "*" ]} |}) \/
     (exists e, handled.1 = Raise e /\ served.1 = Raise e)).
Proof.
  split.
  - unfold _cors_middleware, bind. by rewrite post_upload_file_loop.
  - intros field rest served handled. subst served handled.
    unfold _cors_middleware, bind. rewrite post_upload_file_loop.
    cbn [req_fields req_headers]. rewrite upload_loop_first.
    destruct (String.eqb (f_name field) "fileupload");
      [| left; by eexists].
    destruct (save_upload _ _ _ _ _) as [[r | e] w'];
      [left | right]; by eexists.
Qed.


End UploadEndpoint.

(** ** The further properties on concrete inputs *)

Lemma handlers_return_normally_witness :
  eval (add_comment Demo.cfg "s1" Demo.no_msg) Demo.w1 = Ok tt /\
  eval (edit_comment Demo.cfg "s1" (Demo.id_msg 7)) Demo.w1 = Ok tt.
Proof.
  pose proof (handlers_return_normally Demo.cfg "s1" Demo.no_msg Demo.w1
                ltac:(vm_compute; eauto)) as (_ & _ & _ & Hadd & _).
  pose proof (handlers_return_normally Demo.cfg "s1" (Demo.id_msg 7) Demo.w1
                ltac:(vm_compute; eauto)) as (_ & _ & _ & _ & Hedit & _).
  split; assumption.
Defined.

Lemma list_my_messages_can_raise_witness :
  eval (list_my_messages "s1" Demo.no_msg)
       (with_emit_fails (with_db_fails Demo.w1 true) true) =
  Raise TransportError.
Proof.
  unfold eval.
  rewrite (list_my_messages_can_raise "s1" Demo.alice Demo.no_msg
             (with_emit_fails (with_db_fails Demo.w1 true) true)
             ltac:(vm_compute; reflexivity) eq_refl eq_refl eq_refl).
  reflexivity.
Defined.

Lemma del_video_removes_video_and_comments_witness :
  comments_of "vid1" (exec (del_video "s1" (Scene.video_msg "vid1"))
                           Demo.w_replied) = [] /\
  video_of "vid1" (exec (del_video "s1" (Scene.video_msg "vid1"))
                        Demo.w_replied) = None.
Proof.
  pose proof (del_video_removes_video_and_comments Demo.w_replied "s1"
                Demo.alice (Scene.video_msg "vid1") "vid1"
                (Demo.video "vid1" "alice")
                ltac:(vm_compute; reflexivity) eq_refl
                ltac:(vm_compute; reflexivity) eq_refl eq_refl eq_refl) as H.
  cbv zeta in H. destruct H as (Hv & Hc & _). by split.
Defined.

Lemma del_video_refused_for_others_witness :
  db_videos (w_db (exec (del_video "s1" (Scene.video_msg "vid2"))
                        Demo.w_replied)) =
  db_videos (w_db Demo.w_replied).
Proof.
  pose proof (del_video_refused_for_others Demo.w_replied "s1"
                Demo.alice (Scene.video_msg "vid2") "vid2"
                (Demo.video "vid2" "bob")
                ltac:(vm_compute; reflexivity) eq_refl
                ltac:(vm_compute; reflexivity) eq_refl eq_refl eq_refl) as H.
  cbv zeta in H. by destruct H as (Hv & _).
Defined.

Lemma unknown_video_changes_nothing_witness :
  w_rooms (exec (open_video Demo.cfg "s1" (Scene.video_msg "nope")) Demo.w1) =
  w_rooms Demo.w1.
Proof.
  pose proof (unknown_video_changes_nothing Demo.cfg Demo.w1 "s1" Demo.alice
                (Scene.video_msg "nope") "nope"
                ltac:(vm_compute; reflexivity) eq_refl eq_refl eq_refl
                ltac:(vm_compute; reflexivity) eq_refl eq_refl) as H.
  cbv zeta in H. destruct H as (Hopen & _).
  unfold exec. rewrite Hopen. reflexivity.
Defined.

Lemma add_comment_rejects_bad_drawing_witness :
  w_db (exec (add_comment Demo.cfg "s1"
                (Demo.drawing_msg "vid1" "look" "image.webp")) Demo.w1) =
  w_db Demo.w1.
Proof.
  pose proof (add_comment_rejects_bad_drawing Demo.cfg Demo.w1 "s1" Demo.alice
                (Demo.drawing_msg "vid1" "look" "image.webp") "vid1"
                "image.webp" (Demo.video "vid1" "alice")
                ltac:(vm_compute; reflexivity) eq_refl eq_refl eq_refl
                ltac:(vm_compute; reflexivity) eq_refl eq_refl eq_refl
                eq_refl) as H.
  cbv zeta in H. destruct H as (Hbad & _).
  unfold exec. rewrite (Hbad eq_refl). reflexivity.
Defined.

Lemma add_comment_broadcasts_inlined_drawing_witness :
  exists row : Comment,
    c_drawing row = Some "4142000000000000.webp" /\
    emitted_since Demo.w1
      (exec (add_comment Demo.cfg "s1"
               (Demo.drawing_msg "vid1" "look" "data:image/webp;base64,AB"))
            Demo.w1) =
    [new_comment_ev
       (with_drawing row
          (Some "data:image/webp;charset=utf-8;base64,AB"))].
Proof.
  pose proof (add_comment_broadcasts_inlined_drawing Demo.cfg Demo.w1 "s1"
                Demo.alice
                (Demo.drawing_msg "vid1" "look" "data:image/webp;base64,AB")
                "vid1" "data:image/webp;base64,AB"
                (Demo.video "vid1" "alice") (Demo.bytes_of_string "AB")
                ltac:(vm_compute; reflexivity) eq_refl eq_refl eq_refl
                ltac:(vm_compute; reflexivity) eq_refl eq_refl eq_refl
                ltac:(vm_compute; reflexivity) ltac:(vm_compute; reflexivity)
                eq_refl eq_refl ltac:(vm_compute; reflexivity)) as H.
  cbv zeta in H. destruct H as (row & _ & Hd & Hsent).
  exists row. split; [exact Hd|].
  unfold emitted_since. rewrite Hsent, drop_app_length. reflexivity.
Defined.

Lemma del_comment_without_replies_witness :
  thread_shape (exec (del_comment "s1" (Demo.id_msg 2)) Demo.w_replied) =
  [(Some 1, "vid1", None)].
Proof.
  pose proof (del_comment_without_replies Demo.w_replied "s1" Demo.alice
                (Demo.id_msg 2) 2 Demo.reply_comment
                ltac:(vm_compute; reflexivity) eq_refl eq_refl eq_refl
                ltac:(vm_compute; reflexivity) ltac:(vm_compute; reflexivity)
                eq_refl eq_refl) as H.
  cbv zeta in H. destruct H as [Hauth _].
  destruct (Hauth eq_refl) as (Hdb & _).
  unfold thread_shape. rewrite Hdb. vm_compute. reflexivity.
Defined.

Lemma unknown_comment_changes_nothing_witness :
  w_db (exec (del_comment "s1" (Demo.edit_msg 77 "x")) Demo.w_replied) =
  w_db Demo.w_replied.
Proof.
  pose proof (unknown_comment_changes_nothing Demo.cfg Demo.w_replied "s1"
                Demo.alice (Demo.edit_msg 77 "x") 77 "x"
                ltac:(vm_compute; reflexivity) eq_refl eq_refl eq_refl eq_refl
                ltac:(vm_compute; reflexivity) eq_refl eq_refl) as H.
  cbv zeta in H. destruct H as (_ & Hdel).
  unfold exec. rewrite Hdel. reflexivity.
Defined.

Lemma list_my_videos_lists_own_videos_witness :
  emitted_since Demo.w1
    (exec (list_my_videos Demo.cfg "s1" Demo.no_msg) Demo.w1) =
  [user_videos_ev "Alice" "alice"
     [dict_for_video Demo.cfg (Demo.video "vid1" "alice")]].
Proof.
  unfold exec, emitted_since.
  rewrite (list_my_videos_lists_own_videos Demo.cfg Demo.w1 "s1" Demo.alice
             Demo.no_msg ltac:(vm_compute; reflexivity) eq_refl eq_refl).
  cbn [snd]. unfold set_sent at 1. cbn [w_sent].
  rewrite drop_app_length. reflexivity.
Defined.

Lemma list_my_messages_storage_failure_witness :
  w_db (exec (list_my_messages "s1" Demo.no_msg)
             (with_db_fails Demo.w1 true)) =
  w_db (with_db_fails Demo.w1 true).
Proof.
  unfold exec.
  rewrite (list_my_messages_storage_failure (with_db_fails Demo.w1 true) "s1"
             Demo.alice Demo.no_msg ltac:(vm_compute; reflexivity) eq_refl
             eq_refl eq_refl).
  reflexivity.
Defined.


Lemma comments_changed_only_by_comment_handlers_witness :
  db_comments
    (w_db (step Demo.cfg (on_open_video "s1" (Scene.video_msg "vid1"))
                Demo.w_replied)) =
  db_comments (w_db Demo.w_replied).
Proof.
  exact (comments_changed_only_by_comment_handlers Demo.cfg
           (on_open_video "s1" (Scene.video_msg "vid1")) Demo.w_replied
           eq_refl).
Defined.

Lemma files_written_only_by_drawings_and_uploads_witness :
  w_fs (step Demo.cfg (on_del_video "s1" (Scene.video_msg "vid1"))
             Demo.w_replied) =
  w_fs Demo.w_replied.
Proof.
  exact (files_written_only_by_drawings_and_uploads Demo.cfg
           (on_del_video "s1" (Scene.video_msg "vid1")) Demo.w_replied
           eq_refl).
Defined.

Lemma rooms_only_grow_witness :
  members Demo.w_replied "huoneusto" ⊆
  members (step Demo.cfg (on_open_video "s1" (Scene.video_msg "vid1"))
                Demo.w_replied) "huoneusto".
Proof.
  exact (rooms_only_grow Demo.cfg
           (on_open_video "s1" (Scene.video_msg "vid1")) Demo.w_replied
           "huoneusto" eq_refl).
Defined.

Lemma registry_changed_only_by_connections_witness :
  userid_to_sid
    (step Demo.cfg (on_queued_message Demo.note) Demo.w_replied) =
  userid_to_sid Demo.w_replied.
Proof.
  exact (proj1 (registry_changed_only_by_connections Demo.cfg
                  (on_queued_message Demo.note) Demo.w_replied eq_refl)).
Defined.

Lemma run_server_persists_queue_witness :
  List.map content
    (db_messages (w_db (exec (run_server None true Scene.queue) Demo.w0))) =
  [content Demo.note].
Proof.
  exact (run_server_persists_queue Scene.queue Demo.w0 eq_refl).
Defined.

